(** * Pydici: billing, staffing reports and consultant similarity

    A shallow embedding of the aggregation code of
    - [billing/utils.py]  ([compute_bill], [get_billing_info]),
    - [staffing/views.py] ([check_user_timesheet_access], [pdc_review],
                           [prod_report], the CSV exports),
    - [people/learn.py]   ([consultant_cumulated_experience],
                           [compute_consultant_similarity],
                           [predict_similar], [predict_similar_consultant]),
    and the properties of that code.

    Conventions.
    - A nullable [DecimalField] is an [option Qc]: [None] is Python's [None],
      [Some q] a [Decimal] of value [q].  Decimal arithmetic is exact as long
      as the 28 significant digits of the default context are not exceeded,
      which the column widths of the application guarantee, so the value of
      a [Decimal] is a rational number.
    - A Python number of the staffing and similarity code is a [num]: an
      [int] or a [float].  The arithmetic of floats is the parameter
      [FloatOps]; it is instantiated with the binary64 numbers of the
      machine ([binary64_ops]) to run the code, and with the real numbers
      ([real_ops]) to reason about its ideal, unrounded behaviour.
    - A Python exception is a constructor of [exn]; code that can raise
      returns a [result].
    - A [dict] is a [gmap], or the list of its items where the order of
      insertion matters; the rows of a queryset are a [list]. *)

From Stdlib Require Import ZArith QArith Qcanon Bool Lia Floats.
From Stdlib.Strings Require Import Byte Ascii.
From Stdlib Require Import Reals Lra.
From stdpp Require Import base numbers option list strings pretty gmap sorting.

Local Open Scope Z_scope.

(** ** Python values shared by the modules *)

Module Py.

(** The exceptions the embedded code can raise. *)
Inductive exn : Type :=
  | ZeroDivisionError
  | ValueError
  | OverflowError
  | IndexError
  | KeyError
  | TypeError
  | AttributeError
  | DoesNotExist.

(** The outcome of a computation that may raise. *)
Inductive result (A : Type) : Type :=
  | Return (a : A)
  | Raise (e : exn).
Arguments Return {A} a.
Arguments Raise {A} e.

Definition bind {A B} (m : result A) (k : A → result B) : result B :=
  match m with
  | Return a => k a
  | Raise e => Raise e
  end.

Definition exn_eqb (a b : exn) : bool :=
  match a, b with
  | ZeroDivisionError, ZeroDivisionError
  | ValueError, ValueError
  | OverflowError, OverflowError
  | IndexError, IndexError
  | KeyError, KeyError
  | TypeError, TypeError
  | AttributeError, AttributeError
  | DoesNotExist, DoesNotExist => true
  | _, _ => false
  end.

(** [try: m  except e: h] *)
Definition try_except {A} (m : result A) (e : exn) (h : result A) : result A :=
  match m with
  | Return a => Return a
  | Raise e' => if exn_eqb e' e then h else Raise e'
  end.

(** [for x in l: acc = body(acc, x)], where the body may raise. *)
Fixpoint for_each {A S} (body : S → A → result S) (l : list A) (acc : S)
    : result S :=
  match l with
  | [] => Return acc
  | x :: l => bind (body acc x) (for_each body l)
  end.

(** Truthiness of an optional [Decimal]: [None] and zero are falsy. *)
Definition truthy (x : option Qc) : bool :=
  match x with
  | None => false
  | Some q => if decide (q = 0%Qc) then false else true
  end.

(** *** Numbers *)

(** The operations on floats that the code uses.  [of_Z] is the conversion
    of an [int] (exact below 2^53), [ftrunc] the truncation [int(x)], which
    is undefined on infinities and NaN. *)
Class FloatOps (F : Type) : Type := {
  fadd : F → F → F;
  fsub : F → F → F;
  fmul : F → F → F;
  fdiv : F → F → F;
  fsqrt : F → F;
  of_Z : Z → F;
  ftrunc : F → option Z;
  feqb : F → F → bool;
  fltb : F → F → bool;
  fleb : F → F → bool
}.

Inductive num (F : Type) : Type :=
  | Int (z : Z)
  | Float (x : F).
Arguments Int {F} z.
Arguments Float {F} x.

Section Numbers.
Context {F : Type} `{FloatOps F}.

(** The implicit conversion of a mixed operation, and [float(x)]. *)
Definition to_float (a : num F) : F :=
  match a with
  | Int z => of_Z z
  | Float x => x
  end.

Definition float (a : num F) : num F := Float (to_float a).

Definition add (a b : num F) : num F :=
  match a, b with
  | Int x, Int y => Int (x + y)
  | _, _ => Float (fadd (to_float a) (to_float b))
  end.

Definition sub (a b : num F) : num F :=
  match a, b with
  | Int x, Int y => Int (x - y)
  | _, _ => Float (fsub (to_float a) (to_float b))
  end.

Definition mul (a b : num F) : num F :=
  match a, b with
  | Int x, Int y => Int (x * y)
  | _, _ => Float (fmul (to_float a) (to_float b))
  end.

(** [a == 0] *)
Definition is_zero (a : num F) : bool :=
  match a with
  | Int z => z =? 0
  | Float x => feqb x (of_Z 0)
  end.

(** [a / b], the true division: always a float, and an error on a zero
    divisor. *)
Definition truediv (a b : num F) : result (num F) :=
  if is_zero b then Raise ZeroDivisionError
  else Return (Float (fdiv (to_float a) (to_float b))).

(** [a < b] and [a >= b] *)
Definition lt (a b : num F) : bool :=
  match a, b with
  | Int x, Int y => x <? y
  | _, _ => fltb (to_float a) (to_float b)
  end.

Definition ge (a b : num F) : bool :=
  match a, b with
  | Int x, Int y => y <=? x
  | _, _ => fleb (to_float b) (to_float a)
  end.

Definition gt (a b : num F) : bool := lt b a.

(** [math.sqrt(a)], a [ValueError] below zero. *)
Definition sqrt (a : num F) : result (num F) :=
  if fltb (to_float a) (of_Z 0) then Raise ValueError
  else Return (Float (fsqrt (to_float a))).

(** [int(a)] *)
Definition int (a : num F) : result Z :=
  match a with
  | Int z => Return z
  | Float x =>
      match ftrunc x with
      | Some z => Return z
      | None => Raise ValueError
      end
  end.

(** [sum(l)]: the additions start from the [int] 0, from the left. *)
Definition sum (l : list (num F)) : num F := fold_left add l (Int 0).

(** A float above zero is not equal to zero. *)
Definition positive_nonzero : Prop :=
  ∀ x : F, fltb (of_Z 0) x = true → feqb x (of_Z 0) = false.

End Numbers.

(** [d[k]] and [d.get(k, default)] on a [dict]. *)
Definition getitem `{Countable K} {V} (d : gmap K V) (k : K) : result V :=
  match d !! k with
  | Some v => Return v
  | None => Raise KeyError
  end.

Definition get `{Countable K} {V} (d : gmap K V) (k : K) (dflt : V) : V :=
  default dflt (d !! k).

(** [l[i]] on a [list], with Python's negative indices. *)
Definition list_getitem {A} (l : list A) (i : Z) : result A :=
  let n := Z.of_nat (length l) in
  let j := if i <? 0 then i + n else i in
  if (0 <=? j) && (j <? n) then
    match l !! Z.to_nat j with
    | Some x => Return x
    | None => Raise IndexError
    end
  else Raise IndexError.

End Py.

Global Instance result_ret : MRet Py.result := @Py.Return.
Global Instance result_bind : MBind Py.result := λ A B k m, Py.bind m k.

(** ** Two implementations of the float operations *)

Module Binary64.

(** The conversion of an integer below 2^63 in absolute value. *)
Definition of_Z (z : Z) : PrimFloat.float :=
  match z with
  | Z0 => PrimFloat.zero
  | Zpos _ => PrimFloat.of_uint63 (Uint63.of_Z z)
  | Zneg p => PrimFloat.opp (PrimFloat.of_uint63 (Uint63.of_Z (Zpos p)))
  end.

(** Truncation toward zero of a finite float. *)
Definition trunc (x : PrimFloat.float) : option Z :=
  match Prim2SF x with
  | S754_zero _ => Some 0
  | S754_finite s m e =>
      let a := match e with
               | Z0 => Zpos m
               | Zpos k => Z.shiftl (Zpos m) (Zpos k)
               | Zneg k => Z.shiftr (Zpos m) (Zpos k)
               end in
      Some (if s then - a else a)
  | S754_infinity _ | S754_nan => None
  end.

End Binary64.

Global Instance binary64_ops : Py.FloatOps PrimFloat.float := {|
  Py.fadd := PrimFloat.add;
  Py.fsub := PrimFloat.sub;
  Py.fmul := PrimFloat.mul;
  Py.fdiv := PrimFloat.div;
  Py.fsqrt := PrimFloat.sqrt;
  Py.of_Z := Binary64.of_Z;
  Py.ftrunc := Binary64.trunc;
  Py.feqb := PrimFloat.eqb;
  Py.fltb := PrimFloat.ltb;
  Py.fleb := PrimFloat.leb
|}.

Module Ideal.

Definition Reqb (x y : R) : bool := if Req_dec_T x y then true else false.
Definition Rltb (x y : R) : bool := if Rlt_dec x y then true else false.
Definition Rleb (x y : R) : bool := if Rle_dec x y then true else false.

(** Truncation toward zero. *)
Definition trunc (x : R) : option Z :=
  Some (if Rlt_dec x 0 then (- Int_part (- x)) else Int_part x).

End Ideal.

Global Instance real_ops : Py.FloatOps R := {|
  Py.fadd := Rplus;
  Py.fsub := Rminus;
  Py.fmul := Rmult;
  Py.fdiv := Rdiv;
  Py.fsqrt := R_sqrt.sqrt;
  Py.of_Z := IZR;
  Py.ftrunc := Ideal.trunc;
  Py.feqb := Ideal.Reqb;
  Py.fltb := Ideal.Rltb;
  Py.fleb := Ideal.Rleb
|}.

(** ** billing/utils.py *)

Module Billing.
Import Py.
Local Open Scope Qc_scope.

(** The columns of [BillDetail] that [compute_bill] reads. *)
Record BillDetail : Type := mkBillDetail {
  detail_amount : option Qc;
  detail_amount_with_vat : option Qc
}.

(** The columns of [ClientBill] that [compute_bill] reads or writes, with
    the reverse relation [billdetail_set]. *)
Record ClientBill : Type := mkClientBill {
  state : string;
  amount : option Qc;
  amount_with_vat : option Qc;
  vat : Qc;
  billdetail_set : list BillDetail
}.

Definition set_amount (bill : ClientBill) (a : option Qc) : ClientBill :=
  {| state := state bill; amount := a;
     amount_with_vat := amount_with_vat bill; vat := vat bill;
     billdetail_set := billdetail_set bill |}.

Definition set_amount_with_vat (bill : ClientBill) (a : option Qc) : ClientBill :=
  {| state := state bill; amount := amount bill;
     amount_with_vat := a; vat := vat bill;
     billdetail_set := billdetail_set bill |}.

(** [x += v] guarded by [if v:]. *)
Definition add_if_truthy (acc : Qc) (v : option Qc) : Qc :=
  match v with
  | Some q => if truthy v then acc + q else acc
  | None => acc
  end.

(** One turn of the loop over [bill.billdetail_set.all()]. *)
Definition detail_step (acc : Qc * Qc) (bill_detail : BillDetail) : Qc * Qc :=
  (add_if_truthy (fst acc) (detail_amount bill_detail),
   add_if_truthy (snd acc) (detail_amount_with_vat bill_detail)).

(** [bill.state in ("0_DRAFT", "0_PROPOSED")] *)
Definition is_draft_or_proposed (s : string) : bool :=
  bool_decide (s = "0_DRAFT"%string) || bool_decide (s = "0_PROPOSED"%string).

Section ComputeBill.
(** [ClientBill.expensesTotal] and [ClientBill.expensesTotalWithTaxes]
    are methods of the model layer. *)
Variable expensesTotal : ClientBill → Qc.
Variable expensesTotalWithTaxes : ClientBill → Qc.

(** The pair [(amount, amount_with_vat)] of local variables right before
    the two [!= 0] tests. *)
Definition computed_amounts (bill : ClientBill) : Qc * Qc :=
  let acc := fold_left detail_step (billdetail_set bill) (0, 0) in
  (fst acc + expensesTotal bill, snd acc + expensesTotalWithTaxes bill).

(** First block of [compute_bill]: the summation for draft and
    proposed bills. *)
Definition compute_bill_sum (bill : ClientBill) : ClientBill :=
  if is_draft_or_proposed (state bill) then
    let '(a, av) := computed_amounts bill in
    let bill := if decide (a = 0) then bill else set_amount bill (Some a) in
    let bill := if decide (av = 0) then bill
                else set_amount_with_vat bill (Some av) in
    bill
  else bill.

(** Second block: "Automatically compute amount with VAT if not defined". *)
Definition compute_bill_vat (bill : ClientBill) : ClientBill :=
  if negb (truthy (amount_with_vat bill)) then
    match amount bill with
    | Some a =>
        if truthy (amount bill)
        then set_amount_with_vat bill (Some (a * (1 + vat bill / Qc_of_Z 100)))
        else bill
    | None => bill
    end
  else bill.

Definition compute_bill (bill : ClientBill) : ClientBill :=
  compute_bill_vat (compute_bill_sum bill).

End ComputeBill.

(** The sum of the amounts of the bill details: an unset amount
    contributes nothing. *)
Definition amount_or_zero (v : option Qc) : Qc := default 0 v.

Definition details_total (l : list BillDetail) : Qc :=
  foldr (λ d s, amount_or_zero (detail_amount d) + s) 0 l.

Definition details_total_with_vat (l : list BillDetail) : Qc :=
  foldr (λ d s, amount_or_zero (detail_amount_with_vat d) + s) 0 l.

(** Concrete bills used to exercise [compute_bill]. *)
Definition no_expenses (_ : ClientBill) : Qc := 0.

Definition sent_bill : ClientBill :=
  {| state := "1_SENT"; amount := Some (Qc_of_Z 100);
     amount_with_vat := Some (Qc_of_Z 120); vat := Qc_of_Z 20;
     billdetail_set := [mkBillDetail (Some (Qc_of_Z 50)) (Some (Qc_of_Z 60))] |}.

Definition draft_bill : ClientBill :=
  {| state := "0_DRAFT"; amount := None; amount_with_vat := None;
     vat := Qc_of_Z 20;
     billdetail_set := [mkBillDetail (Some (Qc_of_Z 50)) (Some (Qc_of_Z 60));
                        mkBillDetail None None;
                        mkBillDetail (Some (Qc_of_Z 100)) (Some (Qc_of_Z 120))] |}.

(** A draft whose details carry no amount with VAT. *)
Definition draft_bill_without_vat : ClientBill :=
  {| state := "0_DRAFT"; amount := None; amount_with_vat := None;
     vat := Qc_of_Z 20;
     billdetail_set := [mkBillDetail (Some (Qc_of_Z 50)) None;
                        mkBillDetail (Some (Qc_of_Z 150)) None] |}.

(** A draft without details that already carries amounts. *)
Definition empty_draft_bill : ClientBill :=
  {| state := "0_DRAFT"; amount := Some (Qc_of_Z 100);
     amount_with_vat := Some (Qc_of_Z 120); vat := Qc_of_Z 20;
     billdetail_set := [] |}.

End Billing.

(** ** billing/utils.py: [get_billing_info] *)

Module BillingInfo.

(** *** Dictionaries whose order matters

    A [dict] keeps the order in which its keys were inserted, and
    [get_billing_info] returns the items in an order that depends on it.
    Such a dictionary is the list of its items.  The keys are model
    instances, which are equal when their primary keys are: [pk] is the
    primary key of a key. *)
Section Dict.
Context {K V : Type}.
Variable pk : K → Z.

(** [k in d] *)
Definition contains (d : list (K * V)) (k : K) : bool :=
  bool_decide (pk k ∈ (λ item, pk item.1) <$> d).

(** [if not k in d: d[k] = v] *)
Definition setdefault (d : list (K * V)) (k : K) (v : V) : list (K * V) :=
  if contains d k then d else d ++ [(k, v)].

(** [d[k] = f(d[k])], for a key that is in [d]: the key that was inserted
    first stays. *)
Fixpoint update (d : list (K * V)) (k : K) (f : V → V) : list (K * V) :=
  match d with
  | [] => []
  | (k', v) :: d =>
      if decide (pk k' = pk k) then (k', f v) :: d
      else (k', v) :: update d k f
  end.

End Dict.

(** *** [list.sort(key=...)]

    The sort of Python is stable and compares the keys with [<] only; the
    result of a stable sort is determined by the list and the keys, and is
    the one of the insertion sort below.  The keys are texts, compared
    character by character. *)
Section Sort.
Context {A : Type}.
Variable key : A → string.

Fixpoint insert_sorted (x : A) (l : list A) : list A :=
  match l with
  | [] => [x]
  | y :: l' =>
      if String.ltb (key y) (key x) then y :: insert_sorted x l'
      else x :: l
  end.

Definition sort_by_key (l : list A) : list A := foldr insert_sorted [] l.

End Sort.

Section BillingInfo.
Context {F : Type} `{Py.FloatOps F}.

(** The models, as far as the function reads them. *)
Record Lead : Type := mkLead {
  lead_id : Z;
  deal_id : string
}.

Record Consultant : Type := mkConsultant {
  consultant_id : Z;
  trigramme : string
}.

Record Mission : Type := mkMission {
  mission_id : Z;
  lead : option Lead;
  (* [mission.consultant_rates()]: for the primary key of a consultant,
     the daily rate and the bought daily rate *)
  consultant_rates : gmap Z (Py.num F * Py.num F)
}.

Record Database : Type := mkDatabase {
  missions : gmap Z Mission;
  consultants : gmap Z Consultant
}.

(** [Mission.objects.select_related("lead").get(id=mission_id)] and
    [Consultant.objects.get(id=consultant_id)] *)
Definition get_mission (db : Database) (mission_id : Z) : Py.result Mission :=
  match missions db !! mission_id with
  | Some mission => Py.Return mission
  | None => Py.Raise Py.DoesNotExist
  end.

Definition get_consultant (db : Database) (consultant_id : Z)
    : Py.result Consultant :=
  match consultants db !! consultant_id with
  | Some consultant => Py.Return consultant
  | None => Py.Raise Py.DoesNotExist
  end.

(** [core.utils.to_int_or_round(x, 2)] is not part of the files at hand. *)
Variable to_int_or_round : Py.num F → Py.num F.

(** A line of detail: the consultant, the charge, the rate and the
    total. *)
Definition detail : Type := (Consultant * Py.num F * Py.num F * Py.num F)%type.

(** [[total, details]] for a mission and [[total, missions]] for a lead. *)
Definition mission_entry : Type := (Py.num F * list detail)%type.
Definition lead_entry : Type := (Py.num F * list (Mission * mission_entry))%type.
Definition billing_dict : Type := list (Lead * lead_entry).

(** The body of the loop over [timesheet_data] (lines 31-48). *)
Definition billing_step (db : Database) (billing_data : billing_dict)
    (row : Z * Z * Py.num F) : Py.result billing_dict :=
  let '(mission_id', consultant_id', charge) := row in
  mission ← get_mission db mission_id';
  match lead mission with
  | None => Py.Return billing_data
  | Some lead =>
      consultant ← get_consultant db consultant_id';
      let rates := consultant_rates mission in
      let billing_data :=
        setdefault lead_id billing_data lead (Py.Float (Py.of_Z 0), []) in
      let billing_data :=
        update lead_id billing_data lead
          (λ entry,
             (entry.1,
              setdefault mission_id entry.2 mission (Py.Float (Py.of_Z 0), []))) in
      rate ← Py.getitem rates (consultant_id consultant);
      let total := Py.mul charge rate.1 in
      let billing_data :=
        update lead_id billing_data lead
          (λ entry, (Py.add entry.1 total, entry.2)) in
      let billing_data :=
        update lead_id billing_data lead
          (λ entry,
             (entry.1,
              update mission_id entry.2 mission
                (λ m, (Py.add m.1 total, m.2)))) in
      let billing_data :=
        update lead_id billing_data lead
          (λ entry,
             (entry.1,
              update mission_id entry.2 mission
                (λ m, (m.1,
                       m.2 ++ [(consultant, to_int_or_round charge, rate.1,
                                total)])))) in
      Py.Return billing_data
  end.

(** Lines 24-53. *)
Definition get_billing_info (db : Database)
    (timesheet_data : list (Z * Z * Py.num F)) : Py.result billing_dict :=
  billing_data ← Py.for_each (billing_step db) timesheet_data [];
  Py.Return (sort_by_key (λ item, deal_id item.1) billing_data).

End BillingInfo.

Arguments Mission : clear implicits.
Arguments Database : clear implicits.
Arguments detail : clear implicits.
Arguments mission_entry : clear implicits.
Arguments lead_entry : clear implicits.
Arguments billing_dict : clear implicits.

(** The total of a line of detail, and the sum of the totals of the lines
    of a mission, added from the left to the float zero as the loop
    does. *)
Definition detail_total {F} (d : detail F) : Py.num F := d.2.

Definition details_sum {F} `{Py.FloatOps F} (details : list (detail F)) : Py.num F :=
  fold_left Py.add (detail_total <$> details) (Py.Float (Py.of_Z 0)).

(** What the entry of a lead is expected to hold: missions that are
    distinct and that are missions of the lead, each with a total that is
    the sum of the totals of its lines. *)
Definition lead_entry_ok {F} `{Py.FloatOps F} (item : Lead * lead_entry F) : Prop :=
  NoDup ((λ m : Mission F * mission_entry F, mission_id m.1) <$> item.2.2) ∧
  Forall (λ m : Mission F * mission_entry F,
            (∃ l, lead m.1 = Some l ∧ lead_id l = lead_id item.1) ∧
            m.2.1 = details_sum m.2.2)
         item.2.2.

(** In exact arithmetic: the sum of the totals of the missions of a
    lead. *)
Definition missions_sum (entries : list (Mission R * mission_entry R)) : R :=
  foldr (λ item s, (Py.to_float item.2.1 + s)%R) 0%R entries.

(** *** Two leads on binary64 floats *)

Definition lead_b : Lead := mkLead 1 "B-2021".
Definition lead_a : Lead := mkLead 2 "A-2021".

Definition sample_rates : gmap Z (Py.num PrimFloat.float * Py.num PrimFloat.float) :=
  {[ 1 := (Py.Int 1000, Py.Int 0); 2 := (Py.Int 800, Py.Int 600) ]}.

Definition sample_db : Database PrimFloat.float :=
  mkDatabase
    {[ 10 := mkMission 10 (Some lead_b) sample_rates;
       11 := mkMission 11 (Some lead_a) sample_rates;
       12 := mkMission 12 None sample_rates;
       13 := mkMission 13 (Some lead_b) sample_rates ]}
    {[ 1 := mkConsultant 1 "ALI"; 2 := mkConsultant 2 "BOB";
       3 := mkConsultant 3 "EVE" ]}.

(** Rows of (mission, consultant, charge). *)
Definition sample_timesheet : list (Z * Z * Py.num PrimFloat.float) :=
  [(10, 1, Py.Float (Binary64.of_Z 2));
   (12, 1, Py.Float (Binary64.of_Z 5));
   (11, 2, Py.Float (Binary64.of_Z 3));
   (13, 2, Py.Float (Binary64.of_Z 1));
   (10, 2, Py.Float (Binary64.of_Z 4))].

Definition sample_billing : billing_dict PrimFloat.float :=
  match get_billing_info (λ x, x) sample_db sample_timesheet with
  | Py.Return d => d
  | Py.Raise _ => []
  end.

(** *** A lead in exact arithmetic *)

Definition exact_db : Database R :=
  mkDatabase
    {[ 10 := mkMission 10 (Some lead_b) {[ 1 := (Py.Int 1000, Py.Int 0) ]};
       13 := mkMission 13 (Some lead_b) {[ 1 := (Py.Int 1000, Py.Int 0) ]} ]}
    {[ 1 := mkConsultant 1 "ALI" ]}.

Definition exact_timesheet : list (Z * Z * Py.num R) :=
  [(10, 1, Py.Float 2%R); (13, 1, Py.Float 1%R); (10, 1, Py.Float 3%R)].

Definition exact_billing : billing_dict R :=
  match get_billing_info (λ x, x) exact_db exact_timesheet with
  | Py.Return d => d
  | Py.Raise _ => []
  end.

End BillingInfo.
(** ** staffing/views.py: [pdc_review] *)

Module PdcReview.

(** *** Dates and the request *)

Record date : Type := mkDate { year : Z; month : Z; day : Z }.

Global Instance date_eq_dec : EqDecision date.
Proof. solve_decision. Defined.

Global Instance date_countable : Countable date :=
  inj_countable' (λ d, (year d, month d, day d))
                 (λ t, mkDate t.1.1 t.1.2 t.2) (λ d, match d with mkDate _ _ _ => eq_refl end).

Definition is_leap (y : Z) : bool :=
  (y mod 4 =? 0) && (negb (y mod 100 =? 0) || (y mod 400 =? 0)).

Definition days_in_month (y m : Z) : Z :=
  if m =? 2 then (if is_leap y then 29 else 28)
  else if (m =? 4) || (m =? 6) || (m =? 9) || (m =? 11) then 30
  else 31.

(** [date(y, m, d)]: a [ValueError] outside of the calendar. *)
Definition make_date (y m d : Z) : Py.result date :=
  if (1 <=? y) && (y <=? 9999) && (1 <=? m) && (m <=? 12)
     && (1 <=? d) && (d <=? days_in_month y m)
  then Py.Return (mkDate y m d)
  else Py.Raise Py.ValueError.

(** [d.replace(month=m)] and [d.replace(month=m, year=y)] *)
Definition replace_month (d : date) (m : Z) : Py.result date :=
  make_date (year d) m (day d).

Definition replace_month_year (d : date) (m y : Z) : Py.result date :=
  make_date y m (day d).

(** [range(n)] *)
Definition range (n : Z) : list Z := Z.of_nat <$> seq 0 (Z.to_nat n).

(** *** The number of months *)

Section Request.
(** [int(s)], the builtin of Python, on the text of a parameter of the
    request.  Which texts it reads as a number depends on the Unicode
    tables of the interpreter; on a text it raises nothing but
    [ValueError]. *)
Variable int : string → Py.result Z.

(** The number of months to display (lines 309-317). *)
Definition n_month_of (GET : gmap string string) : Py.result Z :=
  let n_month := 4 in
  match GET !! "n_month"%string with
  | Some s =>
      Py.try_except
        (n_month ← int s;
         Py.Return (if 12 <? n_month then 12 else n_month))
        Py.ValueError
        (Py.Return n_month)
  | None => Py.Return n_month
  end.

End Request.

(** [timedelta(days=n)]: a duration has at most 999999999 days, either
    way. *)
Definition timedelta (days : Z) : Py.result Z :=
  if Z.abs days <=? 999999999 then Py.Return days
  else Py.Raise Py.OverflowError.

(** The projection (lines 319-322). *)
Definition projection_of (GET : gmap string string) : string :=
  match GET !! "projection"%string with
  | Some p =>
      if bool_decide (p ∈ ["none"; "balanced"; "full"]%string) then p
      else "balanced"%string
  | None => "balanced"%string
  end.

(** The list of months to display (lines 342-347). *)
Definition months_of (start_date : date) (n_month : Z) : Py.result (list date) :=
  Py.for_each
    (λ months i,
       m ← (if month start_date + i <=? 12
            then replace_month start_date (month start_date + i)
            else replace_month_year start_date (month start_date + i - 12)
                                    (year start_date + 1));
       Py.Return (months ++ [m]))
    (range n_month) [].

(** The first day of the month that comes [i] months after [start_date],
    within a year. *)
Definition month_after (start_date : date) (i : Z) : date :=
  if month start_date + i <=? 12
  then mkDate (year start_date) (month start_date + i) 1
  else mkDate (year start_date + 1) (month start_date + i - 12) 1.

(** *** The staffing of the consultants *)

Section Staffing.
Context {F : Type} `{Py.FloatOps F}.

Record Mission : Type := mkMission {
  mission_id : Z;
  nature : string;
  probability : Z
}.

Record Staffing : Type := mkStaffing {
  staffing_date : date;
  charge : Py.num F;
  mission : Mission
}.

Record Consultant : Type := mkConsultant {
  consultant_id : Z;
  staffing_set : list Staffing
}.

(** [core.utils.working_days(month, holidays_days)] and
    [core.utils.to_int_or_round] are not part of the files at hand. *)
Variable working_days : date → Z.
Variable to_int_or_round : Py.num F → Py.num F.

(** The queryset [current_staffings] (lines 368-373). *)
Definition current_staffings (projection : string) (consultant : Consultant)
    (month : date) : list Staffing :=
  if bool_decide (projection ∈ ["balanced"; "full"]%string) then
    filter (λ s, staffing_date s = month ∧ 0 < probability (mission s))
           (staffing_set consultant)
  else
    filter (λ s, staffing_date s = month ∧ probability (mission s) = 100)
           (staffing_set consultant).

(** What is appended to a bucket for one staffing. *)
Definition projected_charge (projection : string) (current_staffing : Staffing)
    : Py.result (Py.num F) :=
  if bool_decide (projection = "full"%string) then
    Py.Return (charge current_staffing)
  else
    Py.truediv
      (Py.mul (charge current_staffing)
              (Py.Int (probability (mission current_staffing))))
      (Py.Int 100).

(** The three lists [prod], [unprod] and [holidays]. *)
Record buckets : Type := mkBuckets {
  prod : list (Py.num F);
  unprod : list (Py.num F);
  holidays : list (Py.num F)
}.

(** One turn of the loop over [current_staffings] (lines 379-396). *)
Definition bucket_step (projection : string) (b : buckets)
    (current_staffing : Staffing) : Py.result buckets :=
  let nature := nature (mission current_staffing) in
  if bool_decide (nature = "PROD"%string) then
    c ← projected_charge projection current_staffing;
    Py.Return (mkBuckets (prod b ++ [c]) (unprod b) (holidays b))
  else if bool_decide (nature = "NONPROD"%string) then
    c ← projected_charge projection current_staffing;
    Py.Return (mkBuckets (prod b) (unprod b ++ [c]) (holidays b))
  else if bool_decide (nature = "HOLIDAYS"%string) then
    c ← projected_charge projection current_staffing;
    Py.Return (mkBuckets (prod b) (unprod b) (holidays b ++ [c]))
  else Py.Return b.

Definition bucket_staffings (projection : string) (l : list Staffing)
    : Py.result buckets :=
  Py.for_each (bucket_step projection) l (mkBuckets [] [] []).

(** [total[month][key] += v] *)
Definition total_iadd (total : gmap date (gmap string (Py.num F)))
    (month : date) (key : string) (v : Py.num F)
    : Py.result (gmap date (gmap string (Py.num F))) :=
  d ← Py.getitem total month;
  old ← Py.getitem d key;
  Py.Return (<[month := <[key := Py.add old v]> d]> total).

(** The state of the loops over the consultants and the months: the rows
    of [staffing[consultant]] and the dictionary [total]. *)
Definition staffing_state : Type :=
  (list (list (Py.num F)) * gmap date (gmap string (Py.num F)))%type.

(** The body of the loop over the months, for one consultant
    (lines 367-412). *)
Definition month_step (projection : string)
    (available_month : gmap date Z) (consultant : Consultant)
    (st : staffing_state) (month : date) : Py.result staffing_state :=
  let '(rows, total) := st in
  b ← bucket_staffings projection (current_staffings projection consultant month);
  let prod := Py.sum (prod b) in
  let unprod := Py.sum (unprod b) in
  let holidays := Py.sum (holidays b) in
  let prod_round := to_int_or_round prod in
  let unprod_round := to_int_or_round unprod in
  let holidays_round := to_int_or_round holidays in
  days ← Py.getitem available_month month;
  let available := Py.sub (Py.Int days) (Py.add (Py.add prod unprod) holidays) in
  let available_displayed :=
    to_int_or_round
      (Py.sub (Py.Int days)
              (Py.add (Py.add prod_round unprod_round) holidays_round)) in
  let rows :=
    rows ++ [[prod_round; unprod_round; holidays_round; available_displayed]] in
  total ← total_iadd total month "prod" prod;
  total ← total_iadd total month "unprod" unprod;
  total ← total_iadd total month "holidays" holidays;
  total ← total_iadd total month "available" available;
  total ← total_iadd total month "total" (Py.Int days);
  Py.Return (rows, total).

(** The initial [total] and [available_month] (lines 353-356). *)
Definition initial_total (months : list date) : gmap date (gmap string (Py.num F)) :=
  fold_left
    (λ total month,
       <[month := {[ "prod"%string := Py.Int 0; "unprod"%string := Py.Int 0;
                     "holidays"%string := Py.Int 0;
                     "available"%string := Py.Int 0;
                     "total"%string := Py.Int 0 ]}]> total)
    months ∅.

Definition available_month_of (months : list date) : gmap date Z :=
  fold_left (λ am month, <[month := working_days month]> am) months ∅.

(** The loop over the consultants (lines 364-412); the synthesis of the
    clients, which is markup, is left out. *)
Definition consultants_loop (projection : string) (months : list date)
    (available_month : gmap date Z) (consultants : list Consultant)
    : Py.result (list (Consultant * list (list (Py.num F)))
                 * gmap date (gmap string (Py.num F))) :=
  Py.for_each
    (λ '(staffing, total) consultant,
       '(rows, total) ← Py.for_each (month_step projection available_month consultant)
                           months ([], total);
       Py.Return (staffing ++ [(consultant, rows)], total))
    consultants ([], initial_total months).

(** The indicator rates of one month (lines 422-428). *)
Definition month_rate (people_count : Z) (available_month : gmap date Z)
    (total : gmap date (gmap string (Py.num F))) (month : date)
    : Py.result (list (Py.num F)) :=
  days ← Py.getitem available_month month;
  let ndays := Py.Int (people_count * days) in
  Py.for_each
    (λ rate indicator,
       of_month ← Py.getitem total month;
       v ← Py.getitem of_month indicator;
       if bool_decide (indicator = "holidays"%string) then
         r ← Py.truediv (Py.mul (Py.Float (Py.of_Z 100)) v) ndays;
         Py.Return (rate ++ [r])
       else
         h ← Py.getitem of_month "holidays"%string;
         r ← Py.truediv (Py.mul (Py.Float (Py.of_Z 100)) v) (Py.sub ndays h);
         Py.Return (rate ++ [r]))
    ["prod"; "unprod"; "holidays"; "available"]%string [].

(** The list [rates] (lines 421-429). *)
Definition indicator_rates (people_count : Z) (available_month : gmap date Z)
    (total : gmap date (gmap string (Py.num F))) (months : list date)
    : Py.result (list (list (Py.num F))) :=
  Py.for_each
    (λ rates month,
       rate ← month_rate people_count available_month total month;
       Py.Return (rates ++ [to_int_or_round <$> rate]))
    months [].

(** [int] is the builtin of Python, as for [n_month_of]; [add_days d n] is
    [d + timedelta(days=n)], the work of [datetime], which raises
    [OverflowError] when the date leaves the years 1 to 9999. *)
Variable int : string → Py.result Z.
Variable add_days : date → Z → Py.result date.

(** Lines 349-350: the dates of the previous and of the next slice.
    [d - delta] is [d + (- delta)]. *)
Definition slice_dates (start_date : date) (n_month : Z)
    : Py.result (date * date) :=
  delta ← timedelta (28 * n_month);
  previous_slice_date ← add_days start_date (- delta);
  delta ← timedelta (31 * n_month);
  next_slice_date ← add_days start_date delta;
  Py.Return (previous_slice_date, next_slice_date).

(** The part of the view between the choice of the number of months and
    the rates (lines 309-429), for a start date and a number of people that
    the lines before have set. *)
Definition pdc_review_rates (GET : gmap string string) (start_date : date)
    (people_count : Z) (consultants : list Consultant)
    : Py.result (list (list (Py.num F))) :=
  n_month ← n_month_of int GET;
  let projection := projection_of GET in
  months ← months_of start_date n_month;
  '(previous_slice_date, next_slice_date) ← slice_dates start_date n_month;
  let available_month := available_month_of months in
  '(_, total) ← consultants_loop projection months available_month consultants;
  indicator_rates people_count available_month total months.

End Staffing.

Arguments Mission : clear implicits.
Arguments Staffing : clear implicits.
Arguments Consultant : clear implicits.
Arguments buckets : clear implicits.

(** *** The staffing as it is described *)

(** The staffings of one nature. *)
Definition of_nature {F} (n : string) (l : list (Staffing F)) : list (Staffing F) :=
  filter (λ s, nature (mission s) = n) l.

(** The charge of a staffing weighted by the probability of its mission,
    or the raw charge under the full projection. *)
Definition weighted {F} `{Py.FloatOps F} (projection : string) (s : Staffing F)
    : Py.num F :=
  if bool_decide (projection = "full"%string) then charge s
  else Py.Float (Py.fdiv
                   (Py.to_float (Py.mul (charge s) (Py.Int (probability (mission s)))))
                   (Py.of_Z 100)).

(** [100.0 * v / d] *)
Definition percentage {F} `{Py.FloatOps F} (v d : Py.num F) : Py.num F :=
  Py.Float (Py.fdiv (Py.to_float (Py.mul (Py.Float (Py.of_Z 100)) v))
                    (Py.to_float d)).

(** The days of one nature that a consultant is staffed in a month. *)
Definition consultant_sum {F} `{Py.FloatOps F} (projection : string)
    (c : Consultant F) (m : date) (n : string) : Py.num F :=
  Py.sum (weighted projection <$> of_nature n (current_staffings projection c m)).

(** What a consultant adds to an entry of the total of a month. *)
Definition consultant_share {F} `{Py.FloatOps F} (working_days : date → Z)
    (projection : string) (c : Consultant F) (m : date) (key : string)
    : Py.num F :=
  let s := consultant_sum projection c m in
  if bool_decide (key = "prod"%string) then s "PROD"%string
  else if bool_decide (key = "unprod"%string) then s "NONPROD"%string
  else if bool_decide (key = "holidays"%string) then s "HOLIDAYS"%string
  else if bool_decide (key = "available"%string) then
    Py.sub (Py.Int (working_days m))
           (Py.add (Py.add (s "PROD"%string) (s "NONPROD"%string))
                   (s "HOLIDAYS"%string))
  else Py.Int (working_days m).

(** An entry of the total of a month: the shares of the consultants, added
    in the order of the queryset. *)
Definition month_total {F} `{Py.FloatOps F} (working_days : date → Z)
    (projection : string) (consultants : list (Consultant F)) (m : date)
    (key : string) : Py.num F :=
  fold_left (λ acc c, Py.add acc (consultant_share working_days projection c m key))
            consultants (Py.Int 0).

(** The four rates of a month: production, out of production, holidays
    and availability. *)
Definition described_rates {F} `{Py.FloatOps F} (working_days : date → Z)
    (projection : string) (consultants : list (Consultant F))
    (people_count : Z) (m : date) : list (Py.num F) :=
  let t := month_total working_days projection consultants m in
  let ndays := Py.Int (people_count * working_days m) in
  let worked := Py.sub ndays (t "holidays"%string) in
  [percentage (t "prod"%string) worked;
   percentage (t "unprod"%string) worked;
   percentage (t "holidays"%string) ndays;
   percentage (t "available"%string) worked].

(** Neither of the two divisors of the rates of a month is zero. *)
Definition divisors_ok {F} `{Py.FloatOps F} (working_days : date → Z)
    (projection : string) (consultants : list (Consultant F))
    (people_count : Z) (m : date) : bool :=
  let ndays := Py.Int (people_count * working_days m) in
  negb (Py.is_zero ndays)
  && negb (Py.is_zero
             (Py.sub ndays
                (month_total working_days projection consultants m
                   "holidays"%string))).

Definition total_keys : list string :=
  ["prod"; "unprod"; "holidays"; "available"; "total"]%string.

(** The dictionary [total] holds, for each month of [months], the entries
    [v month key]. *)
Definition totals_are {F} (total : gmap date (gmap string (Py.num F)))
    (months : list date) (v : date → string → Py.num F) : Prop :=
  ∀ m, m ∈ months →
    ∃ d, total !! m = Some d ∧ ∀ k, k ∈ total_keys → d !! k = Some (v m k).

(** *** A team of two on binary64 floats *)

Definition january : date := mkDate 2021 1 1.
Definition february : date := mkDate 2021 2 1.

Definition team : list (Consultant PrimFloat.float) :=
  [mkConsultant 1
     [mkStaffing january (Py.Float (Binary64.of_Z 10)) (mkMission 1 "PROD" 100);
      mkStaffing january (Py.Float (Binary64.of_Z 4)) (mkMission 2 "PROD" 50);
      mkStaffing january (Py.Float (Binary64.of_Z 2)) (mkMission 3 "HOLIDAYS" 100);
      mkStaffing february (Py.Float (Binary64.of_Z 8)) (mkMission 1 "PROD" 100)];
   mkConsultant 2
     [mkStaffing january (Py.Float (Binary64.of_Z 5)) (mkMission 4 "NONPROD" 100);
      mkStaffing january (Py.Float (Binary64.of_Z 6)) (mkMission 2 "PROD" 50);
      mkStaffing january (Py.Float (Binary64.of_Z 3)) (mkMission 5 "PROD" 0)]].

(** Twenty working days in every month. *)
Definition twenty_days (_ : date) : Z := 20.

(** *** The texts of the examples

    [sample_int] stands for [int] in the examples, which are short texts
    made of ASCII characters.  It reads a number in base 10: white space
    around (the space and the characters 9 to 13), an optional sign,
    digits, and single underscores between digits; on anything else it
    raises [ValueError].  The builtin also reads the digits and the white
    space of the other scripts, by the Unicode tables of the interpreter:
    this is why the view is stated over [int] and not over
    [sample_int]. *)
Definition is_ascii_space (c : ascii) : bool :=
  let n := Z.of_nat (nat_of_ascii c) in
  (n =? 32) || ((9 <=? n) && (n <=? 13)).

Definition digit_value (c : ascii) : option Z :=
  let n := Z.of_nat (nat_of_ascii c) in
  if (48 <=? n) && (n <=? 57) then Some (n - 48) else None.

Fixpoint parse_digits (s : list ascii) (acc : Z) (after_digit : bool)
    : option Z :=
  match s with
  | [] => if after_digit then Some acc else None
  | c :: s =>
      match digit_value c with
      | Some v => parse_digits s (10 * acc + v) true
      | None =>
          if bool_decide (c = "_"%char) && after_digit
          then parse_digits s acc false
          else None
      end
  end.

Fixpoint lstrip (s : list ascii) : list ascii :=
  match s with
  | c :: s' => if is_ascii_space c then lstrip s' else s
  | [] => []
  end.

Definition strip (s : list ascii) : list ascii :=
  rev (lstrip (rev (lstrip s))).

Definition sample_int (s : string) : Py.result Z :=
  let body := strip (String.list_ascii_of_string s) in
  let signed :=
    match body with
    | c :: rest =>
        if bool_decide (c = "-"%char) then (true, rest)
        else if bool_decide (c = "+"%char) then (false, rest)
        else (false, body)
    | [] => (false, [])
    end in
  match parse_digits signed.2 0 false with
  | Some z => Py.Return (if signed.1 then - z else z)
  | None => Py.Raise Py.ValueError
  end.

End PdcReview.

(** ** staffing/views.py: the access to the timesheets *)

Module TimesheetAccess.
Import PdcReview.

(** The constants [TIMESHEET_ACCESS_*]. *)
Inductive access : Type :=
  | TIMESHEET_ACCESS_NOT_ALLOWED
  | TIMESHEET_ACCESS_READ_ONLY
  | TIMESHEET_ACCESS_READ_WRITE.

Global Instance access_eq_dec : EqDecision access.
Proof. solve_decision. Defined.

(** The text of a constant. *)
Definition access_code (a : access) : string :=
  match a with
  | TIMESHEET_ACCESS_NOT_ALLOWED => "N"
  | TIMESHEET_ACCESS_READ_ONLY => "RO"
  | TIMESHEET_ACCESS_READ_WRITE => "RW"
  end.

(** [d.replace(day=1)] *)
Definition first_day (d : date) : date := mkDate (year d) (month d) 1.

(** [a >= b] on dates *)
Definition date_ge (a b : date) : bool :=
  (year b <? year a)
  || ((year b =? year a)
      && ((month b <? month a)
          || ((month b =? month a) && (day b <=? day a)))).

Record User : Type := mkUser {
  username : string;
  (* [user.has_perm(p)] *)
  has_perm : string → bool
}.

Record Consultant : Type := mkConsultant {
  id : Z;
  subcontractor : bool;
  (* the primary keys of [consultant.team()] *)
  team : list Z
}.

Section Access.
(** [date.today()], [d + timedelta(days=n)], which overflows after the
    year 9999, and [(a - b).days] are the work of [datetime]; [str.upper]
    is the one of Python, [user_has_feature] comes from [core.utils], and
    [consultants] is the table of the consultants by trigramme. *)
Variable today : date.
Variable add_days : date → Z → Py.result date.
Variable days_between : date → date → Z.
Variable upper : string → string.
Variable user_has_feature : User → string → bool.
Variable consultants : gmap string Consultant.

(** [Consultant.objects.get(trigramme=trigramme)] *)
Definition get_consultant (trigramme : string) : Py.result Consultant :=
  match consultants !! trigramme with
  | Some c => Py.Return c
  | None => Py.Raise Py.DoesNotExist
  end.

(** Line 72: the month can still be edited. *)
Definition ontime_editing (timesheet_month timesheet_next_month : date) : bool :=
  bool_decide (first_day today = timesheet_month)
  || (days_between today timesheet_next_month <=? 3).

(** Lines 74-76: the three permissions on the timesheets. *)
Definition has_timesheet_perms (user : User) : bool :=
  has_perm user "staffing.add_timesheet"
  && has_perm user "staffing.change_timesheet"
  && has_perm user "staffing.delete_timesheet".

(** Line 84: the timesheet is the one of the user or of the team. *)
Definition own_or_team (user_consultant consultant : Consultant) : bool :=
  (id user_consultant =? id consultant)
  || bool_decide (id consultant ∈ team user_consultant).

(** Lines 84-112: what a user who is the consultant [user_consultant]
    may do. *)
Definition consultant_access (user : User) (user_consultant consultant : Consultant)
    (timesheet_month : date) (ontime_editing : bool) : access :=
  let current_month := first_day today in
  if own_or_team user_consultant consultant then
    if ontime_editing then TIMESHEET_ACCESS_READ_WRITE
    else TIMESHEET_ACCESS_READ_ONLY
  else if subcontractor user_consultant then TIMESHEET_ACCESS_NOT_ALLOWED
  else if subcontractor consultant
          && user_has_feature user "timesheet_subcontractor" then
    if ontime_editing then TIMESHEET_ACCESS_READ_WRITE
    else TIMESHEET_ACCESS_READ_ONLY
  else if user_has_feature user "timesheet_all" then TIMESHEET_ACCESS_READ_ONLY
  else if user_has_feature user "timesheet_current_month" then
    if date_ge timesheet_month current_month then TIMESHEET_ACCESS_READ_ONLY
    else TIMESHEET_ACCESS_NOT_ALLOWED
  else TIMESHEET_ACCESS_NOT_ALLOWED.

(** Lines 64-112. *)
Definition check_user_timesheet_access (user : User) (consultant : Consultant)
    (timesheet_month : date) : Py.result access :=
  next ← add_days timesheet_month 40;
  let timesheet_next_month := first_day next in
  let ontime_editing := ontime_editing timesheet_month timesheet_next_month in
  if has_timesheet_perms user then Py.Return TIMESHEET_ACCESS_READ_WRITE
  else
    Py.try_except
      (let trigramme := upper (username user) in
       user_consultant ← get_consultant trigramme;
       Py.Return
         (consultant_access user user_consultant consultant timesheet_month
            ontime_editing))
      Py.DoesNotExist
      (Py.Return TIMESHEET_ACCESS_NOT_ALLOWED).

(** *** [consultant_timesheet]: what becomes of a request *)

(** The ways out of the view: the redirection to the page "forbidden",
    before anything is read (line 716) or on a POST without the right to
    write (line 746), the CSV export, the page after the timesheet was
    saved, and the page alone. *)
Inductive outcome : Type :=
  | NotAllowed
  | Forbidden
  | CsvExport
  | SavedAndRendered
  | Rendered.

(** Lines 713-757, where [csv] is ["csv" in request.GET], [post] is
    [request.method == 'POST'] and [valid] is [form.is_valid()]. *)
Definition consultant_timesheet_outcome (user : User) (consultant : Consultant)
    (month : date) (csv post valid : bool) : Py.result outcome :=
  access ← check_user_timesheet_access user consultant month;
  if bool_decide (access = TIMESHEET_ACCESS_NOT_ALLOWED) then Py.Return NotAllowed
  else
    let readOnly := bool_decide (access = TIMESHEET_ACCESS_READ_ONLY) in
    if csv then Py.Return CsvExport
    else if post then
      if readOnly then Py.Return Forbidden
      else if valid then Py.Return SavedAndRendered
      else Py.Return Rendered
    else Py.Return Rendered.

End Access.

(** The order of the accesses: not allowed, read only, read and write. *)
Definition access_rank (a : access) : Z :=
  match a with
  | TIMESHEET_ACCESS_NOT_ALLOWED => 0
  | TIMESHEET_ACCESS_READ_ONLY => 1
  | TIMESHEET_ACCESS_READ_WRITE => 2
  end.

(** *** A manager, a consultant of the team and a subcontractor *)

Definition sample_today : date := mkDate 2021 3 10.

(** Dates of the year 2021 only: the day of the year, and back. *)
Definition days_before_month (m : Z) : Z :=
  nth (Z.to_nat (m - 1)) [0; 31; 59; 90; 120; 151; 181; 212; 243; 273; 304; 334] 0.

Definition day_of_2021 (d : date) : Z := days_before_month (month d) + day d.

Definition sample_add_days (d : date) (n : Z) : Py.result date :=
  let o := day_of_2021 d + n in
  let m := Z.of_nat (length (filter (λ b, b <? o)
                               [0; 31; 59; 90; 120; 151; 181; 212; 243; 273;
                                304; 334])) in
  Py.Return (mkDate 2021 m (o - days_before_month m)).

Definition sample_days_between (a b : date) : Z := day_of_2021 a - day_of_2021 b.

Definition manager : Consultant := mkConsultant 1 false [2; 3].
Definition member : Consultant := mkConsultant 2 false [].
Definition outsider : Consultant := mkConsultant 4 true [].

Definition sample_consultants : gmap string Consultant :=
  {[ "MGR"%string := manager; "MBR"%string := member; "OUT"%string := outsider ]}.

Definition sample_user (name : string) : User := mkUser name (λ _, false).

Definition sample_access (name : string) (consultant : Consultant) (month : date)
    : Py.result access :=
  check_user_timesheet_access sample_today sample_add_days sample_days_between
    (λ s, s) (λ _ _, false) sample_consultants (sample_user name) consultant month.

End TimesheetAccess.
(** ** staffing/views.py: [prod_report] *)

Module ProdReport.

(** The keys of the dictionary [all_status], and its colours. *)
Inductive status : Type :=
  | ok
  | ko
  | ok_but_daily_rate
  | ok_but_prod_date
  | ko_but_daily_rate
  | ko_but_prod_date.

Definition all_status (s : status) : string :=
  match s with
  | ok => "#43E707"
  | ko => "#E76F6F"
  | ok_but_daily_rate => "#CCE7B2"
  | ok_but_prod_date => "#A2E774"
  | ko_but_daily_rate => "#E7E36D"
  | ko_but_prod_date => "#F99E9E"
  end.

Section Report.
Context {F : Type} `{Py.FloatOps F}.

(** What is computed for one consultant and one month. *)
Record month_report : Type := mkMonthReport {
  turnover : Z;
  forecast : Z;
  prod_rate : Py.num F;
  prod_rate_obj : Py.num F;
  daily_rate : Py.num F;
  daily_rate_obj : Py.num F;
  report_status : status
}.

(** [o.rate], where [o] is what [consultant.get_rate_objective] returned:
    an objective or [None]. *)
Definition rate (o : option (Py.num F)) : Py.result (Py.num F) :=
  match o with
  | Some r => Py.Return r
  | None => Py.Raise Py.AttributeError
  end.

(** Lines 564-570: the objectives and the forecast. *)
Definition objectives (daily_rate_objective prod_rate_objective : option (Py.num F))
    (month_days : Z) (consultant_days : gmap string (Py.num F))
    : Py.result (Py.num F * Py.num F * Z) :=
  Py.try_except
    (daily_rate_obj ← rate daily_rate_objective;
     r ← rate prod_rate_objective;
     prod_rate_obj ← Py.truediv (Py.float r) (Py.Int 100);
     forecast ← Py.int
       (Py.mul (Py.mul daily_rate_obj prod_rate_obj)
               (Py.sub (Py.Int month_days)
                       (Py.get consultant_days "HOLIDAYS"%string (Py.Int 0))));
     Py.Return (daily_rate_obj, prod_rate_obj, forecast))
    Py.AttributeError
    (Py.Return (Py.Int 0, Py.Int 0, 0)).

(** Lines 572-575: the production rate. *)
Definition compute_prod_rate (consultant_days : gmap string (Py.num F))
    : Py.result (Py.num F) :=
  Py.try_except
    (Py.truediv
       (Py.get consultant_days "PROD"%string (Py.Int 0))
       (Py.add (Py.get consultant_days "PROD"%string (Py.Int 0))
               (Py.get consultant_days "NONPROD"%string (Py.Int 0))))
    Py.ZeroDivisionError
    (Py.Return (Py.Int 0)).

(** Lines 576-579: the daily rate. *)
Definition compute_daily_rate (turnover : Z)
    (consultant_days : gmap string (Py.num F)) : Py.result (Py.num F) :=
  if Py.gt (Py.get consultant_days "PROD"%string (Py.Int 0)) (Py.Int 0) then
    days ← Py.getitem consultant_days "PROD"%string;
    Py.truediv (Py.Int turnover) days
  else Py.Return (Py.Int 0).

(** Lines 580-593: the status. *)
Definition compute_status (turnover forecast : Z)
    (prod_rate prod_rate_obj daily_rate daily_rate_obj : Py.num F) : status :=
  if forecast <=? turnover then
    if Py.lt prod_rate prod_rate_obj then ok_but_prod_date
    else if Py.lt daily_rate daily_rate_obj then ok_but_daily_rate
    else ok
  else
    if Py.ge prod_rate prod_rate_obj then ko_but_prod_date
    else if Py.ge daily_rate daily_rate_obj then ko_but_daily_rate
    else ko.

(** The body of the loop over the months (lines 562-593).  [turnover] is
    [consultant.get_turnover(month, upperBound)], before [int]. *)
Definition consultant_month
    (daily_rate_objective prod_rate_objective : option (Py.num F))
    (month_days : Z) (consultant_days : gmap string (Py.num F))
    (turnover : Py.num F) : Py.result month_report :=
  '(daily_rate_obj, prod_rate_obj, forecast) ←
    objectives daily_rate_objective prod_rate_objective month_days consultant_days;
  turnover ← Py.int turnover;
  prod_rate ← compute_prod_rate consultant_days;
  daily_rate ← compute_daily_rate turnover consultant_days;
  Py.Return
    (mkMonthReport turnover forecast prod_rate prod_rate_obj daily_rate
       daily_rate_obj
       (compute_status turnover forecast prod_rate prod_rate_obj daily_rate
          daily_rate_obj)).

End Report.

Arguments month_report : clear implicits.

(** The six statuses as the description of the report gives them. *)
Inductive status_rule {F} `{Py.FloatOps F} (r : month_report F) : status → Prop :=
  | rule_ok_but_prod_date :
      forecast r ≤ turnover r →
      Py.lt (prod_rate r) (prod_rate_obj r) = true →
      status_rule r ok_but_prod_date
  | rule_ok_but_daily_rate :
      forecast r ≤ turnover r →
      Py.lt (prod_rate r) (prod_rate_obj r) = false →
      Py.lt (daily_rate r) (daily_rate_obj r) = true →
      status_rule r ok_but_daily_rate
  | rule_ok :
      forecast r ≤ turnover r →
      Py.lt (prod_rate r) (prod_rate_obj r) = false →
      Py.lt (daily_rate r) (daily_rate_obj r) = false →
      status_rule r ok
  | rule_ko_but_prod_date :
      turnover r < forecast r →
      Py.ge (prod_rate r) (prod_rate_obj r) = true →
      status_rule r ko_but_prod_date
  | rule_ko_but_daily_rate :
      turnover r < forecast r →
      Py.ge (prod_rate r) (prod_rate_obj r) = false →
      Py.ge (daily_rate r) (daily_rate_obj r) = true →
      status_rule r ko_but_daily_rate
  | rule_ko :
      turnover r < forecast r →
      Py.ge (prod_rate r) (prod_rate_obj r) = false →
      Py.ge (daily_rate r) (daily_rate_obj r) = false →
      status_rule r ko.

(** A month of a consultant, on binary64 floats: 12 days of production and
    3 days out of production, objectives of 1000 a day and 70 %, 20 working
    days, a turnover of 13000. *)
Definition sample_days : gmap string (Py.num PrimFloat.float) :=
  {[ "PROD"%string := Py.Float (Binary64.of_Z 12);
     "NONPROD"%string := Py.Float (Binary64.of_Z 3) ]}.

Definition sample_month : Py.result (month_report PrimFloat.float) :=
  consultant_month (Some (Py.Int 1000)) (Some (Py.Int 70)) 20 sample_days
    (Py.Float (Binary64.of_Z 13000)).

Definition sample_report : month_report PrimFloat.float :=
  match sample_month with
  | Py.Return r => r
  | Py.Raise _ => mkMonthReport 0 0 (Py.Int 0) (Py.Int 0) (Py.Int 0) (Py.Int 0) ko
  end.

(** A consultant without any timesheet in the month. *)
Definition idle_month : Py.result (month_report PrimFloat.float) :=
  consultant_month (Some (Py.Int 1000)) (Some (Py.Int 70)) 20 ∅ (Py.Int 0).

(** *** The loops over the consultants and the months, and the totals *)

Section Totals.
Context {F : Type} `{Py.FloatOps F}.

(** What the queries of the loop give for a consultant and a month: the
    two rate objectives, [working_days(month, ...)], the dictionary
    [consultant_days] and [consultant.get_turnover(month, upperBound)]. *)
Record month_queries : Type := mkMonthQueries {
  daily_rate_objective : option (Py.num F);
  prod_rate_objective : option (Py.num F);
  month_days : Z;
  consultant_days : gmap string (Py.num F);
  get_turnover : Py.num F
}.

Record Consultant : Type := mkConsultant {
  consultant_name : string;
  queries : PdcReview.date → month_queries
}.

(** [if month not in d: d[month] = 0] *)
Definition init_month (d : gmap PdcReview.date Z) (month : PdcReview.date)
    : gmap PdcReview.date Z :=
  match d !! month with
  | Some _ => d
  | None => <[month := 0]> d
  end.

(** [d[month] += v] *)
Definition total_iadd (d : gmap PdcReview.date Z) (month : PdcReview.date)
    (v : Z) : Py.result (gmap PdcReview.date Z) :=
  old ← Py.getitem d month;
  Py.Return (<[month := old + v]> d).

(** [consultantData], [totalDone] and [totalForecasted].  Of the three
    items appended to [consultantData] for a month, the status and the
    figures are kept in the report of the month; the tooltip is markup. *)
Definition report_state : Type :=
  (list (month_report F) * gmap PdcReview.date Z * gmap PdcReview.date Z)%type.

(** The body of the loop over the months (lines 549-597). *)
Definition report_month_step (consultant : Consultant) (st : report_state)
    (month : PdcReview.date) : Py.result report_state :=
  let '(consultantData, totalDone, totalForecasted) := st in
  let totalDone := init_month totalDone month in
  let totalForecasted := init_month totalForecasted month in
  let q := queries consultant month in
  r ← consultant_month (daily_rate_objective q) (prod_rate_objective q)
        (month_days q) (consultant_days q) (get_turnover q);
  let consultantData := consultantData ++ [r] in
  totalDone ← total_iadd totalDone month (turnover r);
  totalForecasted ← total_iadd totalForecasted month (forecast r);
  Py.Return (consultantData, totalDone, totalForecasted).

(** The loop over the consultants (lines 547-598). *)
Definition report_consultants_loop (months : list PdcReview.date)
    (consultants : list Consultant)
    : Py.result (list (Consultant * list (month_report F))
                 * gmap PdcReview.date Z * gmap PdcReview.date Z) :=
  Py.for_each
    (λ '(data, totalDone, totalForecasted) consultant,
       '(consultantData, totalDone, totalForecasted) ←
         Py.for_each (report_month_step consultant) months
           ([], totalDone, totalForecasted);
       Py.Return (data ++ [(consultant, consultantData)],
                  totalDone, totalForecasted))
    consultants ([], ∅, ∅).

(** Lines 605-608: the status of a total. *)
Definition total_status (forecast turnover : Z) : status :=
  if turnover <? forecast then ko else ok.

(** The loop of the totals (lines 601-609): a status, the turnover and
    the forecast for each month. *)
Definition report_total (months : list PdcReview.date)
    (totalDone totalForecasted : gmap PdcReview.date Z)
    : Py.result (list (status * Z * Z)) :=
  Py.for_each
    (λ totalData month,
       forecast ← Py.getitem totalForecasted month;
       turnover ← Py.getitem totalDone month;
       Py.Return
         (totalData ++ [(total_status forecast turnover, turnover, forecast)]))
    months [].

(** The list [data] of the page: the lines of the consultants, and the
    line of the totals. *)
Definition prod_report_data (months : list PdcReview.date)
    (consultants : list Consultant)
    : Py.result (list (Consultant * list (month_report F))
                 * list (status * Z * Z)) :=
  '(data, totalDone, totalForecasted) ←
    report_consultants_loop months consultants;
  totalData ← report_total months totalDone totalForecasted;
  Py.Return (data, totalData).

End Totals.

Arguments month_queries : clear implicits.
Arguments Consultant : clear implicits.

(** The sum of a figure of the reports of a month over the consultants. *)
Definition month_sum {F} (figure : month_report F → Z)
    (report : Consultant F → PdcReview.date → month_report F)
    (consultants : list (Consultant F)) (month : PdcReview.date) : Z :=
  foldr (λ c s, figure (report c month) + s) 0 consultants.

(** The statuses of a month whose turnover reaches the forecast. *)
Definition reached (s : status) : bool :=
  match s with
  | ok | ok_but_daily_rate | ok_but_prod_date => true
  | ko | ko_but_daily_rate | ko_but_prod_date => false
  end.

(** Two consultants and two months, on binary64 floats: the first one
    as in [sample_month], the second one without any timesheet. *)
Definition sample_consultants : list (Consultant PrimFloat.float) :=
  [mkConsultant "alice"
     (λ _, mkMonthQueries (Some (Py.Int 1000)) (Some (Py.Int 70)) 20
             sample_days (Py.Float (Binary64.of_Z 13000)));
   mkConsultant "bob"
     (λ _, mkMonthQueries (Some (Py.Int 1000)) (Some (Py.Int 70)) 20 ∅
             (Py.Int 0))].

Definition sample_months : list PdcReview.date :=
  [PdcReview.january; PdcReview.february].

(** The report of a consultant of the sample for a month. *)
Definition sample_report_of (c : Consultant PrimFloat.float)
    (month : PdcReview.date) : month_report PrimFloat.float :=
  let q := queries c month in
  match consultant_month (daily_rate_objective q) (prod_rate_objective q)
          (month_days q) (consultant_days q) (get_turnover q) with
  | Py.Return r => r
  | Py.Raise _ => mkMonthReport 0 0 (Py.Int 0) (Py.Int 0) (Py.Int 0) (Py.Int 0) ko
  end.

End ProdReport.
(** ** staffing/views.py: the CSV exports *)

Module Csv.

Definition bytes : Type := list byte.

Global Instance byte_eq_decision : EqDecision byte := Byte.byte_eq_dec.

(** [codecs.BOM_UTF8] *)
Definition BOM_UTF8 : bytes := [xef; xbb; xbf].

(** *** The response *)

Record HttpResponse : Type := mkHttpResponse {
  content_type : string;
  headers : list (string * bytes);
  content : bytes
}.

(** [HttpResponse(content_type=t)] *)
Definition new_response (t : string) : HttpResponse :=
  mkHttpResponse t [] [].

(** [response[k] = v] *)
Definition set_header (response : HttpResponse) (k : string) (v : bytes)
    : HttpResponse :=
  mkHttpResponse (content_type response)
    (filter (λ h, h.1 ≠ k) (headers response) ++ [(k, v)]) (content response).

(** [response.write(data)] *)
Definition write (response : HttpResponse) (data : bytes) : HttpResponse :=
  mkHttpResponse (content_type response) (headers response)
    (content response ++ data).

(** *** The writer of the [csv] module

    [csv.writer(f, delimiter=d)] with the other parameters of the default
    dialect: the quote character is the double quote, quotes are doubled,
    lines end with CR LF, and a field is quoted only when it has to be.
    Fields are texts encoded in UTF-8; the delimiter, the quote and the
    line ends are ASCII, so that looking for them byte by byte is looking
    for them character by character. *)
Record writer : Type := mkWriter {
  delimiter : byte;
  quotechar : byte;
  lineterminator : bytes
}.

Definition csv_writer (delimiter : byte) : writer :=
  mkWriter delimiter x22 [x0d; x0a].

Definition is_special (w : writer) (c : byte) : bool :=
  bool_decide (c = delimiter w) || bool_decide (c = quotechar w)
  || bool_decide (c ∈ lineterminator w).

Definition format_field (w : writer) (field : bytes) : bytes :=
  if existsb (is_special w) field then
    [quotechar w]
    ++ flat_map (λ c, if bool_decide (c = quotechar w) then [c; c] else [c]) field
    ++ [quotechar w]
  else field.

(** The fields of a row, separated by the delimiter. *)
Fixpoint join_fields (w : writer) (fields : list bytes) : bytes :=
  match fields with
  | [] => []
  | [f] => format_field w f
  | f :: fields => format_field w f ++ delimiter w :: join_fields w fields
  end.

(** A row made of one empty field is written as a pair of quotes. *)
Definition format_row (w : writer) (fields : list bytes) : bytes :=
  match fields with
  | [[]] => [quotechar w; quotechar w]
  | _ => join_fields w fields
  end ++ lineterminator w.

Section Exports.
Context {F : Type} `{Py.FloatOps F}.

(** What a view puts in a row: a text, a number or [None]. *)
Inductive cell : Type :=
  | Text (s : bytes)
  | Number (n : Py.num F)
  | NoCell.

(** [str] of a number, [ugettext], [formats.number_format] and the
    formatter of [TIMESTRING_FORMATTER] chosen by the settings. *)
Variable str : Py.num F → bytes.
Variable gettext : bytes → bytes.
Variable number_format : Py.num F → bytes.
Variable timestring_formatter : Py.num F → bytes.

(** The text the writer makes of a cell. *)
Definition cell_text (c : cell) : bytes :=
  match c with
  | Text s => s
  | Number n => str n
  | NoCell => []
  end.

(** [writer.writerow(row)], the writer writing to the response. *)
Definition writerow (w : writer) (response : HttpResponse) (row : list cell)
    : HttpResponse :=
  write response (format_row w (cell_text <$> row)).

(** The three lines that open every export. *)
Definition csv_response (filename : bytes) : HttpResponse :=
  let response := new_response "text/csv" in
  let response := set_header response "Content-Disposition" filename in
  write response BOM_UTF8.

(** The ASCII text of a literal of the source. *)
Definition ascii_bytes (s : string) : bytes :=
  (λ c, default x00 (Byte.of_nat (nat_of_ascii c))) <$> String.list_ascii_of_string s.

Definition timesheet_filename : bytes :=
  ascii_bytes "attachment; filename=" ++ gettext (ascii_bytes "timesheet.csv").

(** **** [consultant_csv_timesheet] *)

Record Day : Type := mkDay {
  day_number : Z;              (* [d.day] *)
  day_name : bytes             (* [d.strftime("%a")] *)
}.

Record MissionLine : Type := mkMissionLine {
  mission_text : bytes;        (* [str(mission)] *)
  mission_id : bytes;          (* [mission.mission_id()] *)
  (* the charge of the timesheet of a day, [None] for [DoesNotExist] *)
  timesheet_charge : Day → option (Py.num F)
}.

(** The loop over the days of a mission (lines 816-822). *)
Definition mission_days (mission : MissionLine) (days : list Day)
    : list cell * Py.num F :=
  fold_left
    (λ '(row, total) day,
       match timesheet_charge mission day with
       | Some charge =>
           (row ++ [Text (timestring_formatter charge)], Py.add total charge)
       | None => (row ++ [Text []], total)
       end)
    days ([Text (mission_text mission); Text (mission_id mission)], Py.Int 0).

Definition consultant_csv_timesheet (consultant month : bytes)
    (days : list Day) (missions : list MissionLine) : HttpResponse :=
  let response := csv_response timesheet_filename in
  let writer := csv_writer x3b in
  let response :=
    writerow writer response [Text (consultant ++ ascii_bytes " - " ++ month)] in
  let response :=
    writerow writer response
      ([Text []; Text []] ++ ((λ d, Number (Py.Int (day_number d))) <$> days)) in
  let response :=
    writerow writer response
      ([Text (gettext (ascii_bytes "Mission"));
        Text (gettext (ascii_bytes "Deal id"))]
       ++ ((λ d, Text (gettext (day_name d))) <$> days)
       ++ [Text (gettext (ascii_bytes "total"))]) in
  fold_left
    (λ response mission,
       let '(row, total) := mission_days mission days in
       writerow writer response (row ++ [Text (number_format total)]))
    missions response.

(** **** [all_csv_timesheet] *)

Definition all_csv_timesheet (charges : list (list cell)) (month : bytes)
    : HttpResponse :=
  let response := csv_response timesheet_filename in
  let writer := csv_writer x3b in
  let response := writerow writer response [Text month] in
  fold_left
    (λ response charge,
       let row :=
         fold_left
           (λ row i,
              let i := match i with
                       | Number (Py.Float x) => Text (number_format (Py.Float x))
                       | _ => i
                       end in
              row ++ [i])
           charge [] in
       writerow writer response row)
    charges response.

(** **** [detailed_csv_timesheet] *)

Record LeadLine : Type := mkLeadLine {
  lead_text : bytes;           (* [str(mission.lead)] *)
  deal_id : bytes;
  sales : cell
}.

(** [if x] on a number that may be [None]. *)
Definition number_truthy (x : option (Py.num F)) : bool :=
  match x with
  | Some n => negb (Py.is_zero n)
  | None => false
  end.

(** [formats.number_format(x) if x else 0] *)
Definition format_or_zero (x : option (Py.num F)) : cell :=
  match x with
  | Some n => if number_truthy x then Text (number_format n) else Number (Py.Int 0)
  | None => Number (Py.Int 0)
  end.

Record ConsultantLine : Type := mkConsultantLine {
  consultant_text : bytes;
  (* the financial condition, [None] for [DoesNotExist], with its
     [daily_rate] and [bought_daily_rate] *)
  financial_condition : option (option (Py.num F) * option (Py.num F));
  past_days : option (Py.num F);
  done_days : option (Py.num F);
  forecast_days : option (Py.num F)
}.

Record DetailedMission : Type := mkDetailedMission {
  lead : option LeadLine;
  detailed_text : bytes;       (* [str(mission)] *)
  detailed_id : bytes;         (* [mission.mission_id()] *)
  billing_mode : bytes;        (* [mission.get_billing_mode_display()] *)
  price : option (Py.num F);
  consultants : list ConsultantLine
}.

Definition detailed_header : list cell :=
  (λ s, Text (gettext s)) <$>
    [ascii_bytes "Lead"; ascii_bytes "Deal id";
     ascii_bytes "Lead Price (k" ++ [xe2; x82; xac] ++ ascii_bytes ")";
     ascii_bytes "Mission"; ascii_bytes "Mission id"; ascii_bytes "Billing mode";
     ascii_bytes "Mission Price (k" ++ [xe2; x82; xac] ++ ascii_bytes ")";
     ascii_bytes "Consultant"; ascii_bytes "Daily rate";
     ascii_bytes "Bought daily rate"; ascii_bytes "Past done days";
     ascii_bytes "Done days"; ascii_bytes "Days to be done"].

(** The row of a consultant of a mission (lines 1184-1207). *)
Definition detailed_row (mission : DetailedMission) (consultant : ConsultantLine)
    : list cell :=
  let row :=
    [match lead mission with Some l => Text (lead_text l) | None => Text [] end;
     match lead mission with Some l => Text (deal_id l) | None => Text [] end;
     match lead mission with Some l => sales l | None => Number (Py.Int 0) end;
     Text (detailed_text mission);
     Text (detailed_id mission);
     Text (billing_mode mission);
     format_or_zero (price mission);
     Text (consultant_text consultant)] in
  let row :=
    match financial_condition consultant with
    | Some (daily_rate, bought_daily_rate) =>
        row ++ [format_or_zero daily_rate] ++ [format_or_zero bought_daily_rate]
    | None => row ++ [Number (Py.Int 0); Number (Py.Int 0)]
    end in
  let row := row ++ [format_or_zero (past_days consultant)] in
  let row := row ++ [format_or_zero (done_days consultant)] in
  row ++ [format_or_zero (forecast_days consultant)].

Definition detailed_csv_timesheet (month : bytes)
    (missions : list DetailedMission) : HttpResponse :=
  let response := csv_response timesheet_filename in
  let writer := csv_writer x3b in
  let response := writerow writer response [Text month] in
  let response := writerow writer response detailed_header in
  fold_left
    (λ response mission,
       fold_left
         (λ response consultant,
            writerow writer response (detailed_row mission consultant))
         (consultants mission) response)
    missions response.

(** **** [mission_csv_timesheet] *)

(** Lines 998-1009.  [mission_id] is [mission.mission_id()] and [lines]
    is [timesheet_report_data(mission, padding=True)], which is not part
    of the files at hand. *)
Definition mission_csv_timesheet (mission_id : bytes) (lines : list (list cell))
    : HttpResponse :=
  let response :=
    csv_response
      (ascii_bytes "attachment; filename=" ++ mission_id ++ ascii_bytes ".csv") in
  let writer := csv_writer x3b in
  fold_left (λ response line, writerow writer response line) lines response.

(** **** The lines of the exports as they are described *)

(** The line of a mission in the timesheet of a consultant: the mission,
    its id, for each day the charge of the day or nothing, and the total
    of the charges. *)
Definition mission_line (mission : MissionLine) (days : list Day) : list bytes :=
  [mission_text mission; mission_id mission]
  ++ ((λ d, match timesheet_charge mission d with
            | Some charge => timestring_formatter charge
            | None => []
            end) <$> days)
  ++ [number_format (Py.sum (omap (timesheet_charge mission) days))].

(** The lines of the timesheet of a consultant. *)
Definition timesheet_lines (consultant month : bytes) (days : list Day)
    (missions : list MissionLine) : list (list bytes) :=
  [consultant ++ ascii_bytes " - " ++ month]
  :: ([[]; []] ++ ((λ d, str (Py.Int (day_number d))) <$> days))
  :: ([gettext (ascii_bytes "Mission"); gettext (ascii_bytes "Deal id")]
      ++ ((λ d, gettext (day_name d)) <$> days)
      ++ [gettext (ascii_bytes "total")])
  :: ((λ mission, mission_line mission days) <$> missions).

(** A cell of the timesheet of everybody: a float goes through
    [number_format], anything else is written as it is. *)
Definition charge_text (i : cell) : bytes :=
  match i with
  | Number (Py.Float x) => number_format (Py.Float x)
  | _ => cell_text i
  end.

End Exports.

Arguments cell : clear implicits.
Arguments MissionLine : clear implicits.
Arguments ConsultantLine : clear implicits.
Arguments DetailedMission : clear implicits.
Arguments LeadLine : clear implicits.

(** The content of a file whose rows were written by [w]. *)
Definition rows_content (w : writer) (rows : list (list bytes)) : bytes :=
  concat (format_row w <$> rows).

(** *** A timesheet of two days and one mission *)

(** A number written without decimals. *)
Definition sample_str (n : Py.num PrimFloat.float) : bytes :=
  match Py.int n with
  | Py.Return z => ascii_bytes (pretty z)
  | Py.Raise _ => ascii_bytes "nan"
  end.

Definition sample_days : list Day :=
  [mkDay 1 (ascii_bytes "Fri"); mkDay 4 (ascii_bytes "Mon")].

Definition sample_missions : list (MissionLine PrimFloat.float) :=
  [mkMissionLine (ascii_bytes "M1") (ascii_bytes "D1")
     (λ d, if day_number d =? 1 then Some (Py.Float (Binary64.of_Z 1)) else None)].

Definition sample_export : HttpResponse :=
  consultant_csv_timesheet sample_str (λ s, s) sample_str sample_str
    (ascii_bytes "Alice") (ascii_bytes "2021-01") sample_days sample_missions.

End Csv.

(** ** people/learn.py *)

Module Learn.

(** A date is the number of its day ([date.toordinal]), so that
    [(a - b).days] is a subtraction. *)
Definition date : Type := Z.

Record Lead : Type := mkLead {
  lead_id : Z;
  (* the primary key of [lead.responsible], when there is one *)
  responsible : option Z;
  (* [lead.mission_set.all().values_list("responsible")] *)
  mission_responsibles : list (option Z);
  (* the names of [lead.tags.all()] *)
  tags : list string
}.

Record Consultant : Type := mkConsultant {
  id : Z;
  profil_level : Z;
  company_name : string;
  manager_trigramme : string;
  active : bool;
  productive : bool;
  subcontractor : bool
}.

Section Experience.
Context {F : Type} `{Py.FloatOps F}.

(** A row of the queryset [timesheets]: the lead of the missions, which a
    mission may lack, the sum of the charges and the last working date. *)
Definition timesheet_row : Type := (option Z * Py.num F * date)%type.

(** What the queries of the module read. *)
Record Database : Type := mkDatabase {
  leads : gmap Z Lead;
  consultants : list Consultant;
  (* the rows of [timesheets] for a consultant, by primary key *)
  timesheets_of : Z → list timesheet_row;
  (* the first and the last working date of a consultant *)
  working_dates_of : Z → option date * option date
}.

(** [Lead.objects.get(id=lead_id)] *)
Definition get_lead (db : Database) (lead_id : option Z) : Py.result Lead :=
  match lead_id with
  | Some i =>
      match leads db !! i with
      | Some lead => Py.Return lead
      | None => Py.Raise Py.DoesNotExist
      end
  | None => Py.Raise Py.DoesNotExist
  end.

(** Lines 44-46: [weight] before the square root. *)
Definition at_least_one (weight : Py.num F) : Py.num F :=
  if Py.lt weight (Py.Int 1) then Py.Int 1 else weight.

(** Line 49: the consultant managed the lead or one of its missions. *)
Definition is_responsible (consultant : Consultant) (lead : Lead) : bool :=
  bool_decide (responsible lead = Some (id consultant))
  || bool_decide (Some (id consultant) ∈ mission_responsibles lead).

(** Lines 44-50. *)
Definition weighted_charge (today : date) (consultant : Consultant)
    (lead : Lead) (charge : Py.num F) (end_date : date)
    : Py.result (Py.num F) :=
  weight ← Py.truediv (Py.Int (today - end_date)) (Py.Int 30);
  let weight := at_least_one weight in
  weight ← Py.sqrt weight;
  quotient ← Py.truediv charge weight;
  let weighted_charge := Py.float quotient in
  if is_responsible consultant lead
  then Py.Return (Py.mul weighted_charge (Py.Int 2))
  else Py.Return weighted_charge.

(** Lines 51-52: the loop over the tags of a lead. *)
Definition add_to_tags (features : gmap string (Py.num F)) (tags : list string)
    (weighted_charge : Py.num F) : gmap string (Py.num F) :=
  fold_left
    (λ features tag,
       <[tag := Py.add (Py.get features tag (Py.Int 0)) weighted_charge]> features)
    tags features.

(** The body of the loop over [timesheets] (lines 42-52). *)
Definition experience_step (today : date) (db : Database)
    (consultant : Consultant) (features : gmap string (Py.num F))
    (row : timesheet_row) : Py.result (gmap string (Py.num F)) :=
  let '(lead_id, charge, end_date) := row in
  lead ← get_lead db lead_id;
  weighted_charge ← weighted_charge today consultant lead charge end_date;
  Py.Return (add_to_tags features (tags lead) weighted_charge).

(** Lines 54-62: the features of the consultant's profile. *)
Definition profile_features (db : Database) (consultant : Consultant)
    (features : gmap string (Py.num F)) : gmap string (Py.num F) :=
  let features :=
    <["Profil"%string := Py.float (Py.Int (profil_level consultant))]> features in
  let features := <[company_name consultant := Py.Float (Py.of_Z 1)]> features in
  let features := <[manager_trigramme consultant := Py.Float (Py.of_Z 1)]> features in
  match working_dates_of db (id consultant) with
  | (Some first, Some last) =>
      <["experience"%string := Py.Int (last - first)]> features
  | _ => <["experience"%string := Py.Int 0]> features
  end.

Definition consultant_cumulated_experience (today : date) (db : Database)
    (consultant : Consultant) : Py.result (gmap string (Py.num F)) :=
  features ← Py.for_each (experience_step today db consultant)
               (timesheets_of db (id consultant)) ∅;
  Py.Return (profile_features db consultant features).

(** *** The similarity model *)

(** The fitted pipeline, as far as [predict_similar] uses it:
    [kneighbors features scale] is the array [indices], one line of
    neighbours for the only sample. *)
Record SimilarityModel : Type := mkSimilarityModel {
  kneighbors : gmap string (Py.num F) → bool → list (list Z)
}.

(** The two entries of the cache. *)
Record Cache : Type := mkCache {
  similarity_model : option SimilarityModel;
  similarity_consultants_ids : option (list Z)
}.

(** [get_similarity_model()] followed by [model.fit(learn_features)] is
    the work of the learning library. *)
Variable fit : list (gmap string (Py.num F)) → SimilarityModel.
Variable HAVE_SCIKIT : bool.

(** Lines 111-132; the result is the model, or [None], and the cache. *)
Definition compute_consultant_similarity (today : date) (db : Database)
    (cache : Cache) : Py.result (option SimilarityModel * Cache) :=
  if negb HAVE_SCIKIT then Py.Return (None, cache)
  else
    match similarity_model cache with
    | Some model => Py.Return (Some model, cache)
    | None =>
        let consultants :=
          filter (λ c, active c = true ∧ productive c = true
                       ∧ subcontractor c = false)
                 (consultants db) in
        if Z.of_nat (length consultants) <? 5 then Py.Return (None, cache)
        else
          learn_features ←
            Py.for_each
              (λ learn_features consultant,
                 features ← consultant_cumulated_experience today db consultant;
                 Py.Return (learn_features ++ [features]))
              consultants [];
          let model := fit learn_features in
          Py.Return (Some model, mkCache (Some model) (Some (id <$> consultants)))
    end.

(** What [predict_similar] returns: a list or a queryset. *)
Inductive similar : Type :=
  | PyList (l : list Consultant)
  | QuerySet (rows : list Consultant).

(** [indices.any()] *)
Definition any (indices : list (list Z)) : bool :=
  existsb (existsb (λ i, negb (i =? 0))) indices.

(** [[consultants_ids[indice] for indice in indices[0]]] *)
Definition similar_ids (consultants_ids : option (list Z))
    (indices : list (list Z)) : Py.result (list Z) :=
  line ← Py.list_getitem indices 0;
  Py.for_each
    (λ ids indice,
       match consultants_ids with
       | Some l => i ← Py.list_getitem l indice; Py.Return (ids ++ [i])
       | None => Py.Raise Py.TypeError
       end)
    line [].

(** Lines 82-105. *)
Definition predict_similar (today : date) (db : Database) (cache : Cache)
    (features : gmap string (Py.num F)) (scale : bool)
    : Py.result (similar * Cache) :=
  '(model, cache) ← compute_consultant_similarity today db cache;
  let consultants_ids := similarity_consultants_ids cache in
  match model with
  | None => Py.Return (PyList [], cache)
  | Some model =>
      let indices := kneighbors model features scale in
      if any indices then
        found ←
          Py.try_except
            (ids ← similar_ids consultants_ids indices;
             Py.Return
               (QuerySet (filter (λ c, id c ∈ ids) (consultants db))))
            Py.IndexError
            (Py.Return (PyList []));
        Py.Return (found, cache)
      else Py.Return (PyList [], cache)
  end.

(** [s.exclude(pk=k)]: a list has no such method. *)
Definition exclude (s : similar) (k : Z) : Py.result (list Consultant) :=
  match s with
  | QuerySet rows => Py.Return (filter (λ c, id c ≠ k) rows)
  | PyList _ => Py.Raise Py.AttributeError
  end.

(** Lines 76-79. *)
Definition predict_similar_consultant (today : date) (db : Database)
    (cache : Cache) (consultant : Consultant)
    : Py.result (list Consultant * Cache) :=
  features ← consultant_cumulated_experience today db consultant;
  '(similar_consultant, cache) ← predict_similar today db cache features true;
  rows ← exclude similar_consultant (id consultant);
  Py.Return (rows, cache).

End Experience.

Arguments timesheet_row : clear implicits.
Arguments Database : clear implicits.
Arguments SimilarityModel : clear implicits.
Arguments Cache : clear implicits.

(** *** The histogram as it is described

    A lead contributes its weighted charge to each of its tags: the total
    charge divided by the square root of the age in months, at least one,
    and doubled for who managed the lead or one of its missions. *)
Inductive contribution {F} `{Py.FloatOps F} (today : date) (db : Database F)
    (consultant : Consultant)
    : timesheet_row F → list string * Py.num F → Prop :=
  | contribution_of_lead i lead charge end_date months root quotient :
      leads db !! i = Some lead →
      Py.truediv (Py.Int (today - end_date)) (Py.Int 30) = Py.Return months →
      Py.sqrt (at_least_one months) = Py.Return root →
      Py.truediv charge root = Py.Return quotient →
      contribution today db consultant (Some i, charge, end_date)
        (tags lead,
         if is_responsible consultant lead
         then Py.mul (Py.float quotient) (Py.Int 2)
         else Py.float quotient).



(** The keys that describe the profile of the consultant. *)
Definition profile_keys (consultant : Consultant) : list string :=
  ["Profil"; company_name consultant; manager_trigramme consultant;
   "experience"]%string.



(** *** A consultant and two leads, on binary64 floats *)

Definition alice : Consultant := mkConsultant 1 3 "ACME" "BOB" true true false.

Definition lead_10 : Lead :=
  mkLead 10 (Some 1) [Some 2] ["python"; "django"]%string.

Definition lead_11 : Lead :=
  mkLead 11 (Some 2) [Some 3; None] ["python"]%string.

Definition sample_leads : gmap Z Lead := {[ 10 := lead_10; 11 := lead_11 ]}.

Definition sample_team : list Consultant :=
  [alice;
   mkConsultant 2 2 "ACME" "BOB" true true false;
   mkConsultant 3 2 "ACME" "EVE" true true false;
   mkConsultant 4 1 "ACME" "EVE" true true false;
   mkConsultant 5 4 "ACME" "BOB" true true false].

Definition sample_today : date := 738000.

(** Alice worked 20 days on lead 10 until 120 days ago and 10 days on
    lead 11 until 10 days ago. *)
Definition sample_db : Database PrimFloat.float :=
  mkDatabase sample_leads sample_team
    (λ k, if k =? 1
          then [(Some 10, Py.Float (Binary64.of_Z 20), sample_today - 120);
                (Some 11, Py.Float (Binary64.of_Z 10), sample_today - 10)]
          else [])
    (λ k, if k =? 1 then (Some (sample_today - 400), Some (sample_today - 10))
          else (None, None)).


(** A model whose neighbours of anybody are the first five consultants. *)
Definition sample_model : SimilarityModel PrimFloat.float :=
  mkSimilarityModel (λ _ _, [[0; 1; 2; 3; 4]]).

Definition sample_cache : Cache PrimFloat.float :=
  mkCache (Some sample_model) (Some [1; 2; 3; 4; 5]).

Definition empty_cache : Cache PrimFloat.float := mkCache None None.

(** The features of Alice, as [consultant_cumulated_experience] computes
    them. *)
Definition alice_features : gmap string (Py.num PrimFloat.float) :=
  match consultant_cumulated_experience sample_today sample_db alice with
  | Py.Return features => features
  | Py.Raise _ => ∅
  end.

(** A cache whose list of consultants is shorter than the neighbours of
    the model are. *)
Definition stale_cache : Cache PrimFloat.float :=
  mkCache (Some sample_model) (Some [1; 2; 3]).

(** Alice worked on a mission that has no lead. *)
Definition db_without_lead : Database PrimFloat.float :=
  mkDatabase sample_leads sample_team
    (λ _, [(None, Py.Float (Binary64.of_Z 1), sample_today)])
    (λ _, (None, None)).

End Learn.

(** * Properties *)

(** ** Loops and dictionaries *)

Module PyFacts.

Lemma bind_Return {A B} (m : Py.result A) (k : A → Py.result B) b :
  Py.bind m k = Py.Return b → ∃ a, m = Py.Return a ∧ k a = Py.Return b.
Proof. destruct m as [a|e]; simpl; [|discriminate]. intros E. by exists a. Qed.

Lemma for_each_cons {A S} (body : S → A → Py.result S) x l acc :
  Py.for_each body (x :: l) acc = Py.bind (body acc x) (Py.for_each body l).
Proof. reflexivity. Qed.

Lemma for_each_app {A S} (body : S → A → Py.result S) l1 l2 acc :
  Py.for_each body (l1 ++ l2) acc
  = Py.bind (Py.for_each body l1 acc) (Py.for_each body l2).
Proof.
  revert acc. induction l1 as [|x l1 IH]; intros acc; simpl; [done|].
  destruct (body acc x); simpl; [apply IH|done].
Qed.

(** A loop whose body does not raise is a fold. *)
Lemma for_each_pure {A S} (body : S → A → Py.result S) (f : S → A → S) l acc :
  (∀ s x, x ∈ l → body s x = Py.Return (f s x)) →
  Py.for_each body l acc = Py.Return (fold_left f l acc).
Proof.
  revert acc. induction l as [|x l IH]; intros acc Hb; simpl; [done|].
  rewrite Hb by left. simpl. apply IH. intros s y Hy. apply Hb. by right.
Qed.

Lemma getitem_Some `{Countable K} {V} (d : gmap K V) k v :
  d !! k = Some v → Py.getitem d k = Py.Return v.
Proof. unfold Py.getitem. by intros ->. Qed.

Lemma truediv_nonzero {F} `{Py.FloatOps F} (a b : Py.num F) :
  Py.is_zero b = false →
  Py.truediv a b = Py.Return (Py.Float (Py.fdiv (Py.to_float a) (Py.to_float b))).
Proof. unfold Py.truediv. by intros ->. Qed.

(** The true division raises nothing but [ZeroDivisionError]. *)
Lemma truediv_raises {F} `{Py.FloatOps F} (a b : Py.num F) e :
  Py.truediv a b = Py.Raise e → e = Py.ZeroDivisionError.
Proof. unfold Py.truediv. destruct (Py.is_zero b); intros E; by inversion E. Qed.

Lemma truediv_zero {F} `{Py.FloatOps F} (a b : Py.num F) :
  Py.is_zero b = true → Py.truediv a b = Py.Raise Py.ZeroDivisionError.
Proof. unfold Py.truediv. by intros ->. Qed.

Lemma gt_zero_nonzero {F} `{Py.FloatOps F} (x : Py.num F) :
  Py.positive_nonzero → Py.gt x (Py.Int 0) = true → Py.is_zero x = false.
Proof.
  intros Hlaw. destruct x as [z|x]; simpl.
  - intros Hz%Z.ltb_lt. apply Z.eqb_neq. lia.
  - apply Hlaw.
Qed.

(** The law holds for the binary64 floats and for the real numbers. *)
Lemma binary64_positive_nonzero : Py.positive_nonzero (F:=PrimFloat.float).
Proof.
  intros x. simpl. rewrite FloatAxioms.ltb_spec, FloatAxioms.eqb_spec.
  change (Prim2SF (Binary64.of_Z 0)) with (S754_zero false).
  destruct (Prim2SF x) as [[]|[]| |[] m e]; vm_compute; congruence.
Qed.

Lemma real_positive_nonzero : Py.positive_nonzero (F:=R).
Proof.
  intros x. simpl. unfold Ideal.Rltb, Ideal.Reqb.
  destruct (Rlt_dec 0 x), (Req_dec_T x 0); try done. lra.
Qed.

(** A loop that collects what [g] returns for the elements of a list. *)
Lemma for_each_collect {A B} (g : A → Py.result B) l acc r :
  Py.for_each (λ acc x, y ← g x; Py.Return (acc ++ [y])) l acc = Py.Return r →
  ∃ ys, r = acc ++ ys ∧ Forall2 (λ x y, g x = Py.Return y) l ys.
Proof.
  revert acc. induction l as [|x l IH]; intros acc; simpl.
  - intros [= <-]. exists []. by rewrite app_nil_r.
  - destruct (g x) as [y|e] eqn:E; simpl; [|discriminate].
    intros (ys & -> & Hys)%IH. exists (y :: ys).
    rewrite <- app_assoc. split; [done|]. by constructor.
Qed.

Lemma for_each_collect_returns {A B} (g : A → Py.result B) l ys acc :
  Forall2 (λ x y, g x = Py.Return y) l ys →
  Py.for_each (λ acc x, y ← g x; Py.Return (acc ++ [y])) l acc
  = Py.Return (acc ++ ys).
Proof.
  intros Hys. revert acc.
  induction Hys as [|x y l ys E _ IH]; intros acc; simpl.
  - by rewrite app_nil_r.
  - rewrite E. simpl. rewrite IH, <- app_assoc. done.
Qed.

(** It raises as soon as [g] raises, when [g] raises only [e]. *)
Lemma for_each_collect_raises {A B} (g : A → Py.result B) l acc e x :
  x ∈ l → g x = Py.Raise e →
  (∀ x' e', x' ∈ l → g x' = Py.Raise e' → e' = e) →
  Py.for_each (λ acc x, y ← g x; Py.Return (acc ++ [y])) l acc = Py.Raise e.
Proof.
  revert acc. induction l as [|x' l IH]; intros acc Hx Hg He.
  - by apply elem_of_nil in Hx.
  - simpl. destruct (g x') as [y|e'] eqn:E; simpl.
    + apply IH; [|done|].
      * apply elem_of_cons in Hx as [->|Hx]; [congruence|done].
      * intros x'' e'' Hx''. apply He. by right.
    + f_equal. apply (He x'); [by left|done].
Qed.

(** Indexing a list raises nothing but [IndexError]. *)
Lemma list_getitem_raises {A} (l : list A) i e :
  Py.list_getitem l i = Py.Raise e → e = Py.IndexError.
Proof.
  unfold Py.list_getitem. destruct (_ && _); [|by intros [= <-]].
  destruct (l !! _); [discriminate|by intros [= <-]].
Qed.

Lemma list_getitem_out_of_range {A} (l : list A) i :
  Z.of_nat (length l) ≤ i ∨ i < - Z.of_nat (length l) →
  Py.list_getitem l i = Py.Raise Py.IndexError.
Proof.
  intros Hi. unfold Py.list_getitem.
  destruct (_ && _) eqn:E; [|done].
  apply andb_true_iff in E as [E1%Z.leb_le E2%Z.ltb_lt].
  destruct (Z.ltb_spec i 0); lia.
Qed.

Lemma list_getitem_elem_of {A} (l : list A) i x :
  Py.list_getitem l i = Py.Return x → x ∈ l.
Proof.
  unfold Py.list_getitem. destruct (_ && _); [|discriminate].
  destruct (l !! _) eqn:E; [|discriminate].
  intros [= <-]. by eapply list_elem_of_lookup_2.
Qed.

End PyFacts.
(** * Properties *)

(** ** billing/utils.py: [compute_bill] *)

Module BillingFacts.
Import Py Billing.
Local Open Scope Qc_scope.

Lemma truthy_Some_true q : truthy (Some q) = true ↔ q ≠ 0.
Proof. unfold truthy. destruct (decide (q = 0)); split; congruence. Qed.

Lemma truthy_Some_false q : truthy (Some q) = false ↔ q = 0.
Proof. unfold truthy. destruct (decide (q = 0)); split; congruence. Qed.

Lemma add_if_truthy_value acc v : add_if_truthy acc v = acc + amount_or_zero v.
Proof.
  destruct v as [q|]; simpl; [|ring].
  destruct (decide (q = 0)) as [->|]; [ring|reflexivity].
Qed.

Lemma is_draft_or_proposed_true s :
  is_draft_or_proposed s = true ↔ s = "0_DRAFT"%string ∨ s = "0_PROPOSED"%string.
Proof.
  unfold is_draft_or_proposed.
  rewrite orb_true_iff, !bool_decide_eq_true. reflexivity.
Qed.

Lemma is_draft_or_proposed_false s :
  is_draft_or_proposed s = false ↔ s ≠ "0_DRAFT"%string ∧ s ≠ "0_PROPOSED"%string.
Proof.
  unfold is_draft_or_proposed.
  rewrite orb_false_iff, !bool_decide_eq_false. reflexivity.
Qed.

(** The loop over the details adds, to each accumulator, the total of the
    corresponding column. *)
Lemma detail_loop l acc :
  fold_left detail_step l acc
  = (fst acc + details_total l, snd acc + details_total_with_vat l).
Proof.
  revert acc. induction l as [|d l IH]; intros [a b]; simpl.
  - f_equal; ring.
  - rewrite IH. unfold detail_step; simpl.
    rewrite !add_if_truthy_value. f_equal; ring.
Qed.

Section WithExpenses.
Variable expensesTotal : ClientBill → Qc.
Variable expensesTotalWithTaxes : ClientBill → Qc.

Local Abbreviation computed_amounts := (computed_amounts expensesTotal expensesTotalWithTaxes).
Local Abbreviation compute_bill_sum := (compute_bill_sum expensesTotal expensesTotalWithTaxes).
Local Abbreviation compute_bill := (compute_bill expensesTotal expensesTotalWithTaxes).

Lemma computed_amounts_totals bill :
  computed_amounts bill
  = (details_total (billdetail_set bill) + expensesTotal bill,
     details_total_with_vat (billdetail_set bill) + expensesTotalWithTaxes bill).
Proof.
  unfold Billing.computed_amounts. rewrite detail_loop; simpl.
  f_equal; ring.
Qed.

Lemma compute_bill_vat_truthy bill :
  truthy (amount_with_vat bill) = true → compute_bill_vat bill = bill.
Proof. unfold compute_bill_vat. intros ->. reflexivity. Qed.

Lemma compute_bill_vat_amount bill : amount (compute_bill_vat bill) = amount bill.
Proof.
  unfold compute_bill_vat.
  destruct (negb _), (amount bill) eqn:E; try done.
  destruct (truthy _); simpl; done.
Qed.

Lemma compute_bill_sum_other_state bill :
  is_draft_or_proposed (state bill) = false → compute_bill_sum bill = bill.
Proof. unfold Billing.compute_bill_sum. intros ->. reflexivity. Qed.

Lemma compute_bill_sum_vat bill : vat (compute_bill_sum bill) = vat bill.
Proof.
  unfold Billing.compute_bill_sum.
  destruct (is_draft_or_proposed _); [|done].
  destruct (computed_amounts bill) as [a av].
  destruct (decide (a = 0)), (decide (av = 0)); reflexivity.
Qed.

Lemma compute_bill_sum_amount bill :
  amount (compute_bill_sum bill)
  = if is_draft_or_proposed (state bill) then
      if decide (fst (computed_amounts bill) = 0) then amount bill
      else Some (fst (computed_amounts bill))
    else amount bill.
Proof.
  unfold Billing.compute_bill_sum.
  destruct (is_draft_or_proposed _); [|done].
  destruct (computed_amounts bill) as [a av]; simpl.
  destruct (decide (a = 0)), (decide (av = 0)); reflexivity.
Qed.

Lemma compute_bill_sum_amount_with_vat bill :
  amount_with_vat (compute_bill_sum bill)
  = if is_draft_or_proposed (state bill) then
      if decide (snd (computed_amounts bill) = 0) then amount_with_vat bill
      else Some (snd (computed_amounts bill))
    else amount_with_vat bill.
Proof.
  unfold Billing.compute_bill_sum.
  destruct (is_draft_or_proposed _); [|done].
  destruct (computed_amounts bill) as [a av]; simpl.
  destruct (decide (a = 0)), (decide (av = 0)); reflexivity.
Qed.

(** A truthy [amount_with_vat] stays truthy through the summation. *)
Lemma compute_bill_sum_keeps_truthy bill :
  truthy (amount_with_vat bill) = true →
  truthy (amount_with_vat (compute_bill_sum bill)) = true.
Proof.
  intros H. rewrite compute_bill_sum_amount_with_vat.
  destruct (is_draft_or_proposed _); [|done].
  destruct (decide _) as [|Hne]; [done|].
  by apply truthy_Some_true.
Qed.

(** C1, as amended.  For a bill in state 0_DRAFT or 0_PROPOSED, after
    [compute_bill]: when the sum of the detail amounts plus the expenses
    total is not zero, the bill's amount is that sum; when the sum of the
    detail amounts with VAT plus the expenses with taxes is not zero, the
    bill's amount_with_vat is that sum. *)
Theorem compute_bill_draft_totals bill :
  state bill = "0_DRAFT"%string ∨ state bill = "0_PROPOSED"%string →
  let total := details_total (billdetail_set bill) + expensesTotal bill in
  let total_with_vat :=
    details_total_with_vat (billdetail_set bill) + expensesTotalWithTaxes bill in
  (total ≠ 0 → amount (compute_bill bill) = Some total) ∧
  (total_with_vat ≠ 0 →
   amount_with_vat (compute_bill bill) = Some total_with_vat).
Proof.
  intros Hst%is_draft_or_proposed_true total total_with_vat.
  unfold Billing.compute_bill. split; intros Hne.
  - rewrite compute_bill_vat_amount, compute_bill_sum_amount, Hst.
    rewrite computed_amounts_totals; simpl.
    destruct (decide _); [contradiction|reflexivity].
  - assert (amount_with_vat (compute_bill_sum bill) = Some total_with_vat) as E.
    { rewrite compute_bill_sum_amount_with_vat, Hst.
      rewrite computed_amounts_totals; simpl.
      destruct (decide _); [contradiction|reflexivity]. }
    rewrite compute_bill_vat_truthy; [done|].
    rewrite E. by apply truthy_Some_true.
Qed.

(** C2.  When, after the summation, amount_with_vat is falsy and amount is
    set (a non-zero value [a]), [compute_bill] sets amount_with_vat to
    [a * (1 + vat / 100)]; when amount_with_vat is truthy, either on entry
    or after the summation, the VAT computation leaves the bill as the
    summation made it. *)
Theorem compute_bill_vat_rule bill :
  let summed := compute_bill_sum bill in
  (truthy (amount_with_vat summed) = false →
   ∀ a, amount summed = Some a → a ≠ 0 →
   amount_with_vat (compute_bill bill)
   = Some (a * (1 + vat bill / Qc_of_Z 100))) ∧
  (truthy (amount_with_vat summed) = true → compute_bill bill = summed) ∧
  (truthy (amount_with_vat bill) = true → compute_bill bill = summed).
Proof.
  intros summed. unfold Billing.compute_bill. fold summed.
  split; [|split].
  - intros Hf a Ha Hne. unfold compute_bill_vat.
    rewrite Hf, Ha; simpl.
    destruct (decide (a = 0)); [contradiction|]. simpl.
    unfold summed. by rewrite compute_bill_sum_vat.
  - apply compute_bill_vat_truthy.
  - intros H. apply compute_bill_vat_truthy.
    by apply compute_bill_sum_keeps_truthy.
Qed.

(** C8.  A bill whose state is neither 0_DRAFT nor 0_PROPOSED and whose
    amount_with_vat is truthy is returned unchanged by [compute_bill]; in
    any other state than those two the summation changes nothing; and a
    computed sum of zero is not assigned to the bill. *)
Theorem compute_bill_frame bill :
  (state bill ≠ "0_DRAFT"%string → state bill ≠ "0_PROPOSED"%string →
   truthy (amount_with_vat bill) = true → compute_bill bill = bill) ∧
  (state bill ≠ "0_DRAFT"%string → state bill ≠ "0_PROPOSED"%string →
   compute_bill_sum bill = bill) ∧
  (fst (computed_amounts bill) = 0 → amount (compute_bill bill) = amount bill) ∧
  (snd (computed_amounts bill) = 0 →
   amount_with_vat (compute_bill_sum bill) = amount_with_vat bill).
Proof.
  repeat split.
  - intros H1 H2 Ht. unfold Billing.compute_bill.
    rewrite compute_bill_sum_other_state by (by apply is_draft_or_proposed_false).
    by apply compute_bill_vat_truthy.
  - intros H1 H2. by apply compute_bill_sum_other_state, is_draft_or_proposed_false.
  - intros Hz. unfold Billing.compute_bill.
    rewrite compute_bill_vat_amount, compute_bill_sum_amount, Hz.
    destruct (is_draft_or_proposed _); [|done]. by case_decide.
  - intros Hz. rewrite compute_bill_sum_amount_with_vat, Hz.
    destruct (is_draft_or_proposed _); [|done]. by case_decide.
Qed.

End WithExpenses.

Ltac qc_eval :=
  vm_compute;
  repeat match goal with
         | |- _ ∧ _ => split
         | |- Some _ = Some _ => f_equal
         | |- @eq Qc _ _ => apply Qc_is_canon; reflexivity
         end.

Example compute_bill_draft :
  amount (compute_bill no_expenses no_expenses draft_bill) = Some (Qc_of_Z 150) ∧
  amount_with_vat (compute_bill no_expenses no_expenses draft_bill)
  = Some (Qc_of_Z 180).
Proof. qc_eval. Qed.

Example compute_bill_draft_without_vat :
  amount (compute_bill no_expenses no_expenses draft_bill_without_vat)
  = Some (Qc_of_Z 200) ∧
  amount_with_vat (compute_bill no_expenses no_expenses draft_bill_without_vat)
  = Some (Qc_of_Z 240).
Proof. qc_eval. Qed.

(** A draft whose computed sums are zero keeps the amounts it had. *)
Example compute_bill_empty_draft :
  compute_bill no_expenses no_expenses empty_draft_bill = empty_draft_bill.
Proof. reflexivity. Qed.

(** C1, counterexample.  A bill that was sent keeps its amount of 100 even
    though its only detail amounts to 50. *)
Lemma compute_bill_total_fails :
  ¬ (∀ (expensesTotal expensesTotalWithTaxes : ClientBill → Qc) bill,
       amount (compute_bill expensesTotal expensesTotalWithTaxes bill)
       = Some (details_total (billdetail_set bill) + expensesTotal bill) ∧
       amount_with_vat (compute_bill expensesTotal expensesTotalWithTaxes bill)
       = Some (details_total_with_vat (billdetail_set bill)
               + expensesTotalWithTaxes bill)).
Proof.
  intros H. destruct (H no_expenses no_expenses sent_bill) as [E _].
  vm_compute in E. discriminate E.
Qed.

Lemma compute_bill_draft_totals_witness :
  state draft_bill = "0_DRAFT"%string ∧
  amount (compute_bill no_expenses no_expenses draft_bill)
  = Some (details_total (billdetail_set draft_bill) + no_expenses draft_bill) ∧
  amount_with_vat (compute_bill no_expenses no_expenses draft_bill)
  = Some (details_total_with_vat (billdetail_set draft_bill)
          + no_expenses draft_bill).
Proof.
  split; [reflexivity|].
  destruct (compute_bill_draft_totals no_expenses no_expenses draft_bill
              (or_introl eq_refl)) as [H1 H2].
  split; [apply H1|apply H2]; vm_compute; discriminate.
Defined.

Lemma compute_bill_vat_rule_witness :
  truthy (amount_with_vat
            (compute_bill_sum no_expenses no_expenses draft_bill_without_vat))
  = false ∧
  amount_with_vat (compute_bill no_expenses no_expenses draft_bill_without_vat)
  = Some (Qc_of_Z 200 * (1 + Qc_of_Z 20 / Qc_of_Z 100)) ∧
  compute_bill no_expenses no_expenses sent_bill
  = compute_bill_sum no_expenses no_expenses sent_bill.
Proof.
  destruct (compute_bill_vat_rule no_expenses no_expenses draft_bill_without_vat)
    as [H1 _].
  destruct (compute_bill_vat_rule no_expenses no_expenses sent_bill)
    as (_ & H2 & _).
  split; [reflexivity|]. split.
  - apply H1; [reflexivity|qc_eval|discriminate].
  - apply H2. reflexivity.
Defined.

Lemma compute_bill_frame_witness :
  compute_bill no_expenses no_expenses sent_bill = sent_bill ∧
  compute_bill_sum no_expenses no_expenses sent_bill = sent_bill ∧
  amount (compute_bill no_expenses no_expenses empty_draft_bill)
  = amount empty_draft_bill ∧
  amount_with_vat (compute_bill_sum no_expenses no_expenses empty_draft_bill)
  = amount_with_vat empty_draft_bill.
Proof.
  destruct (compute_bill_frame no_expenses no_expenses sent_bill)
    as (H1 & H2 & _).
  destruct (compute_bill_frame no_expenses no_expenses empty_draft_bill)
    as (_ & _ & H3 & H4).
  split; [|split; [|split]].
  - apply H1; [discriminate|discriminate|reflexivity].
  - apply H2; discriminate.
  - apply H3. reflexivity.
  - apply H4. reflexivity.
Defined.

(** *** Saving a bill more than once *)

Section Saving.
Variable expensesTotal : ClientBill → Qc.
Variable expensesTotalWithTaxes : ClientBill → Qc.

Local Abbreviation computed_amounts := (computed_amounts expensesTotal expensesTotalWithTaxes).
Local Abbreviation compute_bill_sum := (compute_bill_sum expensesTotal expensesTotalWithTaxes).
Local Abbreviation compute_bill := (compute_bill expensesTotal expensesTotalWithTaxes).

Lemma set_amount_same bill : set_amount bill (amount bill) = bill.
Proof. by destruct bill. Qed.

Lemma set_amount_with_vat_same bill :
  set_amount_with_vat bill (amount_with_vat bill) = bill.
Proof. by destruct bill. Qed.

Lemma compute_bill_vat_fields bill :
  state (compute_bill_vat bill) = state bill ∧
  vat (compute_bill_vat bill) = vat bill ∧
  billdetail_set (compute_bill_vat bill) = billdetail_set bill.
Proof.
  unfold compute_bill_vat.
  destruct (negb _); [|done].
  destruct (amount bill); [|done].
  by destruct (truthy _).
Qed.

Lemma compute_bill_sum_fields bill :
  state (compute_bill_sum bill) = state bill ∧
  vat (compute_bill_sum bill) = vat bill ∧
  billdetail_set (compute_bill_sum bill) = billdetail_set bill.
Proof.
  unfold Billing.compute_bill_sum.
  destruct (is_draft_or_proposed _); [|done].
  destruct (computed_amounts bill) as [a av].
  by destruct (decide (a = 0)), (decide (av = 0)).
Qed.

Lemma compute_bill_fields bill :
  state (compute_bill bill) = state bill ∧
  vat (compute_bill bill) = vat bill ∧
  billdetail_set (compute_bill bill) = billdetail_set bill.
Proof.
  unfold Billing.compute_bill.
  destruct (compute_bill_vat_fields (compute_bill_sum bill)) as (-> & -> & ->).
  apply compute_bill_sum_fields.
Qed.

Lemma compute_bill_vat_idempotent bill :
  compute_bill_vat (compute_bill_vat bill) = compute_bill_vat bill.
Proof.
  destruct (truthy (amount_with_vat bill)) eqn:E1.
  { by rewrite !(compute_bill_vat_truthy bill) by done. }
  unfold compute_bill_vat at 2 3. rewrite E1. cbn [negb].
  destruct (amount bill) as [a|] eqn:Ea.
  2:{ unfold compute_bill_vat. by rewrite E1, Ea. }
  destruct (truthy (Some a)) eqn:E2.
  2:{ unfold compute_bill_vat. by rewrite E1, Ea, E2. }
  unfold compute_bill_vat. cbn [amount_with_vat amount set_amount_with_vat vat].
  rewrite Ea, E2.
  by destruct (negb _).
Qed.

(** X1.  Computing a bill a second time changes nothing: when the
    expenses of the bill are the same before and after [compute_bill],
    [compute_bill] applied to its own result returns that result. *)
Theorem compute_bill_idempotent bill :
  expensesTotal (compute_bill bill) = expensesTotal bill →
  expensesTotalWithTaxes (compute_bill bill) = expensesTotalWithTaxes bill →
  compute_bill (compute_bill bill) = compute_bill bill.
Proof.
  intros He Het.
  destruct (compute_bill_fields bill) as (Hst & Hvat & Hds).
  assert (computed_amounts (compute_bill bill) = computed_amounts bill) as Hca.
  { unfold Billing.computed_amounts. by rewrite Hds, He, Het. }
  assert (compute_bill_sum (compute_bill bill) = compute_bill bill) as Hsum.
  { unfold Billing.compute_bill_sum at 1. rewrite Hst, Hca.
    destruct (is_draft_or_proposed (state bill)) eqn:Hd; [|done].
    destruct (computed_amounts bill) as [a av] eqn:Hc.
    assert (amount (compute_bill bill)
            = if decide (a = 0) then amount bill else Some a) as Ha.
    { unfold Billing.compute_bill.
      by rewrite compute_bill_vat_amount, compute_bill_sum_amount, Hd, Hc. }
    assert (a ≠ 0 → set_amount (compute_bill bill) (Some a) = compute_bill bill)
      as Ha'.
    { intros Hne. destruct (decide (a = 0)); [done|].
      rewrite <- Ha. apply set_amount_same. }
    assert (av ≠ 0 →
            set_amount_with_vat (compute_bill bill) (Some av) = compute_bill bill)
      as Hav'.
    { intros Hne.
      assert (amount_with_vat (compute_bill_sum bill) = Some av) as E.
      { rewrite compute_bill_sum_amount_with_vat, Hd, Hc; simpl.
        by destruct (decide (av = 0)). }
      assert (compute_bill bill = compute_bill_sum bill) as ->.
      { apply compute_bill_vat_truthy. rewrite E. by apply truthy_Some_true. }
      rewrite <- E. apply set_amount_with_vat_same. }
    destruct (decide (a = 0)), (decide (av = 0)); try done.
    - by apply Hav'.
    - by apply Ha'.
    - rewrite Ha' by done. by apply Hav'. }
  unfold Billing.compute_bill at 1. rewrite Hsum.
  apply compute_bill_vat_idempotent.
Qed.

(** X2.  After [compute_bill], a bill whose amount is set and not zero
    has an amount with VAT: either a non-zero one, or the amount times
    [1 + vat / 100]. *)
Theorem compute_bill_amount_with_vat_set bill a :
  amount (compute_bill bill) = Some a → a ≠ 0 →
  ∃ av, amount_with_vat (compute_bill bill) = Some av
        ∧ (av ≠ 0 ∨ av = a * (1 + vat bill / Qc_of_Z 100)).
Proof.
  unfold Billing.compute_bill. rewrite compute_bill_vat_amount.
  intros Ha Hne. unfold compute_bill_vat.
  destruct (amount_with_vat (compute_bill_sum bill)) as [av|] eqn:E; simpl.
  - destruct (decide (av = 0)) as [->|Hav]; simpl.
    + rewrite Ha; simpl. destruct (decide (a = 0)); [done|]. simpl.
      eexists; split; [done|]. right.
      by destruct (compute_bill_sum_fields bill) as (_ & -> & _).
    + rewrite E. eauto.
  - rewrite Ha; simpl. destruct (decide (a = 0)); [done|]. simpl.
    eexists; split; [done|]. right.
    by destruct (compute_bill_sum_fields bill) as (_ & -> & _).
Qed.

(** X3.  [compute_bill] writes the amount and the amount with VAT only:
    the state, the VAT rate and the details of the bill are those it was
    given. *)
Theorem compute_bill_writes_amounts_only bill :
  state (compute_bill bill) = state bill ∧
  vat (compute_bill bill) = vat bill ∧
  billdetail_set (compute_bill bill) = billdetail_set bill.
Proof.
  unfold Billing.compute_bill.
  destruct (compute_bill_vat_fields (compute_bill_sum bill)) as (Hs & Hv & Hd).
  destruct (compute_bill_sum_fields bill) as (Hs' & Hv' & Hd').
  rewrite Hs, Hv, Hd. by rewrite Hs', Hv', Hd'.
Qed.

End Saving.

Lemma compute_bill_idempotent_witness :
  compute_bill no_expenses no_expenses
    (compute_bill no_expenses no_expenses draft_bill_without_vat)
  = compute_bill no_expenses no_expenses draft_bill_without_vat.
Proof.
  apply (compute_bill_idempotent no_expenses no_expenses draft_bill_without_vat);
    reflexivity.
Defined.

Lemma compute_bill_amount_with_vat_set_witness :
  ∃ av,
    amount_with_vat (compute_bill no_expenses no_expenses draft_bill_without_vat)
    = Some av
    ∧ (av ≠ 0 ∨ av = Qc_of_Z 200 * (1 + vat draft_bill_without_vat / Qc_of_Z 100)).
Proof.
  apply (compute_bill_amount_with_vat_set no_expenses no_expenses
           draft_bill_without_vat (Qc_of_Z 200)).
  - qc_eval.
  - discriminate.
Defined.

End BillingFacts.
(** ** billing/utils.py: [get_billing_info] *)

Module BillingInfoFacts.
Import BillingInfo.

(** *** The order of texts *)

Lemma ascii_compare_trans a b c :
  Ascii.compare a b ≠ Gt → Ascii.compare b c ≠ Gt → Ascii.compare a c ≠ Gt.
Proof.
  unfold Ascii.compare. rewrite !N.compare_le_iff. lia.
Qed.

Lemma string_leb_trans s1 s2 s3 :
  String.leb s1 s2 = true → String.leb s2 s3 = true → String.leb s1 s3 = true.
Proof.
  unfold String.leb. revert s2 s3.
  induction s1 as [|c1 s1 IH]; intros [|c2 s2] [|c3 s3]; simpl; try done.
  destruct (Ascii.compare c1 c2) eqn:E12; try done;
    destruct (Ascii.compare c2 c3) eqn:E23; try done.
  - apply Ascii.compare_eq_iff in E12 as ->. rewrite E23. apply IH.
  - apply Ascii.compare_eq_iff in E12 as ->. by rewrite E23.
  - apply Ascii.compare_eq_iff in E23 as <-. by rewrite E12.
  - intros _ _.
    assert (Ascii.compare c1 c3 = Lt) as ->; [|done].
    revert E12 E23. unfold Ascii.compare. rewrite !N.compare_lt_iff. lia.
Qed.

Lemma string_ltb_leb s1 s2 : String.ltb s1 s2 = true → String.leb s1 s2 = true.
Proof. unfold String.ltb, String.leb. by destruct (String.compare s1 s2). Qed.

Lemma string_ltb_false s1 s2 : String.ltb s1 s2 = false → String.leb s2 s1 = true.
Proof.
  unfold String.ltb, String.leb. rewrite (String.compare_antisym s2 s1).
  by destruct (String.compare s1 s2).
Qed.

Lemma string_ltb_irrefl s : String.ltb s s = false.
Proof.
  unfold String.ltb. pose proof (String.compare_antisym s s) as E.
  by destruct (String.compare s s).
Qed.

(** *** The sort *)

Section Sort.
Context {A : Type}.
Variable key : A → string.

Local Abbreviation le := (λ a b, String.leb (key a) (key b) = true).

Lemma insert_sorted_perm x l : insert_sorted key x l ≡ₚ x :: l.
Proof.
  induction l as [|y l IH]; simpl; [done|].
  destruct (String.ltb _ _); [|done].
  rewrite IH. apply Permutation_swap.
Qed.

Lemma sort_by_key_perm l : sort_by_key key l ≡ₚ l.
Proof.
  induction l as [|x l IH]; simpl; [done|].
  by rewrite insert_sorted_perm, IH.
Qed.

Lemma insert_sorted_sorted x l :
  StronglySorted le l → StronglySorted le (insert_sorted key x l).
Proof.
  induction 1 as [|y l Hl IH Hy]; simpl.
  - by repeat constructor.
  - destruct (String.ltb (key y) (key x)) eqn:E.
    + constructor; [done|].
      rewrite insert_sorted_perm. constructor; [|done].
      by apply string_ltb_leb.
    + apply string_ltb_false in E.
      constructor; [by constructor|].
      constructor; [done|].
      eapply Forall_impl; [exact Hy|].
      intros z Hz. simpl in *. by eapply string_leb_trans.
Qed.

Lemma sort_by_key_sorted l : StronglySorted le (sort_by_key key l).
Proof.
  induction l as [|x l IH]; simpl; [constructor|].
  by apply insert_sorted_sorted.
Qed.

(** The sort is stable: the items of a given key stay in their order. *)
Lemma insert_sorted_stable k x l :
  filter (λ y, key y = k) (insert_sorted key x l)
  = filter (λ y, key y = k) (x :: l).
Proof.
  induction l as [|y l IH]; simpl; [done|].
  destruct (String.ltb (key y) (key x)) eqn:E; [|done].
  rewrite !filter_cons, IH, !filter_cons.
  destruct (decide (key y = k)) as [Hy|Hy], (decide (key x = k)) as [Hx|Hx];
    try done.
  rewrite Hy, Hx, string_ltb_irrefl in E. done.
Qed.

Lemma sort_by_key_stable k l :
  filter (λ y, key y = k) (sort_by_key key l) = filter (λ y, key y = k) l.
Proof.
  induction l as [|x l IH]; simpl; [done|].
  by rewrite insert_sorted_stable, !filter_cons, IH.
Qed.

End Sort.

(** *** The dictionaries *)

Section Dict.
Context {K V : Type}.
Variable pk : K → Z.

Local Abbreviation keys d := ((λ item : K * V, pk item.1) <$> d).

Lemma contains_true d k : contains pk d k = true ↔ pk k ∈ keys d.
Proof. unfold contains. apply bool_decide_eq_true. Qed.

Lemma keys_update d k f : keys (update pk d k f) = keys d.
Proof.
  induction d as [|[k' v] d IH]; simpl; [done|].
  destruct (decide (pk k' = pk k)); simpl; [done|]. f_equal. apply IH.
Qed.

Lemma NoDup_keys_setdefault d k v :
  NoDup (keys d) → NoDup (keys (setdefault pk d k v)).
Proof.
  intros Hnd. unfold setdefault.
  destruct (contains pk d k) eqn:E; [done|].
  rewrite fmap_app. simpl. apply NoDup_app. split; [done|].
  split; [|apply NoDup_singleton].
  intros x Hx ->%list_elem_of_singleton.
  apply contains_true in Hx. congruence.
Qed.

Lemma elem_of_keys_setdefault d k v : pk k ∈ keys (setdefault pk d k v).
Proof.
  unfold setdefault. destruct (contains pk d k) eqn:E.
  - by apply contains_true.
  - rewrite fmap_app. apply elem_of_app. right. simpl. left.
Qed.

Lemma Forall_setdefault (P : K * V → Prop) d k v :
  Forall P d → P (k, v) → Forall P (setdefault pk d k v).
Proof.
  intros Hd Hk. unfold setdefault. destruct (contains pk d k); [done|].
  apply Forall_app. split; [done|]. by constructor.
Qed.

Lemma Forall_update (P : K * V → Prop) d k f :
  Forall P d →
  (∀ k' v, P (k', v) → pk k' = pk k → P (k', f v)) →
  Forall P (update pk d k f).
Proof.
  intros Hd Hf. induction Hd as [|[k' v] d Hkv Hd IH]; simpl; [done|].
  destruct (decide (pk k' = pk k)); constructor; auto.
Qed.

Lemma update_update (d : list (K * V)) k (f g : V → V) :
  update pk (update pk d k f) k g = update pk d k (λ v, g (f v)).
Proof.
  induction d as [|[k' v] d IH]; simpl; [done|].
  destruct (decide (pk k' = pk k)) as [E|E]; simpl.
  - by rewrite decide_True.
  - rewrite decide_False by done. by rewrite IH.
Qed.

Lemma update_ext (d : list (K * V)) k (f g : V → V) :
  (∀ v, f v = g v) → update pk d k f = update pk d k g.
Proof.
  intros Hfg. induction d as [|[k' v] d IH]; simpl; [done|].
  destruct (decide (pk k' = pk k)); [by rewrite Hfg|by rewrite IH].
Qed.

End Dict.

(** *** The loop *)

Section BillingInfo.
Context {F : Type} `{Py.FloatOps F}.
Variable to_int_or_round : Py.num F → Py.num F.

(** The body of the loop for a row whose mission has a lead, whose
    consultant exists and has a rate on the mission. *)
Lemma billing_step_billed (db : Database F) billing_data mission_id'
    consultant_id' charge mission lead' consultant rate :
  missions db !! mission_id' = Some mission →
  lead mission = Some lead' →
  consultants db !! consultant_id' = Some consultant →
  consultant_rates mission !! consultant_id consultant = Some rate →
  billing_step to_int_or_round db billing_data
    (mission_id', consultant_id', charge)
  = Py.Return
      (update lead_id
         (setdefault lead_id billing_data lead' (Py.Float (Py.of_Z 0), []))
         lead'
         (λ entry,
            (Py.add entry.1 (Py.mul charge rate.1),
             update mission_id
               (setdefault mission_id entry.2 mission (Py.Float (Py.of_Z 0), []))
               mission
               (λ m, (Py.add m.1 (Py.mul charge rate.1),
                      m.2 ++ [(consultant, to_int_or_round charge, rate.1,
                               Py.mul charge rate.1)]))))).
Proof.
  intros Hm Hl Hc Hr. unfold billing_step, get_mission, get_consultant.
  rewrite Hm. simpl. rewrite Hl, Hc. simpl.
  rewrite (PyFacts.getitem_Some _ _ _ Hr). simpl.
  rewrite !update_update. f_equal.
  apply update_ext. intros [t ms]. simpl.
  by rewrite !update_update.
Qed.

(** A row whose mission has no lead is skipped. *)
Lemma billing_step_no_lead (db : Database F) billing_data mission_id'
    consultant_id' charge mission :
  missions db !! mission_id' = Some mission → lead mission = None →
  billing_step to_int_or_round db billing_data
    (mission_id', consultant_id', charge)
  = Py.Return billing_data.
Proof.
  intros Hm Hl. unfold billing_step, get_mission. rewrite Hm. simpl.
  by rewrite Hl.
Qed.

(** What the body does when it returns. *)
Lemma billing_step_returns (db : Database F) billing_data row billing_data' :
  billing_step to_int_or_round db billing_data row = Py.Return billing_data' →
  billing_data' = billing_data
  ∨ ∃ mission lead' (total : Py.num F) (line : detail F),
      lead mission = Some lead' ∧ detail_total line = total ∧
      billing_data'
      = update lead_id
          (setdefault lead_id billing_data lead' (Py.Float (Py.of_Z 0), []))
          lead'
          (λ entry,
             (Py.add entry.1 total,
              update mission_id
                (setdefault mission_id entry.2 mission (Py.Float (Py.of_Z 0), []))
                mission
                (λ m, (Py.add m.1 total, m.2 ++ [line])))).
Proof.
  destruct row as [[mission_id' consultant_id'] charge]. intros E.
  destruct (missions db !! mission_id') as [mission|] eqn:Hm.
  2:{ unfold billing_step, get_mission in E. by rewrite Hm in E. }
  destruct (lead mission) as [lead'|] eqn:Hl.
  2:{ rewrite (billing_step_no_lead _ _ _ _ _ _ Hm Hl) in E.
      left. by inversion E. }
  destruct (consultants db !! consultant_id') as [consultant|] eqn:Hc.
  2:{ unfold billing_step, get_mission, get_consultant in E.
      rewrite Hm in E. simpl in E. by rewrite Hl, Hc in E. }
  destruct (consultant_rates mission !! consultant_id consultant)
    as [rate|] eqn:Hr.
  2:{ unfold billing_step, get_mission, get_consultant, Py.getitem in E.
      rewrite Hm in E. simpl in E. rewrite Hl, Hc in E. simpl in E.
      by rewrite Hr in E. }
  rewrite (billing_step_billed _ _ _ _ _ _ _ _ _ Hm Hl Hc Hr) in E.
  right. exists mission, lead', (Py.mul charge rate.1),
    (consultant, to_int_or_round charge, rate.1, Py.mul charge rate.1).
  split; [done|]. split; [done|]. by inversion E.
Qed.

Lemma details_sum_snoc (details : list (detail F)) line :
  details_sum (details ++ [line])
  = Py.add (details_sum details) (detail_total line).
Proof. unfold details_sum. by rewrite fmap_app, fold_left_app. Qed.

(** The loop keeps the leads distinct and their entries in order. *)
Lemma billing_step_ok (db : Database F) billing_data row billing_data' :
  billing_step to_int_or_round db billing_data row = Py.Return billing_data' →
  NoDup ((λ item : Lead * lead_entry F, lead_id item.1) <$> billing_data) →
  Forall lead_entry_ok billing_data →
  NoDup ((λ item : Lead * lead_entry F, lead_id item.1) <$> billing_data') ∧
  Forall lead_entry_ok billing_data'.
Proof.
  intros [->|(mission & lead' & total & line & Hl & Hline & ->)]%billing_step_returns
    Hnd Hok; [done|].
  split.
  { rewrite keys_update. by apply NoDup_keys_setdefault. }
  apply Forall_update.
  { apply Forall_setdefault; [done|]. split; simpl; constructor. }
  intros k' [t ms] [Hms Hall] Hk'. unfold lead_entry_ok in *. simpl in *.
  split.
  { rewrite keys_update. by apply NoDup_keys_setdefault. }
  apply Forall_update.
  { apply Forall_setdefault; [done|]. simpl. split; [|done].
    exists lead'. by rewrite Hk'. }
  intros m [mt details] [Hlead Hsum] Hm. simpl in *. split; [done|].
  by rewrite details_sum_snoc, Hsum, Hline.
Qed.

Lemma billing_loop_ok (db : Database F) rows :
  ∀ billing_data billing_data',
    Py.for_each (billing_step to_int_or_round db) rows billing_data
    = Py.Return billing_data' →
    NoDup ((λ item : Lead * lead_entry F, lead_id item.1) <$> billing_data) →
    Forall lead_entry_ok billing_data →
    NoDup ((λ item : Lead * lead_entry F, lead_id item.1) <$> billing_data') ∧
    Forall lead_entry_ok billing_data'.
Proof.
  induction rows as [|row rows IH]; intros d d'; simpl.
  - by intros [= <-].
  - intros (d1 & Hstep & Hloop)%PyFacts.bind_Return Hnd Hok.
    destruct (billing_step_ok _ _ _ _ Hstep Hnd Hok) as [Hnd1 Hok1].
    by apply (IH d1 d').
Qed.

(** X22.  A row of the timesheet whose mission has no lead is skipped:
    the billing information is the same with and without it, whoever its
    consultant and whatever its charge are. *)
Theorem get_billing_info_skips_missions_without_lead (db : Database F)
    before after mission_id' consultant_id' charge mission :
  missions db !! mission_id' = Some mission → lead mission = None →
  get_billing_info to_int_or_round db
    (before ++ (mission_id', consultant_id', charge) :: after)
  = get_billing_info to_int_or_round db (before ++ after).
Proof.
  intros Hm Hl. unfold get_billing_info.
  rewrite !PyFacts.for_each_app.
  destruct (Py.for_each (billing_step to_int_or_round db) before [])
    as [d|e]; [|done].
  cbv beta iota delta [mbind result_bind Py.bind].
  by rewrite PyFacts.for_each_cons, (billing_step_no_lead _ _ _ _ _ _ Hm Hl).
Qed.

(** X23.  The billing information is sorted by deal id and holds each
    lead once; it is the dictionary that the loop built, reordered by a
    stable sort: the leads of a same deal id keep the order in which they
    were met. *)
Theorem get_billing_info_sorted (db : Database F) timesheet_data data :
  get_billing_info to_int_or_round db timesheet_data = Py.Return data →
  StronglySorted (λ a b, String.leb (deal_id a.1) (deal_id b.1) = true) data ∧
  NoDup ((λ item : Lead * lead_entry F, lead_id item.1) <$> data) ∧
  ∃ billing_data,
    Py.for_each (billing_step to_int_or_round db) timesheet_data []
    = Py.Return billing_data ∧
    data ≡ₚ billing_data ∧
    ∀ k, filter (λ item, deal_id item.1 = k) data
         = filter (λ item, deal_id item.1 = k) billing_data.
Proof.
  unfold get_billing_info.
  intros (billing_data & Hloop & [= <-])%PyFacts.bind_Return.
  destruct (billing_loop_ok _ _ _ _ Hloop) as [Hnd Hok]; [constructor..|].
  split; [apply (sort_by_key_sorted (λ item : Lead * lead_entry F, deal_id item.1))|].
  split; [by rewrite sort_by_key_perm|].
  exists billing_data. split; [done|]. split; [apply sort_by_key_perm|].
  intros k.
  apply (sort_by_key_stable (λ item : Lead * lead_entry F, deal_id item.1)).
Qed.

(** X24.  In the billing information, the missions listed under a lead
    are distinct missions of that lead, and the total of each mission is
    the sum of the totals of its lines of detail, added in the order of the
    lines from the float zero. *)
Theorem get_billing_info_mission_totals (db : Database F) timesheet_data data :
  get_billing_info to_int_or_round db timesheet_data = Py.Return data →
  Forall lead_entry_ok data.
Proof.
  unfold get_billing_info.
  intros (billing_data & Hloop & [= <-])%PyFacts.bind_Return.
  destruct (billing_loop_ok _ _ _ _ Hloop) as [Hnd Hok]; [constructor..|].
  by rewrite sort_by_key_perm.
Qed.

(** X26.  After rows that went well, [get_billing_info] raises
    [DoesNotExist] on a row whose mission does not exist, or whose mission
    has a lead and whose consultant does not exist, and [KeyError] on a
    row whose mission has a lead and no rate for the consultant. *)
Theorem get_billing_info_raises (db : Database F) before after billing_data
    mission_id' consultant_id' charge :
  Py.for_each (billing_step to_int_or_round db) before []
  = Py.Return billing_data →
  let timesheet_data := before ++ (mission_id', consultant_id', charge) :: after in
  (missions db !! mission_id' = None →
   get_billing_info to_int_or_round db timesheet_data
   = Py.Raise Py.DoesNotExist) ∧
  (∀ mission lead',
     missions db !! mission_id' = Some mission → lead mission = Some lead' →
     (consultants db !! consultant_id' = None →
      get_billing_info to_int_or_round db timesheet_data
      = Py.Raise Py.DoesNotExist) ∧
     (∀ consultant,
        consultants db !! consultant_id' = Some consultant →
        consultant_rates mission !! consultant_id consultant = None →
        get_billing_info to_int_or_round db timesheet_data
        = Py.Raise Py.KeyError)).
Proof.
  intros Hb timesheet_data. unfold get_billing_info, timesheet_data.
  rewrite !PyFacts.for_each_app, Hb. simpl.
  unfold get_mission, get_consultant, Py.getitem.
  split.
  - by intros ->.
  - intros mission lead' -> Hl. simpl. rewrite Hl. split.
    + by intros ->.
    + intros consultant -> Hr. simpl. by rewrite Hr.
Qed.

End BillingInfo.

(** *** The totals in exact arithmetic *)

Section ExactTotals.
Variable to_int_or_round : Py.num R → Py.num R.

Lemma to_float_add (a b : Py.num R) :
  Py.to_float (Py.add a b) = (Py.to_float a + Py.to_float b)%R.
Proof. destruct a, b; simpl; [apply plus_IZR|done..]. Qed.

Lemma missions_sum_app ms1 ms2 :
  missions_sum (ms1 ++ ms2) = (missions_sum ms1 + missions_sum ms2)%R.
Proof.
  induction ms1 as [|m ms1 IH]; simpl; [lra|]. rewrite IH. lra.
Qed.

Lemma missions_sum_setdefault ms mission :
  missions_sum (setdefault mission_id ms mission (Py.Float (Py.of_Z 0), []))
  = missions_sum ms.
Proof.
  unfold setdefault. destruct (contains _ _ _); [done|].
  rewrite missions_sum_app. simpl. lra.
Qed.

Lemma missions_sum_update ms (mission : Mission R) total
    (g : list (detail R) → list (detail R)) :
  mission_id mission
    ∈ (λ m : Mission R * mission_entry R, mission_id m.1) <$> ms →
  missions_sum (update mission_id ms mission (λ m, (Py.add m.1 total, g m.2)))
  = (missions_sum ms + Py.to_float total)%R.
Proof.
  induction ms as [|[k [mt details]] ms IH]; simpl.
  - by intros ?%elem_of_nil.
  - intros Hin. destruct (decide (mission_id k = mission_id mission)) as [E|E].
    + simpl. rewrite to_float_add. lra.
    + simpl. rewrite IH; [lra|].
      apply elem_of_cons in Hin as [Hin|Hin]; [congruence|done].
Qed.

Lemma billing_step_lead_total (db : Database R) billing_data row billing_data' :
  billing_step to_int_or_round db billing_data row = Py.Return billing_data' →
  Forall (λ item : Lead * lead_entry R,
            Py.to_float item.2.1 = missions_sum item.2.2) billing_data →
  Forall (λ item : Lead * lead_entry R,
            Py.to_float item.2.1 = missions_sum item.2.2) billing_data'.
Proof.
  intros [->|(mission & lead' & total & line & Hl & Hline & ->)]%billing_step_returns
    Hok; [done|].
  apply Forall_update.
  { apply Forall_setdefault; [done|]. simpl. done. }
  intros k' [t ms] Ht _. simpl in *.
  rewrite to_float_add, Ht.
  rewrite (missions_sum_update _ _ _ (λ details, details ++ [line])).
  - by rewrite missions_sum_setdefault.
  - apply elem_of_keys_setdefault.
Qed.

(** X25.  In exact arithmetic, the total of each lead of the billing
    information is the sum of the totals of its missions. *)
Theorem get_billing_info_lead_totals (db : Database R) timesheet_data data :
  get_billing_info to_int_or_round db timesheet_data = Py.Return data →
  Forall (λ item : Lead * lead_entry R,
            Py.to_float item.2.1 = missions_sum item.2.2) data.
Proof.
  unfold get_billing_info.
  intros (billing_data & Hloop & [= <-])%PyFacts.bind_Return.
  rewrite sort_by_key_perm.
  assert (∀ d d',
            Py.for_each (billing_step to_int_or_round db) timesheet_data d
            = Py.Return d' →
            Forall (λ item : Lead * lead_entry R,
                      Py.to_float item.2.1 = missions_sum item.2.2) d →
            Forall (λ item : Lead * lead_entry R,
                      Py.to_float item.2.1 = missions_sum item.2.2) d') as Hinv.
  { clear Hloop.
    induction timesheet_data as [|row rows IH]; intros d d'; simpl.
    - by intros [= <-].
    - intros (d1 & Hstep & Hrest)%PyFacts.bind_Return Hd.
      apply (IH d1 d' Hrest). by eapply billing_step_lead_total. }
  by apply (Hinv [] billing_data).
Qed.

End ExactTotals.

(** *** The two leads of the sample *)

Example billing_of_the_sample :
  (λ item : Lead * lead_entry PrimFloat.float, (deal_id item.1, item.2.1))
    <$> sample_billing
  = [("A-2021"%string, Py.Float 2400%float);
     ("B-2021"%string, Py.Float 6000%float)].
Proof. vm_compute. reflexivity. Qed.

Lemma sample_billing_returned :
  get_billing_info (λ x, x) sample_db sample_timesheet
  = Py.Return sample_billing.
Proof. vm_compute. reflexivity. Qed.

Lemma get_billing_info_skips_missions_without_lead_witness :
  get_billing_info (λ x, x) sample_db sample_timesheet
  = get_billing_info (λ x, x) sample_db
      [(10, 1, Py.Float (Binary64.of_Z 2));
       (11, 2, Py.Float (Binary64.of_Z 3));
       (13, 2, Py.Float (Binary64.of_Z 1));
       (10, 2, Py.Float (Binary64.of_Z 4))].
Proof.
  apply (get_billing_info_skips_missions_without_lead (λ x, x) sample_db
           [(10, 1, Py.Float (Binary64.of_Z 2))]
           [(11, 2, Py.Float (Binary64.of_Z 3));
            (13, 2, Py.Float (Binary64.of_Z 1));
            (10, 2, Py.Float (Binary64.of_Z 4))]
           12 1 (Py.Float (Binary64.of_Z 5)) (mkMission 12 None sample_rates));
    reflexivity.
Defined.

Lemma get_billing_info_sorted_witness :
  StronglySorted (λ a b, String.leb (deal_id a.1) (deal_id b.1) = true)
    sample_billing ∧
  NoDup ((λ item : Lead * lead_entry PrimFloat.float, lead_id item.1)
           <$> sample_billing).
Proof.
  destruct (get_billing_info_sorted (λ x, x) sample_db sample_timesheet
              sample_billing sample_billing_returned) as (Hs & Hnd & _).
  split; [exact Hs|exact Hnd].
Defined.

Lemma get_billing_info_mission_totals_witness :
  Forall lead_entry_ok sample_billing.
Proof.
  apply (get_billing_info_mission_totals (λ x, x) sample_db sample_timesheet).
  exact sample_billing_returned.
Defined.

Lemma get_billing_info_raises_witness :
  get_billing_info (λ x, x) sample_db [(10, 3, Py.Float (Binary64.of_Z 1))]
  = Py.Raise Py.KeyError.
Proof.
  destruct (get_billing_info_raises (λ x, x) sample_db [] [] [] 10 3
              (Py.Float (Binary64.of_Z 1)) eq_refl) as [_ Hr].
  destruct (Hr (mkMission 10 (Some lead_b) sample_rates) lead_b eq_refl eq_refl)
    as [_ Hk].
  apply (Hk (mkConsultant 3 "EVE")); reflexivity.
Defined.

Lemma exact_billing_returned :
  get_billing_info (λ x, x) exact_db exact_timesheet = Py.Return exact_billing.
Proof. reflexivity. Qed.

Lemma get_billing_info_lead_totals_witness :
  Forall (λ item : Lead * lead_entry R,
            Py.to_float item.2.1 = missions_sum item.2.2) exact_billing.
Proof.
  apply (get_billing_info_lead_totals (λ x, x) exact_db exact_timesheet).
  exact exact_billing_returned.
Defined.

End BillingInfoFacts.

(** ** staffing/views.py: [pdc_review] *)

Module PdcReviewFacts.
Import PdcReview.

(** *** The number of months *)

Lemma sample_int_raises s e : sample_int s = Py.Raise e → e = Py.ValueError.
Proof.
  unfold sample_int. destruct (parse_digits _ _ _); intros E; by inversion E.
Qed.

(** The number of months is at most 12, whatever [int] does. *)
Lemma n_month_of_le (int : string → Py.result Z) (GET : gmap string string) n :
  n_month_of int GET = Py.Return n → n <= 12.
Proof.
  unfold n_month_of.
  destruct (GET !! "n_month"%string) as [s|]; [|intros [= <-]; lia].
  destruct (int s) as [z|e]; simpl.
  - intros [= <-]. destruct (12 <? z) eqn:Hz; [lia|]. by apply Z.ltb_ge in Hz.
  - destruct (Py.exn_eqb e Py.ValueError); [|discriminate].
    intros [= <-]. lia.
Qed.

Lemma elem_of_range i n : i ∈ range n ↔ 0 ≤ i < n.
Proof.
  unfold range. rewrite list_elem_of_fmap. split.
  - intros (k & -> & Hk%elem_of_seq). lia.
  - intros Hi. exists (Z.to_nat i). split; [lia|]. apply elem_of_seq. lia.
Qed.

Lemma length_range n : length (range n) = Z.to_nat n.
Proof. unfold range. by rewrite length_fmap, length_seq. Qed.

Lemma days_in_month_pos y m : 1 <= days_in_month y m.
Proof.
  unfold days_in_month.
  repeat match goal with |- context [if ?b then _ else _] => destruct b end; lia.
Qed.

Lemma make_date_first y m :
  1 <= y <= 9999 → 1 <= m <= 12 → make_date y m 1 = Py.Return (mkDate y m 1).
Proof.
  intros Hy Hm. unfold make_date.
  pose proof (days_in_month_pos y m).
  repeat match goal with
         | |- context [?a <=? ?b] =>
             rewrite (proj2 (Z.leb_le a b)) by lia
         end.
  reflexivity.
Qed.

(** The loop over [range(n_month)] appends one month per turn. *)
Lemma months_loop start_date (l : list Z) (acc : list date) :
  day start_date = 1 → 1 <= month start_date <= 12 →
  1 <= year start_date < 9999 →
  (∀ i, i ∈ l → 0 <= i < 12) →
  Py.for_each
    (λ months i,
       m ← (if month start_date + i <=? 12
            then replace_month start_date (month start_date + i)
            else replace_month_year start_date (month start_date + i - 12)
                   (year start_date + 1));
       Py.Return (months ++ [m])) l acc
  = Py.Return (acc ++ (month_after start_date <$> l)).
Proof.
  intros Hd Hm Hy.
  match goal with |- context [Py.for_each ?f] => set (body := f) end.
  revert acc.
  induction l as [|i l IH]; intros acc Hl.
  - simpl. by rewrite app_nil_r.
  - assert (0 <= i < 12) as Hi by (apply Hl; left).
    assert (body acc i = Py.Return (acc ++ [month_after start_date i])) as Hbody.
    { unfold body, replace_month, replace_month_year, month_after. rewrite Hd.
      destruct (month start_date + i <=? 12) eqn:E.
      - apply Z.leb_le in E. by rewrite make_date_first by lia.
      - apply Z.leb_gt in E. by rewrite make_date_first by lia. }
    rewrite PyFacts.for_each_cons, Hbody. simpl.
    rewrite IH by (intros j Hj; apply Hl; by right).
    by rewrite <- app_assoc.
Qed.

Lemma months_of_spec start_date n :
  day start_date = 1 → 1 <= month start_date <= 12 →
  1 <= year start_date < 9999 → n <= 12 →
  months_of start_date n = Py.Return (month_after start_date <$> range n).
Proof.
  intros Hd Hm Hy Hn. unfold months_of.
  rewrite months_loop; [done..|].
  intros i Hi%elem_of_range. lia.
Qed.

Lemma months_of_length start_date n :
  day start_date = 1 → 1 <= month start_date <= 12 →
  1 <= year start_date < 9999 → n <= 12 →
  ∃ months, months_of start_date n = Py.Return months
            ∧ length months = Z.to_nat n.
Proof.
  intros Hd Hm Hy Hn. rewrite months_of_spec by done.
  eexists. split; [done|]. by rewrite length_fmap, length_range.
Qed.

(** At most twelve months are distinct months. *)
Lemma months_of_NoDup start_date n months :
  day start_date = 1 → 1 <= month start_date <= 12 →
  1 <= year start_date < 9999 → n <= 12 →
  months_of start_date n = Py.Return months → NoDup months.
Proof.
  intros Hd Hm Hy Hn. rewrite months_of_spec by done.
  intros E. inversion E; subst. clear E.
  apply NoDup_fmap_2_strong.
  - intros i j Hi%elem_of_range Hj%elem_of_range. unfold month_after.
    destruct (month start_date + i <=? 12) eqn:Ei,
             (month start_date + j <=? 12) eqn:Ej;
      intros E; inversion E; lia.
  - unfold range. apply NoDup_fmap; [apply Nat2Z.inj'|apply NoDup_seq].
Qed.

(** C10.  Without the parameter the number of months is 4; a text that
    [int] reads as an integer above 12 gives 12, as any other integer
    itself, and a text that [int] does not read as an integer, on which it
    raises [ValueError], leaves 4; the number is never above 12, and that
    many months are displayed (none for a negative number). *)
Theorem n_month_clamped (int : string → Py.result Z) (GET : gmap string string) :
  (∀ s e, int s = Py.Raise e → e = Py.ValueError) →
  (GET !! "n_month"%string = None → n_month_of int GET = Py.Return 4) ∧
  (∀ s z, GET !! "n_month"%string = Some s → int s = Py.Return z →
          n_month_of int GET = Py.Return (if 12 <? z then 12 else z)) ∧
  (∀ s e, GET !! "n_month"%string = Some s → int s = Py.Raise e →
          n_month_of int GET = Py.Return 4) ∧
  (∃ n, n_month_of int GET = Py.Return n ∧ n <= 12 ∧
        ∀ start_date,
          day start_date = 1 → 1 <= month start_date <= 12 →
          1 <= year start_date < 9999 →
          ∃ months, months_of start_date n = Py.Return months
                    ∧ length months = Z.to_nat n).
Proof.
  intros Hraises. split; [|split; [|split]].
  - unfold n_month_of. by intros ->.
  - unfold n_month_of. by intros s z -> ->.
  - unfold n_month_of. intros s e -> E. rewrite E.
    by rewrite (Hraises s e E).
  - assert (∃ n, n_month_of int GET = Py.Return n) as [n Hn].
    { unfold n_month_of.
      destruct (GET !! "n_month"%string) as [s|]; [|by exists 4].
      destruct (int s) as [z|e] eqn:E; simpl.
      - by eexists.
      - rewrite (Hraises s e E). by exists 4. }
    exists n. split; [done|].
    pose proof (n_month_of_le int GET n Hn) as Hle. split; [done|].
    intros start_date Hd Hm Hy. by apply months_of_length.
Qed.

Example n_month_25 :
  n_month_of sample_int {[ "n_month"%string := "25"%string ]} = Py.Return 12.
Proof. reflexivity. Qed.

Example n_month_3 :
  n_month_of sample_int {[ "n_month"%string := " 3 "%string ]} = Py.Return 3.
Proof. reflexivity. Qed.

Example n_month_not_an_integer :
  n_month_of sample_int {[ "n_month"%string := "12.5"%string ]} = Py.Return 4.
Proof. reflexivity. Qed.

Example months_across_the_year :
  months_of (mkDate 2020 11 1) 4
  = Py.Return [mkDate 2020 11 1; mkDate 2020 12 1; mkDate 2021 1 1;
               mkDate 2021 2 1].
Proof. reflexivity. Qed.

Lemma n_month_clamped_witness :
  n_month_of sample_int {[ "n_month"%string := "25"%string ]} = Py.Return 12 ∧
  n_month_of sample_int {[ "n_month"%string := "abc"%string ]} = Py.Return 4 ∧
  n_month_of sample_int (∅ : gmap string string) = Py.Return 4.
Proof.
  split; [|split].
  - apply (proj1 (proj2 (n_month_clamped sample_int
                           {[ "n_month"%string := "25"%string ]}
                           sample_int_raises))
             "25"%string 25); reflexivity.
  - apply (proj1 (proj2 (proj2 (n_month_clamped sample_int
                                  {[ "n_month"%string := "abc"%string ]}
                                  sample_int_raises)))
             "abc"%string Py.ValueError); reflexivity.
  - apply (proj1 (n_month_clamped sample_int ∅ sample_int_raises)). reflexivity.
Defined.

(** *** The buckets, the totals and the rates *)

Section Totals.
Context {F : Type} `{Py.FloatOps F}.
Variable working_days : date → Z.
Variable to_int_or_round : Py.num F → Py.num F.
Variable projection : string.

Lemma projected_charge_weighted (s : Staffing F) :
  projected_charge projection s = Py.Return (weighted projection s).
Proof. unfold projected_charge, weighted. by case_bool_decide. Qed.

Lemma bucket_loop (l : list (Staffing F)) (b : buckets F) :
  Py.for_each (bucket_step projection) l b
  = Py.Return
      (mkBuckets
         (prod b ++ (weighted projection <$> of_nature "PROD" l))
         (unprod b ++ (weighted projection <$> of_nature "NONPROD" l))
         (holidays b ++ (weighted projection <$> of_nature "HOLIDAYS" l))).
Proof.
  revert b. induction l as [|s l IH]; intros b.
  - destruct b. simpl. by rewrite !app_nil_r.
  - rewrite PyFacts.for_each_cons. unfold bucket_step at 1.
    rewrite projected_charge_weighted. unfold of_nature.
    rewrite !filter_cons.
    repeat case_bool_decide; simpl; rewrite IH; simpl;
      repeat case_decide; try congruence;
      simpl; rewrite <- ?app_assoc; reflexivity.
Qed.

Lemma bucket_staffings_of_nature (l : list (Staffing F)) :
  bucket_staffings projection l
  = Py.Return
      (mkBuckets (weighted projection <$> of_nature "PROD" l)
                 (weighted projection <$> of_nature "NONPROD" l)
                 (weighted projection <$> of_nature "HOLIDAYS" l)).
Proof. unfold bucket_staffings. by rewrite bucket_loop. Qed.

Lemma totals_are_ext (total : gmap date (gmap string (Py.num F))) months v v' :
  (∀ m k, m ∈ months → k ∈ total_keys → v m k = v' m k) →
  totals_are total months v → totals_are total months v'.
Proof.
  intros Hext Hv m Hm. destruct (Hv m Hm) as (d & Hd & Hk).
  exists d. split; [done|]. intros k Hk'. rewrite <- Hext by done. by apply Hk.
Qed.

Lemma total_iadd_eq (total : gmap date (gmap string (Py.num F))) m d key old x :
  total !! m = Some d → d !! key = Some old →
  total_iadd total m key x = Py.Return (<[m := <[key := Py.add old x]> d]> total).
Proof.
  intros Hd Hk. unfold total_iadd.
  rewrite (PyFacts.getitem_Some _ _ _ Hd). simpl.
  by rewrite (PyFacts.getitem_Some _ _ _ Hk).
Qed.

Lemma month_step_spec (c : Consultant F) rows total months v m
    (available_month : gmap date Z) :
  totals_are total months v → m ∈ months →
  available_month !! m = Some (working_days m) →
  ∃ rows' total',
    month_step to_int_or_round projection available_month c (rows, total) m
    = Py.Return (rows', total') ∧
    totals_are total' months
      (λ m' k, if decide (m' = m)
               then Py.add (v m' k) (consultant_share working_days projection c m k)
               else v m' k).
Proof.
  intros Hv Hm Ham. unfold month_step.
  rewrite bucket_staffings_of_nature. simpl.
  rewrite (PyFacts.getitem_Some _ _ _ Ham). simpl.
  destruct (Hv m Hm) as (d & Hd & Hk).
  assert (∀ k, k ∈ total_keys → d !! k = Some (v m k)) as Hk' by done.
  unfold total_keys in Hk'.
  do 5 (erewrite total_iadd_eq;
        [simpl
        |first [exact Hd | apply lookup_insert_eq]
        |rewrite ?lookup_insert_ne by done; apply Hk', list_elem_of_In; simpl; tauto]).
  eexists _, _. split; [reflexivity|].
  intros m' Hm'. destruct (decide (m' = m)) as [->|Hne].
  - eexists. split; [apply lookup_insert_eq|].
    intros k Hin. unfold total_keys in Hin.
    repeat (apply elem_of_cons in Hin as [->|Hin]);
      [..|by apply elem_of_nil in Hin];
      rewrite ?lookup_insert_ne by done; by rewrite lookup_insert_eq.
  - destruct (Hv m' Hm') as (d' & Hd' & Hkd').
    exists d'. split; [|done].
    by rewrite !lookup_insert_ne.
Qed.

Lemma months_loop_totals (c : Consultant F) months (available_month : gmap date Z) ms :
  ∀ rows total v,
    NoDup ms → (∀ m, m ∈ ms → m ∈ months) →
    (∀ m, m ∈ ms → available_month !! m = Some (working_days m)) →
    totals_are total months v →
    ∃ rows' total',
      Py.for_each (month_step to_int_or_round projection available_month c)
        ms (rows, total) = Py.Return (rows', total') ∧
      totals_are total' months
        (λ m k, if decide (m ∈ ms)
                then Py.add (v m k) (consultant_share working_days projection c m k)
                else v m k).
Proof.
  induction ms as [|m ms IH]; intros rows total v Hnd Hsub Ham Hv.
  - exists rows, total. split; [done|].
    eapply totals_are_ext; [|exact Hv]. intros m k _ _.
    rewrite decide_False; [done|]. apply not_elem_of_nil.
  - apply NoDup_cons in Hnd as [Hm Hnd].
    destruct (month_step_spec c rows total months v m available_month)
      as (rows1 & total1 & E1 & Hv1); [done|apply Hsub; left|apply Ham; left|].
    edestruct (IH rows1 total1) as (rows2 & total2 & E2 & Hv2);
      [exact Hnd| | |exact Hv1|].
    { intros m' Hm'. apply Hsub. by right. }
    { intros m' Hm'. apply Ham. by right. }
    exists rows2, total2. split.
    + rewrite PyFacts.for_each_cons, E1. exact E2.
    + eapply totals_are_ext; [|exact Hv2]. intros m' k _ _. simpl.
      destruct (decide (m' = m)) as [->|Hne].
      * rewrite decide_False by done. rewrite decide_True; [done|left].
      * destruct (decide (m' ∈ ms)) as [Hin|Hnin].
        -- rewrite decide_True; [done|by right].
        -- rewrite decide_False; [done|]. by intros [?|?]%elem_of_cons.
Qed.

Lemma consultants_loop_totals months (available_month : gmap date Z)
    (cs : list (Consultant F)) :
  NoDup months →
  (∀ m, m ∈ months → available_month !! m = Some (working_days m)) →
  ∀ staffing total v,
    totals_are total months v →
    ∃ staffing' total',
      Py.for_each
        (λ '(staffing, total) consultant,
           '(rows, total) ← Py.for_each
                              (month_step to_int_or_round projection
                                 available_month consultant)
                              months ([], total);
           Py.Return (staffing ++ [(consultant, rows)], total))
        cs (staffing, total) = Py.Return (staffing', total') ∧
      totals_are total' months
        (λ m k, fold_left
                  (λ acc c,
                     Py.add acc (consultant_share working_days projection c m k))
                  cs (v m k)).
Proof.
  intros Hnd Ham. induction cs as [|c cs IH]; intros staffing total v Hv.
  - exists staffing, total. by split.
  - destruct (months_loop_totals c months available_month months [] total v)
      as (rows1 & total1 & E1 & Hv1); [done|done|done|done|].
    destruct (IH (staffing ++ [(c, rows1)]) total1 _ Hv1)
      as (staffing2 & total2 & E2 & Hv2).
    exists staffing2, total2. split.
    + rewrite PyFacts.for_each_cons. simpl. rewrite E1. simpl. exact E2.
    + eapply totals_are_ext; [|exact Hv2]. intros m k Hm _. cbv beta.
      by case_decide.
Qed.

Lemma fold_insert_lookup {V} (f : date → V) months (acc : gmap date V) m :
  fold_left (λ t m, <[m := f m]> t) months acc !! m
  = if decide (m ∈ months) then Some (f m) else acc !! m.
Proof.
  revert acc. induction months as [|m' months IH]; intros acc; cbn [fold_left].
  - rewrite decide_False; [done|apply not_elem_of_nil].
  - rewrite IH. destruct (decide (m ∈ months)) as [Hin|Hnin].
    + rewrite decide_True; [done|by right].
    + destruct (decide (m = m')) as [->|Hne].
      * rewrite lookup_insert_eq. rewrite decide_True; [done|left].
      * rewrite lookup_insert_ne by done.
        rewrite decide_False; [done|]. by intros [?|?]%elem_of_cons.
Qed.

Lemma available_month_of_lookup months m :
  m ∈ months → available_month_of working_days months !! m = Some (working_days m).
Proof.
  intros Hm. unfold available_month_of.
  rewrite (fold_insert_lookup working_days). by rewrite decide_True.
Qed.

Lemma initial_total_zero months :
  totals_are (initial_total (F:=F) months) months (λ _ _, Py.Int 0).
Proof.
  intros m Hm. unfold initial_total.
  rewrite (fold_insert_lookup (λ _, _)). rewrite decide_True by done.
  eexists. split; [reflexivity|].
  intros k Hin. unfold total_keys in Hin.
  repeat (apply elem_of_cons in Hin as [->|Hin]);
    [..|by apply elem_of_nil in Hin];
    rewrite ?lookup_insert_ne by done;
    first [by rewrite lookup_insert_eq | by rewrite lookup_singleton_eq].
Qed.

(** The rates of a month, from the entries of its total. *)
Lemma month_rate_formula people_count (available_month : gmap date Z) total
    months v m :
  totals_are total months v → m ∈ months →
  available_month !! m = Some (working_days m) →
  let ndays : Py.num F := Py.Int (people_count * working_days m) in
  Py.is_zero ndays = false →
  Py.is_zero (Py.sub ndays (v m "holidays"%string)) = false →
  month_rate people_count available_month total m
  = Py.Return
      [percentage (v m "prod"%string) (Py.sub ndays (v m "holidays"%string));
       percentage (v m "unprod"%string) (Py.sub ndays (v m "holidays"%string));
       percentage (v m "holidays"%string) ndays;
       percentage (v m "available"%string) (Py.sub ndays (v m "holidays"%string))].
Proof.
  intros Hv Hm Ham ndays Hz Hzh. unfold month_rate.
  rewrite (PyFacts.getitem_Some _ _ _ Ham). simpl.
  destruct (Hv m Hm) as (d & Hd & Hk).
  rewrite (PyFacts.getitem_Some _ _ _ Hd). simpl.
  assert (∀ k, k ∈ total_keys → Py.getitem d k = Py.Return (v m k)) as Hg.
  { intros k Hin. by apply PyFacts.getitem_Some, Hk. }
  unfold total_keys in Hg.
  rewrite !Hg by (apply list_elem_of_In; simpl; tauto). simpl.
  fold ndays.
  rewrite !(PyFacts.truediv_nonzero _ _ Hzh), (PyFacts.truediv_nonzero _ _ Hz).
  reflexivity.
Qed.

Lemma indicator_rates_loop people_count (available_month : gmap date Z) total
    (rate_of : date → list (Py.num F)) ms :
  (∀ m, m ∈ ms →
        month_rate people_count available_month total m = Py.Return (rate_of m)) →
  ∀ rates : list (list (Py.num F)),
    Py.for_each
      (λ (rates : list (list (Py.num F))) month,
         rate ← month_rate people_count available_month total month;
         Py.Return (rates ++ [to_int_or_round <$> rate]))
      ms rates
    = Py.Return (rates ++ ((λ m, to_int_or_round <$> rate_of m) <$> ms)).
Proof.
  induction ms as [|m ms IH]; intros Hr rates.
  - simpl. by rewrite app_nil_r.
  - rewrite PyFacts.for_each_cons. cbv beta. rewrite Hr by left. simpl.
    rewrite IH by (intros m' Hm'; apply Hr; by right).
    by rewrite <- app_assoc.
Qed.

(** The totals that the loop over the consultants leaves, and the rates
    that are computed from them. *)
Lemma staffing_totals_and_rates (consultants : list (Consultant F))
    (months : list date) (people_count : Z) :
  NoDup months →
  ∃ staffing total,
    consultants_loop to_int_or_round projection months
      (available_month_of working_days months) consultants
    = Py.Return (staffing, total) ∧
    totals_are total months (month_total working_days projection consultants) ∧
    (∀ m, m ∈ months →
       divisors_ok working_days projection consultants people_count m = true →
       month_rate people_count (available_month_of working_days months) total m
       = Py.Return
           (described_rates working_days projection consultants people_count m)) ∧
    ((∀ m, m ∈ months →
        divisors_ok working_days projection consultants people_count m = true) →
     indicator_rates to_int_or_round people_count
       (available_month_of working_days months) total months
     = Py.Return
         ((λ m, to_int_or_round
                  <$> described_rates working_days projection consultants
                        people_count m) <$> months)).
Proof.
  intros Hnd.
  destruct (consultants_loop_totals months (available_month_of working_days months)
              consultants Hnd) with (staffing := @nil (Consultant F * list (list (Py.num F))))
                                    (total := initial_total (F:=F) months)
                                    (v := λ (_ : date) (_ : string), Py.Int (F:=F) 0)
    as (staffing & total & E & Hv).
  { intros m Hm. by apply available_month_of_lookup. }
  { apply initial_total_zero. }
  exists staffing, total.
  assert (∀ m, m ∈ months →
            divisors_ok working_days projection consultants people_count m = true →
            month_rate people_count (available_month_of working_days months) total m
            = Py.Return
                (described_rates working_days projection consultants
                   people_count m)) as Hrate.
  { intros m Hm [Hz Hzh]%andb_true_iff.
    apply negb_true_iff in Hz, Hzh.
    by apply (month_rate_formula people_count _ total months _ m Hv Hm
                (available_month_of_lookup months m Hm)). }
  split; [exact E|]. split; [exact Hv|]. split; [exact Hrate|].
  intros Hok. unfold indicator_rates.
  rewrite (indicator_rates_loop people_count _ total
             (described_rates working_days projection consultants people_count));
    [done|].
  intros m Hm. apply Hrate; [done|by apply Hok].
Qed.

(** C3.  The loop over the staffings of a consultant and a month puts in
    each of the three buckets the staffings of the matching nature, in
    order, each with its charge times the probability of the mission over
    100, or with its raw charge under the full projection.  The loop over
    the consultants then leaves in the total of each displayed month the
    sums of these buckets, and, where no divisor is zero, the rates of the
    month are: 100 times the total of holidays over the number of
    consultants times the working days of the month for the holidays; 100
    times the total over that product minus the total of holidays for the
    production, the time out of production and the availability.  The list
    handed to the page holds these rates after [to_int_or_round]. *)
Theorem pdc_review_buckets_and_rates (consultants : list (Consultant F))
    (months : list date) (people_count : Z) :
  NoDup months →
  (∀ l : list (Staffing F),
     bucket_staffings projection l
     = Py.Return
         (mkBuckets (weighted projection <$> of_nature "PROD" l)
                    (weighted projection <$> of_nature "NONPROD" l)
                    (weighted projection <$> of_nature "HOLIDAYS" l))) ∧
  ∃ staffing total,
    consultants_loop to_int_or_round projection months
      (available_month_of working_days months) consultants
    = Py.Return (staffing, total) ∧
    totals_are total months (month_total working_days projection consultants) ∧
    (∀ m, m ∈ months →
       divisors_ok working_days projection consultants people_count m = true →
       month_rate people_count (available_month_of working_days months) total m
       = Py.Return
           (described_rates working_days projection consultants people_count m)) ∧
    ((∀ m, m ∈ months →
        divisors_ok working_days projection consultants people_count m = true) →
     indicator_rates to_int_or_round people_count
       (available_month_of working_days months) total months
     = Py.Return
         ((λ m, to_int_or_round
                  <$> described_rates working_days projection consultants
                        people_count m) <$> months)).
Proof.
  intros Hnd. split.
  - apply bucket_staffings_of_nature.
  - by apply staffing_totals_and_rates.
Qed.

End Totals.

(** The rates of the view, from the request to the list handed to the
    page. *)
Lemma pdc_review_rates_formula {F} `{Py.FloatOps F} (working_days : date → Z)
    (to_int_or_round : Py.num F → Py.num F) (int : string → Py.result Z)
    (add_days : date → Z → Py.result date) (GET : gmap string string)
    start_date people_count (consultants : list (Consultant F)) n slices :
  day start_date = 1 → 1 <= month start_date <= 12 →
  1 <= year start_date < 9999 →
  n_month_of int GET = Py.Return n →
  slice_dates add_days start_date n = Py.Return slices →
  (∀ m, m ∈ month_after start_date <$> range n →
        divisors_ok working_days (projection_of GET) consultants people_count m
        = true) →
  pdc_review_rates working_days to_int_or_round int add_days GET start_date
    people_count consultants
  = Py.Return
      ((λ m, to_int_or_round
               <$> described_rates working_days (projection_of GET) consultants
                     people_count m)
         <$> (month_after start_date <$> range n)).
Proof.
  intros Hd Hm Hy Hn Hs Hok. unfold pdc_review_rates. rewrite Hn. simpl.
  pose proof (n_month_of_le int GET n Hn) as Hle.
  pose proof (months_of_spec start_date n Hd Hm Hy Hle) as Hmonths.
  rewrite Hmonths. simpl. rewrite Hs. destruct slices as [previous next]. simpl.
  destruct (staffing_totals_and_rates working_days to_int_or_round
              (projection_of GET) consultants
              (month_after start_date <$> range n) people_count)
    as (staffing & total & -> & _ & _ & Hrates).
  { by apply (months_of_NoDup start_date n). }
  simpl. by apply Hrates.
Qed.

Lemma two_months : NoDup [january; february].
Proof.
  apply NoDup_cons. split; [|apply NoDup_singleton].
  intros E%list_elem_of_singleton. discriminate E.
Qed.

(** The rates of the sample team in January: 15 days of production, 5
    days out of production and 2 days of holidays out of 40. *)
Example team_rates_in_january :
  described_rates twenty_days "balanced" team 2 january
  = [Py.Float 0x1.3bca1af286bcap+5%float; Py.Float 0x1.a50d79435e50dp+3%float;
     Py.Float 5%float; Py.Float 0x1.7af286bca1af3p+5%float].
Proof. vm_compute. reflexivity. Qed.

Lemma pdc_review_buckets_and_rates_witness :
  NoDup [january; february] ∧
  ∃ staffing total,
    consultants_loop (λ x, x) "balanced" [january; february]
      (available_month_of twenty_days [january; february]) team
    = Py.Return (staffing, total) ∧
    month_rate 2 (available_month_of twenty_days [january; february]) total january
    = Py.Return (described_rates twenty_days "balanced" team 2 january).
Proof.
  split; [exact two_months|].
  destruct (pdc_review_buckets_and_rates twenty_days (λ x, x) "balanced" team
              [january; february] 2 two_months)
    as (_ & staffing & total & E & _ & Hrate & _).
  exists staffing, total. split; [exact E|].
  apply Hrate; [left|]. vm_compute. reflexivity.
Defined.

(** *** The months of the review *)

(** X20.  From the first day of a month, and for at most twelve months,
    [pdc_review] displays the asked number of months: they are distinct
    first days of months, and the month of rank [i] comes [i] months after
    the start, across the end of the year. *)
Theorem pdc_review_months start_date n :
  day start_date = 1 → 1 <= month start_date <= 12 →
  1 <= year start_date < 9999 → n <= 12 →
  ∃ months,
    months_of start_date n = Py.Return months ∧
    length months = Z.to_nat n ∧
    NoDup months ∧
    ∀ i m, months !! i = Some m →
      day m = 1 ∧ 1 <= month m <= 12 ∧
      12 * year m + month m
      = 12 * year start_date + month start_date + Z.of_nat i.
Proof.
  intros Hd Hm Hy Hn.
  exists (month_after start_date <$> range n).
  assert (months_of start_date n
          = Py.Return (month_after start_date <$> range n)) as E
    by (by apply months_of_spec).
  split; [done|]. split; [by rewrite length_fmap, length_range|].
  split; [by apply (months_of_NoDup start_date n)|].
  intros i m. unfold range. rewrite !list_lookup_fmap.
  destruct (seq 0 (Z.to_nat n) !! i) as [k|] eqn:Hk; [|discriminate].
  apply lookup_seq in Hk as [-> Hlt]. simpl. intros [= <-].
  unfold month_after.
  destruct (Z.leb_spec (month start_date + Z.of_nat i) 12); simpl; lia.
Qed.

Section NoMonth.
Context {F : Type} `{Py.FloatOps F}.
Variable working_days : date → Z.
Variable to_int_or_round : Py.num F → Py.num F.
Variable int : string → Py.result Z.
Variable add_days : date → Z → Py.result date.

(** Too many days for a [timedelta]. *)
Lemma slice_dates_overflow start_date n :
  28 * n < -999999999 →
  slice_dates add_days start_date n = Py.Raise Py.OverflowError.
Proof.
  intros Hn. unfold slice_dates, timedelta.
  destruct (Z.leb_spec (Z.abs (28 * n)) 999999999); [lia|done].
Qed.

(** X21.  A number of months that is zero or negative is not replaced by
    the default, and no month is displayed.  When the dates of the
    previous and of the next slice can be computed, the list of the rates
    is empty, whatever the consultants; when they cannot, their error is
    the one of the view, and it is [OverflowError] for a number of months
    so negative that 28 times it is below -999999999 days. *)
Theorem pdc_review_no_month (GET : gmap string string) start_date people_count
    (consultants : list (Consultant F)) n :
  n_month_of int GET = Py.Return n → n <= 0 →
  months_of start_date n = Py.Return [] ∧
  (∀ slices,
     slice_dates add_days start_date n = Py.Return slices →
     pdc_review_rates working_days to_int_or_round int add_days GET start_date
       people_count consultants
     = Py.Return []) ∧
  (∀ e,
     slice_dates add_days start_date n = Py.Raise e →
     pdc_review_rates working_days to_int_or_round int add_days GET start_date
       people_count consultants
     = Py.Raise e) ∧
  (28 * n < -999999999 →
   pdc_review_rates working_days to_int_or_round int add_days GET start_date
     people_count consultants
   = Py.Raise Py.OverflowError).
Proof.
  intros Hn Hle.
  assert (months_of start_date n = Py.Return []) as Hm.
  { unfold months_of, range. by rewrite Z2Nat.nonpos. }
  assert (∀ e, slice_dates add_days start_date n = Py.Raise e →
               pdc_review_rates working_days to_int_or_round int add_days GET
                 start_date people_count consultants
               = Py.Raise e) as Hraise.
  { intros e Hs. unfold pdc_review_rates. rewrite Hn. simpl. rewrite Hm. simpl.
    by rewrite Hs. }
  split; [done|]. split; [|split; [done|]].
  - intros [previous next] Hs.
    unfold pdc_review_rates. rewrite Hn. simpl. rewrite Hm. simpl.
    rewrite Hs. simpl.
    destruct (staffing_totals_and_rates working_days to_int_or_round
                (projection_of GET) consultants [] people_count
                (NoDup_nil_2 (A:=date)))
      as (staffing & total & -> & _).
    done.
  - intros Hbig. apply Hraise. by apply slice_dates_overflow.
Qed.

End NoMonth.

Lemma pdc_review_months_witness :
  ∃ months,
    months_of (mkDate 2020 11 1) 4 = Py.Return months ∧
    length months = 4%nat ∧ NoDup months.
Proof.
  destruct (pdc_review_months (mkDate 2020 11 1) 4)
    as (months & E & Hlen & Hnd & _); simpl; try lia.
  exists months. split; [exact E|]. split; [exact Hlen|exact Hnd].
Defined.

Lemma pdc_review_no_month_witness :
  pdc_review_rates twenty_days (λ x, x) sample_int
    TimesheetAccess.sample_add_days {[ "n_month"%string := "-1"%string ]}
    february 2 team
  = Py.Return [].
Proof.
  destruct (pdc_review_no_month twenty_days (λ x, x) sample_int
              TimesheetAccess.sample_add_days
              {[ "n_month"%string := "-1"%string ]} february 2 team (-1))
    as (_ & Hrates & _).
  - reflexivity.
  - lia.
  - apply (Hrates (mkDate 2021 3 1, mkDate 2021 1 1)). reflexivity.
Defined.

End PdcReviewFacts.
(** ** staffing/views.py: the access to the timesheets *)

Module TimesheetAccessFacts.
Import PdcReview TimesheetAccess.

Section Access.
Variable today : date.
Variable add_days : date → Z → Py.result date.
Variable days_between : date → date → Z.
Variable upper : string → string.
Variable consultants : gmap string Consultant.

Local Abbreviation check := (check_user_timesheet_access today add_days days_between upper).
Local Abbreviation ontime := (ontime_editing today days_between).

(** The function, once the next month is known and the three permissions
    are not all there. *)
Lemma check_without_perms user_has_feature user consultant timesheet_month next :
  add_days timesheet_month 40 = Py.Return next →
  has_timesheet_perms user = false →
  check user_has_feature consultants user consultant timesheet_month
  = Py.Return
      match consultants !! upper (username user) with
      | Some user_consultant =>
          consultant_access today user_has_feature user user_consultant consultant
            timesheet_month (ontime timesheet_month (first_day next))
      | None => TIMESHEET_ACCESS_NOT_ALLOWED
      end.
Proof.
  intros Hn Hp. unfold check_user_timesheet_access, get_consultant.
  rewrite Hn. simpl. rewrite Hp.
  by destruct (consultants !! upper (username user)).
Qed.

Lemma check_returns user_has_feature user consultant timesheet_month a :
  check user_has_feature consultants user consultant timesheet_month = Py.Return a →
  ∃ next, add_days timesheet_month 40 = Py.Return next.
Proof.
  unfold check_user_timesheet_access.
  destruct (add_days timesheet_month 40) as [next|e]; [by exists next|done].
Qed.

(** Without the three permissions, who reads and writes. *)
Lemma read_write_without_perms user_has_feature user consultant timesheet_month :
  has_timesheet_perms user = false →
  check user_has_feature consultants user consultant timesheet_month
  = Py.Return TIMESHEET_ACCESS_READ_WRITE →
  ∃ next user_consultant,
    add_days timesheet_month 40 = Py.Return next ∧
    ontime timesheet_month (first_day next) = true ∧
    consultants !! upper (username user) = Some user_consultant ∧
    (own_or_team user_consultant consultant = true ∨
     subcontractor user_consultant = false ∧ subcontractor consultant = true ∧
     user_has_feature user "timesheet_subcontractor"%string = true).
Proof.
  intros Hp E.
  destruct (check_returns _ _ _ _ _ E) as [next Hn].
  rewrite (check_without_perms _ _ _ _ _ Hn Hp) in E.
  destruct (consultants !! upper (username user)) as [uc|]; [|done].
  exists next, uc. split; [done|].
  revert E. unfold consultant_access.
  destruct (own_or_team uc consultant).
  { destruct (ontime _ _); [|done]. intros _. auto. }
  destruct (subcontractor uc); [done|].
  destruct (subcontractor consultant); simpl.
  - destruct (user_has_feature user "timesheet_subcontractor"%string).
    + destruct (ontime _ _); [|done]. intros _. auto 10.
    + destruct (user_has_feature user "timesheet_all"%string); [done|].
      destruct (user_has_feature user "timesheet_current_month"%string); [|done].
      by destruct (date_ge _ _).
  - destruct (user_has_feature user "timesheet_all"%string); [done|].
    destruct (user_has_feature user "timesheet_current_month"%string); [|done].
    by destruct (date_ge _ _).
Qed.


(** X28.  The access is refused exactly when the user lacks one of the
    three permissions and either is no consultant, or is a consultant who
    neither owns the timesheet nor has its owner in the team and who is a
    subcontractor, or has none of the features that open the timesheets of
    the others for that month. *)
Theorem timesheet_not_allowed user_has_feature user consultant timesheet_month next :
  add_days timesheet_month 40 = Py.Return next →
  check user_has_feature consultants user consultant timesheet_month
  = Py.Return TIMESHEET_ACCESS_NOT_ALLOWED
  ↔ has_timesheet_perms user = false ∧
    match consultants !! upper (username user) with
    | None => True
    | Some user_consultant =>
        own_or_team user_consultant consultant = false ∧
        (subcontractor user_consultant = true ∨
         (subcontractor consultant
          && user_has_feature user "timesheet_subcontractor"%string) = false ∧
         user_has_feature user "timesheet_all"%string = false ∧
         (user_has_feature user "timesheet_current_month"%string = false ∨
          date_ge timesheet_month (first_day today) = false))
    end.
Proof.
  intros Hn. destruct (has_timesheet_perms user) eqn:Hp.
  { unfold check_user_timesheet_access. rewrite Hn. simpl. rewrite Hp.
    split; [done|]. by intros [? _]. }
  rewrite (check_without_perms _ _ _ _ _ Hn Hp).
  destruct (consultants !! upper (username user)) as [uc|]; [|done].
  unfold consultant_access.
  destruct (own_or_team uc consultant), (subcontractor uc),
    (subcontractor consultant
     && user_has_feature user "timesheet_subcontractor"%string),
    (user_has_feature user "timesheet_all"%string),
    (user_has_feature user "timesheet_current_month"%string),
    (date_ge timesheet_month (first_day today)),
    (ontime timesheet_month (first_day next));
    split; try done; try (intros _; auto 10; fail);
    intros [_ [? [?|[? [? [?|?]]]]]]; done.
Qed.

(** X29.  Features only open: with more features a user has at least the
    access that the user had. *)
Theorem timesheet_access_monotone (features features' : User → string → bool)
    user consultant timesheet_month a a' :
  (∀ u f, features u f = true → features' u f = true) →
  check features consultants user consultant timesheet_month = Py.Return a →
  check features' consultants user consultant timesheet_month = Py.Return a' →
  access_rank a ≤ access_rank a'.
Proof.
  intros Hf E E'.
  destruct (check_returns _ _ _ _ _ E) as [next Hn].
  destruct (has_timesheet_perms user) eqn:Hp.
  { revert E E'. unfold check_user_timesheet_access. rewrite Hn. simpl.
    rewrite Hp. by intros [= <-] [= <-]. }
  rewrite (check_without_perms features _ _ _ _ Hn Hp) in E.
  rewrite (check_without_perms features' _ _ _ _ Hn Hp) in E'.
  destruct (consultants !! upper (username user)) as [uc|];
    [|by inversion E; inversion E'].
  inversion E; inversion E'; subst. clear E E'.
  unfold consultant_access.
  destruct (own_or_team uc consultant); [done|].
  destruct (subcontractor uc); [done|].
  pose proof (Hf user "timesheet_subcontractor"%string) as H1.
  pose proof (Hf user "timesheet_all"%string) as H2.
  pose proof (Hf user "timesheet_current_month"%string) as H3.
  destruct (subcontractor consultant),
    (features user "timesheet_subcontractor"%string),
    (features' user "timesheet_subcontractor"%string),
    (features user "timesheet_all"%string),
    (features' user "timesheet_all"%string),
    (features user "timesheet_current_month"%string),
    (features' user "timesheet_current_month"%string),
    (ontime timesheet_month (first_day next)),
    (date_ge timesheet_month (first_day today));
    simpl; try lia; try (specialize (H1 eq_refl)); try (specialize (H2 eq_refl));
    try (specialize (H3 eq_refl)); done.
Qed.

(** X30.  [consultant_timesheet] saves the timesheet only on a valid POST
    that is not a CSV export, from a user whose access is read and write:
    one who has the three permissions, or who edits a month that can still
    be edited. *)
Theorem timesheet_saved_with_write_access user_has_feature user consultant month
    csv post valid :
  consultant_timesheet_outcome today add_days days_between upper user_has_feature
    consultants user consultant month csv post valid
  = Py.Return SavedAndRendered →
  csv = false ∧ post = true ∧ valid = true ∧
  check user_has_feature consultants user consultant month
  = Py.Return TIMESHEET_ACCESS_READ_WRITE ∧
  (has_timesheet_perms user = true ∨
   ∃ next, add_days month 40 = Py.Return next ∧
           ontime month (first_day next) = true).
Proof.
  unfold consultant_timesheet_outcome.
  intros (a & Ha & E)%PyFacts.bind_Return.
  assert (a = TIMESHEET_ACCESS_READ_WRITE ∧ csv = false ∧ post = true
          ∧ valid = true) as (-> & -> & -> & ->).
  { destruct a, csv, post, valid; simpl in E; done. }
  do 4 (split; [done|]).
  destruct (has_timesheet_perms user) eqn:Hp; [by left|right].
  destruct (read_write_without_perms _ _ _ _ Hp Ha) as (next & uc & ? & ? & _).
  by exists next.
Qed.

End Access.
(** *** The manager, the member of the team and the others *)

Example access_of_the_sample :
  sample_access "MGR" member (mkDate 2021 3 1)
  = Py.Return TIMESHEET_ACCESS_READ_WRITE ∧
  sample_access "MGR" member (mkDate 2021 2 1)
  = Py.Return TIMESHEET_ACCESS_READ_ONLY ∧
  sample_access "MBR" manager (mkDate 2021 3 1)
  = Py.Return TIMESHEET_ACCESS_NOT_ALLOWED ∧
  sample_access "nobody" member (mkDate 2021 3 1)
  = Py.Return TIMESHEET_ACCESS_NOT_ALLOWED.
Proof. vm_compute. done. Qed.


Lemma timesheet_not_allowed_witness :
  sample_access "MBR" manager (mkDate 2021 3 1)
  = Py.Return TIMESHEET_ACCESS_NOT_ALLOWED.
Proof.
  apply (timesheet_not_allowed sample_today sample_add_days sample_days_between
           (λ s, s) sample_consultants (λ _ _, false) (sample_user "MBR") manager
           (mkDate 2021 3 1) (mkDate 2021 4 10)).
  - reflexivity.
  - vm_compute. auto 10.
Defined.

Lemma timesheet_access_monotone_witness :
  access_rank TIMESHEET_ACCESS_NOT_ALLOWED
  ≤ access_rank TIMESHEET_ACCESS_READ_ONLY.
Proof.
  apply (timesheet_access_monotone sample_today sample_add_days
           sample_days_between (λ s, s) sample_consultants
           (λ _ _, false) (λ _ _, true) (sample_user "MBR") manager
           (mkDate 2021 3 1)).
  - discriminate.
  - vm_compute. reflexivity.
  - vm_compute. reflexivity.
Defined.

Lemma timesheet_saved_with_write_access_witness :
  sample_access "MGR" member (mkDate 2021 3 1)
  = Py.Return TIMESHEET_ACCESS_READ_WRITE.
Proof.
  destruct (timesheet_saved_with_write_access sample_today sample_add_days
              sample_days_between (λ s, s) sample_consultants (λ _ _, false)
              (sample_user "MGR") member (mkDate 2021 3 1) false true true)
    as (_ & _ & _ & E & _).
  - vm_compute. reflexivity.
  - exact E.
Defined.

End TimesheetAccessFacts.

(** ** staffing/views.py: [prod_report] *)

Module ProdReportFacts.
Import ProdReport.

Lemma all_status_inj s s' : all_status s = all_status s' → s = s'.
Proof. destruct s, s'; simpl; intros E; by try discriminate E. Qed.

Section Report.
Context {F : Type} `{Py.FloatOps F}.

(** The status computed from the figures of a month obeys the rule. *)
Lemma compute_status_rule (r : month_report F) :
  report_status r
  = compute_status (turnover r) (forecast r) (prod_rate r) (prod_rate_obj r)
      (daily_rate r) (daily_rate_obj r) →
  status_rule r (report_status r).
Proof.
  intros ->. unfold compute_status.
  destruct (forecast r <=? turnover r) eqn:Ht.
  - apply Z.leb_le in Ht.
    destruct (Py.lt (prod_rate r) (prod_rate_obj r)) eqn:Hp;
      [by constructor|].
    destruct (Py.lt (daily_rate r) (daily_rate_obj r)) eqn:Hd;
      by constructor.
  - apply Z.leb_gt in Ht.
    destruct (Py.ge (prod_rate r) (prod_rate_obj r)) eqn:Hp;
      [by constructor|].
    destruct (Py.ge (daily_rate r) (daily_rate_obj r)) eqn:Hd;
      by constructor.
Qed.

(** The rule gives one status only. *)
Lemma status_rule_functional (r : month_report F) s s' :
  status_rule r s → status_rule r s' → s = s'.
Proof.
  intros Hs Hs'. destruct Hs; destruct Hs'; try reflexivity;
    first [lia | congruence].
Qed.

Lemma consultant_month_status
    (daily_rate_objective prod_rate_objective : option (Py.num F))
    month_days consultant_days turnover r :
  consultant_month daily_rate_objective prod_rate_objective month_days
    consultant_days turnover = Py.Return r →
  report_status r
  = compute_status (ProdReport.turnover r) (forecast r) (prod_rate r)
      (prod_rate_obj r) (daily_rate r) (daily_rate_obj r).
Proof.
  unfold consultant_month.
  intros (((dro & pro) & f) & _ & E)%PyFacts.bind_Return.
  apply PyFacts.bind_Return in E as (t & _ & E).
  apply PyFacts.bind_Return in E as (pr & _ & E).
  apply PyFacts.bind_Return in E as (dr & _ & E).
  by inversion E.
Qed.

(** C5.  A month of a consultant for which the report is computed gets the
    status that the rule gives, and the rule gives no other; the six
    statuses have six colours. *)
Theorem prod_report_status
    (daily_rate_objective prod_rate_objective : option (Py.num F))
    month_days consultant_days turnover r :
  consultant_month daily_rate_objective prod_rate_objective month_days
    consultant_days turnover = Py.Return r →
  status_rule r (report_status r) ∧
  (∀ s, status_rule r s → s = report_status r) ∧
  (∀ s, all_status s = all_status (report_status r) → s = report_status r).
Proof.
  intros E%consultant_month_status.
  pose proof (compute_status_rule r E) as Hr.
  split; [exact Hr|]. split.
  - intros s Hs. by apply (status_rule_functional r).
  - intros s. apply all_status_inj.
Qed.

(** The production rate is computed without raising. *)
Lemma compute_prod_rate_returns (consultant_days : gmap string (Py.num F)) :
  ∃ v, compute_prod_rate consultant_days = Py.Return v.
Proof.
  unfold compute_prod_rate.
  destruct (Py.truediv _ _) as [v|e] eqn:E; simpl; [by exists v|].
  apply PyFacts.truediv_raises in E as ->. simpl. by eexists.
Qed.

Lemma compute_prod_rate_zero (consultant_days : gmap string (Py.num F)) :
  Py.is_zero (Py.add (Py.get consultant_days "PROD"%string (Py.Int 0))
                     (Py.get consultant_days "NONPROD"%string (Py.Int 0))) = true →
  compute_prod_rate consultant_days = Py.Return (Py.Int 0).
Proof.
  intros Hz. unfold compute_prod_rate.
  by rewrite (PyFacts.truediv_zero _ _ Hz).
Qed.

(** The daily rate divides by a number of days that is above zero. *)
Lemma compute_daily_rate_returns turnover (consultant_days : gmap string (Py.num F)) :
  Py.positive_nonzero →
  ∃ v, compute_daily_rate turnover consultant_days = Py.Return v.
Proof.
  intros Hlaw. unfold compute_daily_rate.
  destruct (Py.gt _ _) eqn:E; [|by eexists].
  unfold Py.get in E. unfold Py.getitem.
  destruct (consultant_days !! "PROD"%string) as [d|]; [|discriminate E].
  cbv beta iota delta [mbind result_bind Py.bind].
  rewrite (PyFacts.truediv_nonzero _ _ (PyFacts.gt_zero_nonzero d Hlaw E)).
  by eexists.
Qed.

(** The report of a month is computed as soon as the two conversions to
    [int] succeed. *)
Lemma consultant_month_returns
    (daily_rate_objective prod_rate_objective : option (Py.num F))
    month_days consultant_days turnover o t :
  Py.positive_nonzero →
  objectives daily_rate_objective prod_rate_objective month_days consultant_days
  = Py.Return o →
  Py.int turnover = Py.Return t →
  ∃ r, consultant_month daily_rate_objective prod_rate_objective month_days
         consultant_days turnover = Py.Return r.
Proof.
  intros Hlaw Ho Ht. unfold consultant_month. rewrite Ho.
  destruct o as [[dro pro] f]. simpl. rewrite Ht. simpl.
  destruct (compute_prod_rate_returns consultant_days) as [pr ->]. simpl.
  destruct (compute_daily_rate_returns t consultant_days Hlaw) as [dr ->].
  by eexists.
Qed.

(** C6.  The computation of the production rate always returns; the rate
    is 0 when the sum of the days of production and out of production is
    zero, which is the case of a consultant with zero days of each, whose
    daily rate is 0 as well, without any division; and the division can
    raise nothing but the [ZeroDivisionError] that is caught. *)
Theorem prod_rate_division_guarded (consultant_days : gmap string (Py.num F)) :
  (∃ v, compute_prod_rate consultant_days = Py.Return v) ∧
  (Py.is_zero (Py.add (Py.get consultant_days "PROD"%string (Py.Int 0))
                      (Py.get consultant_days "NONPROD"%string (Py.Int 0))) = true →
   compute_prod_rate consultant_days = Py.Return (Py.Int 0)) ∧
  (Py.get consultant_days "PROD"%string (Py.Int 0) = Py.Int 0 →
   Py.get consultant_days "NONPROD"%string (Py.Int 0) = Py.Int 0 →
   compute_prod_rate consultant_days = Py.Return (Py.Int 0) ∧
   ∀ turnover, compute_daily_rate turnover consultant_days = Py.Return (Py.Int 0)) ∧
  (∀ (a b : Py.num F) e, Py.truediv a b = Py.Raise e → e = Py.ZeroDivisionError).
Proof.
  split; [apply compute_prod_rate_returns|].
  split; [apply compute_prod_rate_zero|].
  split; [|apply PyFacts.truediv_raises].
  intros Hp Hn. split.
  - apply compute_prod_rate_zero. by rewrite Hp, Hn.
  - intros turnover. unfold compute_daily_rate. by rewrite Hp.
Qed.

End Report.

Example sample_month_status :
  report_status sample_report = ko_but_prod_date
  ∧ turnover sample_report = 13000 ∧ forecast sample_report = 14000.
Proof. vm_compute. done. Qed.

Example idle_month_returns :
  ∃ r, idle_month = Py.Return r ∧ report_status r = ko
       ∧ prod_rate r = Py.Int 0 ∧ daily_rate r = Py.Int 0.
Proof. eexists. vm_compute. done. Qed.

Lemma prod_report_status_witness :
  sample_month = Py.Return sample_report ∧
  status_rule sample_report ko_but_prod_date.
Proof.
  assert (sample_month = Py.Return sample_report) as E
    by (vm_compute; reflexivity).
  split; [exact E|].
  destruct (prod_report_status (Some (Py.Int 1000)) (Some (Py.Int 70)) 20
              sample_days (Py.Float (Binary64.of_Z 13000)) sample_report E)
    as (Hr & _).
  assert (report_status sample_report = ko_but_prod_date) as <-
    by (vm_compute; reflexivity).
  exact Hr.
Defined.

Lemma prod_rate_division_guarded_witness :
  compute_prod_rate (∅ : gmap string (Py.num PrimFloat.float))
  = Py.Return (Py.Int 0) ∧
  compute_daily_rate 0 (∅ : gmap string (Py.num PrimFloat.float))
  = Py.Return (Py.Int 0).
Proof.
  destruct (prod_rate_division_guarded (∅ : gmap string (Py.num PrimFloat.float)))
    as (_ & _ & Hz & _).
  destruct Hz as [Hp Hd]; [reflexivity|reflexivity|].
  split; [exact Hp|apply Hd].
Defined.

Lemma reached_compute_status {F} `{Py.FloatOps F} turnover forecast
    (prod_rate prod_rate_obj daily_rate daily_rate_obj : Py.num F) :
  reached (compute_status turnover forecast prod_rate prod_rate_obj daily_rate
             daily_rate_obj)
  = (forecast <=? turnover).
Proof.
  unfold compute_status. destruct (forecast <=? turnover).
  - by destruct (Py.lt prod_rate prod_rate_obj), (Py.lt daily_rate daily_rate_obj).
  - by destruct (Py.ge prod_rate prod_rate_obj), (Py.ge daily_rate daily_rate_obj).
Qed.

(** *** The totals of the report *)

Section Totals.
Context {F : Type} `{Py.FloatOps F}.
Variable report : Consultant F → PdcReview.date → month_report F.

(** The report of a consultant for a month is [report]. *)
Local Abbreviation returns c m :=
  (consultant_month (daily_rate_objective (queries c m))
     (prod_rate_objective (queries c m)) (month_days (queries c m))
     (consultant_days (queries c m)) (get_turnover (queries c m))
   = Py.Return (report c m)).

Lemma total_iadd_init d m v :
  total_iadd (init_month d m) m v
  = Py.Return (<[m := default 0 (d !! m) + v]> d).
Proof.
  unfold total_iadd, init_month, Py.getitem.
  destruct (d !! m) as [x|] eqn:E; simpl.
  - by rewrite E.
  - rewrite lookup_insert_eq. simpl. by rewrite insert_insert_eq.
Qed.

Lemma report_month_step_returns c cd tD tF m :
  returns c m →
  report_month_step c (cd, tD, tF) m
  = Py.Return (cd ++ [report c m],
               <[m := default 0 (tD !! m) + turnover (report c m)]> tD,
               <[m := default 0 (tF !! m) + forecast (report c m)]> tF).
Proof.
  intros E. unfold report_month_step. rewrite E. simpl.
  rewrite !total_iadd_init. done.
Qed.

Lemma report_months_loop c ms :
  (∀ m, m ∈ ms → returns c m) →
  ∀ cd tD tF,
    Py.for_each (report_month_step c) ms (cd, tD, tF)
    = Py.Return
        (cd ++ (report c <$> ms),
         fold_left (λ d m, <[m := default 0 (d !! m) + turnover (report c m)]> d)
                   ms tD,
         fold_left (λ d m, <[m := default 0 (d !! m) + forecast (report c m)]> d)
                   ms tF).
Proof.
  induction ms as [|m ms IH]; intros Hr cd tD tF.
  - simpl. by rewrite app_nil_r.
  - rewrite PyFacts.for_each_cons, report_month_step_returns by (apply Hr; left).
    simpl. rewrite IH by (intros ? ?; apply Hr; by right).
    by rewrite <- app_assoc.
Qed.

Lemma fold_add_lookup (f : PdcReview.date → Z) ms (d : gmap PdcReview.date Z) m :
  NoDup ms →
  fold_left (λ d m, <[m := default 0 (d !! m) + f m]> d) ms d !! m
  = if decide (m ∈ ms) then Some (default 0 (d !! m) + f m) else d !! m.
Proof.
  intros Hnd. revert d.
  induction Hnd as [|m' ms Hm' _ IH]; intros d; cbn [fold_left].
  - by rewrite decide_False by apply not_elem_of_nil.
  - rewrite IH. destruct (decide (m = m')) as [->|Hne].
    + rewrite decide_False by done. rewrite decide_True by left.
      by rewrite lookup_insert_eq.
    + rewrite lookup_insert_ne by done.
      destruct (decide (m ∈ ms)) as [Hin|Hin].
      * rewrite decide_True by (by right). done.
      * rewrite decide_False; [done|].
        intros [->|?]%elem_of_cons; done.
Qed.

Lemma report_consultants_loop_spec months cs :
  NoDup months →
  (∀ c m, c ∈ cs → m ∈ months → returns c m) →
  ∀ data tD tF,
    ∃ tD' tF',
      Py.for_each
        (λ '(data, totalDone, totalForecasted) consultant,
           '(consultantData, totalDone, totalForecasted) ←
             Py.for_each (report_month_step consultant) months
               ([], totalDone, totalForecasted);
           Py.Return (data ++ [(consultant, consultantData)],
                      totalDone, totalForecasted))
        cs (data, tD, tF)
      = Py.Return (data ++ ((λ c, (c, report c <$> months)) <$> cs), tD', tF') ∧
      ∀ m, m ∈ months →
        tD' !! m = match cs with
                   | [] => tD !! m
                   | _ => Some (default 0 (tD !! m) + month_sum turnover report cs m)
                   end ∧
        tF' !! m = match cs with
                   | [] => tF !! m
                   | _ => Some (default 0 (tF !! m) + month_sum forecast report cs m)
                   end.
Proof.
  intros Hnd. induction cs as [|c cs IH]; intros Hr data tD tF.
  - exists tD, tF. simpl. by rewrite app_nil_r.
  - rewrite PyFacts.for_each_cons.
    rewrite report_months_loop by (intros m Hm; apply Hr; [left|done]).
    simpl.
    edestruct IH as (tD' & tF' & -> & Htot).
    { intros c' m Hc'. apply Hr. by right. }
    exists tD', tF'. split.
    { by rewrite <- app_assoc. }
    intros m Hm. destruct (Htot m Hm) as [-> ->].
    rewrite !fold_add_lookup, !decide_True by done.
    destruct cs as [|c' cs]; simpl; split; f_equal; lia.
Qed.

Lemma report_total_loop (T Fc : PdcReview.date → Z) tD tF ms :
  (∀ m, m ∈ ms → tD !! m = Some (T m) ∧ tF !! m = Some (Fc m)) →
  ∀ acc,
    Py.for_each
      (λ totalData month,
         forecast ← Py.getitem tF month;
         turnover ← Py.getitem tD month;
         Py.Return
           (totalData ++ [(total_status forecast turnover, turnover, forecast)]))
      ms acc
    = Py.Return (acc ++ ((λ m, (total_status (Fc m) (T m), T m, Fc m)) <$> ms)).
Proof.
  induction ms as [|m ms IH]; intros Hm acc.
  - simpl. by rewrite app_nil_r.
  - rewrite PyFacts.for_each_cons.
    destruct (Hm m) as [HT HF]; [left|].
    rewrite (PyFacts.getitem_Some _ _ _ HF). simpl.
    rewrite (PyFacts.getitem_Some _ _ _ HT). simpl.
    rewrite IH by (intros ? ?; apply Hm; by right).
    by rewrite <- app_assoc.
Qed.

Lemma report_consultants_loop_totals months consultants :
  NoDup months → consultants ≠ [] →
  (∀ c m, c ∈ consultants → m ∈ months → returns c m) →
  ∃ tD tF,
    report_consultants_loop months consultants
    = Py.Return ((λ c, (c, report c <$> months)) <$> consultants, tD, tF) ∧
    ∀ m, m ∈ months →
      tD !! m = Some (month_sum turnover report consultants m) ∧
      tF !! m = Some (month_sum forecast report consultants m).
Proof.
  intros Hnd Hne Hr. unfold report_consultants_loop.
  destruct (report_consultants_loop_spec months consultants Hnd Hr [] ∅ ∅)
    as (tD & tF & -> & Htot).
  exists tD, tF. split; [done|].
  intros m Hm. destruct (Htot m Hm) as [-> ->].
  destruct consultants; [done|]. rewrite !lookup_empty. simpl.
  split; f_equal; lia.
Qed.

(** X11.  With at least one consultant, distinct months and a report for
    every consultant and month, [prod_report] builds one line per
    consultant, with one report per month, and a line of totals in which
    the turnover and the forecast of a month are the sums of the turnovers
    and of the forecasts of the consultants for that month, and the status
    is ko exactly when the forecast is above the turnover. *)
Theorem prod_report_totals months consultants :
  NoDup months → consultants ≠ [] →
  (∀ c m, c ∈ consultants → m ∈ months → returns c m) →
  prod_report_data months consultants
  = Py.Return
      ((λ c, (c, report c <$> months)) <$> consultants,
       (λ m, (total_status (month_sum forecast report consultants m)
                           (month_sum turnover report consultants m),
              month_sum turnover report consultants m,
              month_sum forecast report consultants m)) <$> months).
Proof.
  intros Hnd Hne Hr. unfold prod_report_data.
  destruct (report_consultants_loop_totals months consultants Hnd Hne Hr)
    as (tD & tF & -> & Htot).
  simpl. unfold report_total.
  by rewrite (report_total_loop (month_sum turnover report consultants)
                (month_sum forecast report consultants)).
Qed.

Lemma reached_report c m :
  returns c m →
  reached (report_status (report c m))
  = (forecast (report c m) <=? turnover (report c m)).
Proof.
  intros E. rewrite (consultant_month_status _ _ _ _ _ _ E).
  apply reached_compute_status.
Qed.

Lemma month_sum_le consultants m :
  (∀ c, c ∈ consultants → forecast (report c m) ≤ turnover (report c m)) →
  month_sum forecast report consultants m ≤ month_sum turnover report consultants m.
Proof.
  induction consultants as [|c cs IH]; intros Hc; simpl; [done|].
  assert (forecast (report c m) ≤ turnover (report c m)) by (apply Hc; left).
  assert (month_sum forecast report cs m ≤ month_sum turnover report cs m).
  { apply IH. intros c' Hc'. apply Hc. by right. }
  unfold month_sum in *. lia.
Qed.

Lemma month_sum_lt consultants m :
  consultants ≠ [] →
  (∀ c, c ∈ consultants → turnover (report c m) < forecast (report c m)) →
  month_sum turnover report consultants m < month_sum forecast report consultants m.
Proof.
  induction consultants as [|c cs IH]; intros Hne Hc; [done|]. simpl.
  assert (turnover (report c m) < forecast (report c m)) by (apply Hc; left).
  destruct cs as [|c' cs]; [simpl; lia|].
  assert (month_sum turnover report (c' :: cs) m
          < month_sum forecast report (c' :: cs) m).
  { apply IH; [done|]. intros c'' Hc''. apply Hc. by right. }
  unfold month_sum in *. lia.
Qed.

(** X12.  The line of the totals has one entry per month.  In a month
    where every consultant reached the forecast (a status ok, with or
    without a remark) the status of the total is ok; in a month where no
    consultant did, it is ko. *)
Theorem prod_report_total_status months consultants :
  NoDup months → consultants ≠ [] →
  (∀ c m, c ∈ consultants → m ∈ months → returns c m) →
  ∃ data totalData,
    prod_report_data months consultants = Py.Return (data, totalData) ∧
    length totalData = length months ∧
    ∀ i m, months !! i = Some m →
      ((∀ c, c ∈ consultants → reached (report_status (report c m)) = true) →
       ∃ turnover forecast, totalData !! i = Some (ok, turnover, forecast)) ∧
      ((∀ c, c ∈ consultants → reached (report_status (report c m)) = false) →
       ∃ turnover forecast, totalData !! i = Some (ko, turnover, forecast)).
Proof.
  intros Hnd Hne Hr. unfold prod_report_data.
  destruct (report_consultants_loop_totals months consultants Hnd Hne Hr)
    as (tD & tF & -> & Htot).
  simpl. unfold report_total.
  rewrite (report_total_loop (month_sum turnover report consultants)
             (month_sum forecast report consultants)) by done.
  simpl. eexists _, _. split; [done|].
  split; [by rewrite length_fmap|].
  intros i m Hi.
  assert (m ∈ months) as Hm by (by eapply list_elem_of_lookup_2).
  rewrite list_lookup_fmap, Hi. simpl. unfold total_status.
  split; intros Hall; eexists _, _.
  - rewrite (proj2 (Z.ltb_ge _ _)); [done|].
    apply month_sum_le. intros c Hc. apply Z.leb_le.
    rewrite <- reached_report by (by apply Hr). by apply Hall.
  - rewrite (proj2 (Z.ltb_lt _ _)); [done|].
    apply month_sum_lt; [done|]. intros c Hc. apply Z.leb_gt.
    rewrite <- reached_report by (by apply Hr). by apply Hall.
Qed.

(** X13.  With months to display, distinct, and a report for every
    consultant and month, the loop of the totals raises [KeyError] exactly
    when there is no consultant: the dictionaries of the totals are then
    empty. *)
Theorem prod_report_no_consultant month months consultants :
  NoDup (month :: months) →
  (∀ c m, c ∈ consultants → m ∈ month :: months → returns c m) →
  (consultants = [] →
   prod_report_data (F:=F) (month :: months) consultants
   = Py.Raise Py.KeyError) ∧
  (prod_report_data (F:=F) (month :: months) consultants = Py.Raise Py.KeyError →
   consultants = []).
Proof.
  intros Hnd Hr. split; [by intros ->|].
  destruct consultants as [|c cs]; [done|]. intros E. exfalso.
  unfold prod_report_data in E.
  destruct (report_consultants_loop_totals (month :: months) (c :: cs) Hnd
              ltac:(done) Hr) as (tD & tF & Hloop & Htot).
  rewrite Hloop in E. simpl in E. unfold report_total in E.
  by rewrite (report_total_loop (month_sum turnover report (c :: cs))
                (month_sum forecast report (c :: cs))) in E.
Qed.

End Totals.

Lemma sample_reports c m :
  c ∈ sample_consultants → m ∈ sample_months →
  consultant_month (daily_rate_objective (queries c m))
    (prod_rate_objective (queries c m)) (month_days (queries c m))
    (consultant_days (queries c m)) (get_turnover (queries c m))
  = Py.Return (sample_report_of c m).
Proof.
  intros Hc%list_elem_of_In _. simpl in Hc.
  destruct Hc as [<-|[<-|[]]]; vm_compute; reflexivity.
Qed.

Lemma prod_report_totals_witness :
  ∃ data,
    prod_report_data sample_months sample_consultants
    = Py.Return (data, [(ko, 13000, 28000); (ko, 13000, 28000)]).
Proof.
  eexists.
  rewrite (prod_report_totals sample_report_of sample_months sample_consultants
             PdcReviewFacts.two_months ltac:(discriminate) sample_reports).
  vm_compute. reflexivity.
Defined.

Lemma prod_report_no_consultant_witness :
  prod_report_data (F:=PrimFloat.float) sample_months [] = Py.Raise Py.KeyError.
Proof.
  destruct (prod_report_no_consultant sample_report_of PdcReview.january
              [PdcReview.february] []) as [E _].
  - exact PdcReviewFacts.two_months.
  - intros c m Hc. by apply elem_of_nil in Hc.
  - apply E. reflexivity.
Defined.

Lemma prod_report_total_status_witness :
  ∃ data totalData,
    prod_report_data sample_months sample_consultants
    = Py.Return (data, totalData) ∧
    ∃ turnover forecast, totalData !! 0%nat = Some (ko, turnover, forecast).
Proof.
  destruct (prod_report_total_status sample_report_of sample_months
              sample_consultants PdcReviewFacts.two_months ltac:(discriminate)
              sample_reports) as (data & totalData & E & _ & Hst).
  exists data, totalData. split; [exact E|].
  apply (Hst 0%nat PdcReview.january eq_refl).
  intros c Hc%list_elem_of_In. simpl in Hc.
  destruct Hc as [<-|[<-|[]]]; vm_compute; reflexivity.
Defined.

End ProdReportFacts.

(** ** staffing/views.py: the CSV exports *)

Module CsvFacts.
Import Csv.

Lemma rows_content_app w rows1 rows2 :
  rows_content w (rows1 ++ rows2) = rows_content w rows1 ++ rows_content w rows2.
Proof. unfold rows_content. by rewrite fmap_app, concat_app. Qed.

Lemma length_bind_singleton {A B} (g : A → B) (l : list A) :
  length (l ≫= λ x, [g x]) = length l.
Proof.
  induction l as [|x l IH]; [done|]. rewrite bind_cons. simpl. by rewrite IH.
Qed.

Lemma rows_content_cons w row rows :
  rows_content w (row :: rows) = format_row w row ++ rows_content w rows.
Proof. reflexivity. Qed.

(** A row of several fields without any special character is made of the
    fields, a delimiter before each field but the first, and the end of
    line. *)
Lemma join_fields_plain w f fields :
  Forall (λ f, existsb (is_special w) f = false) (f :: fields) →
  join_fields w (f :: fields) = f ++ flat_map (λ g, delimiter w :: g) fields.
Proof.
  revert f. induction fields as [|g fields IH]; intros f Hplain.
  - apply Forall_cons in Hplain as [Hf _]. simpl.
    unfold format_field. rewrite Hf. by rewrite app_nil_r.
  - apply Forall_cons in Hplain as [Hf Hplain].
    change (join_fields w (f :: g :: fields))
      with (format_field w f ++ delimiter w :: join_fields w (g :: fields)).
    rewrite IH by done. unfold format_field. rewrite Hf. reflexivity.
Qed.

Lemma format_row_plain w f g fields :
  Forall (λ f, existsb (is_special w) f = false) (f :: g :: fields) →
  format_row w (f :: g :: fields)
  = f ++ flat_map (λ g, delimiter w :: g) (g :: fields) ++ lineterminator w.
Proof.
  intros Hplain. unfold format_row.
  destruct f; rewrite join_fields_plain by done; by rewrite <- app_assoc.
Qed.

Example row_of_two_fields :
  format_row (csv_writer x3b) [ [x4d; x69]; [x31; x32] ]
  = [x4d; x69; x3b; x31; x32; x0d; x0a].
Proof. reflexivity. Qed.

(** A field that holds a semicolon is quoted. *)
Example row_with_a_semicolon :
  format_row (csv_writer x3b) [ [x61; x3b; x62]; [x63] ]
  = [x22; x61; x3b; x62; x22; x3b; x63; x0d; x0a].
Proof. reflexivity. Qed.

Section Exports.
Context {F : Type} `{Py.FloatOps F}.
Variable str : Py.num F → bytes.
Variable gettext : bytes → bytes.
Variable number_format : Py.num F → bytes.
Variable timestring_formatter : Py.num F → bytes.

Lemma content_csv_response filename : content (csv_response filename) = BOM_UTF8.
Proof. reflexivity. Qed.

Lemma content_writerow w response (row : list (cell F)) :
  content (writerow str w response row)
  = content response ++ format_row w (cell_text str <$> row).
Proof. reflexivity. Qed.

(** A loop that writes rows appends them to the content. *)
Lemma content_fold_rows {A} w (body : HttpResponse → A → HttpResponse)
    (rows_of : A → list (list bytes)) (l : list A) :
  (∀ response x,
     content (body response x) = content response ++ rows_content w (rows_of x)) →
  ∀ response,
    content (fold_left body l response)
    = content response ++ rows_content w (l ≫= rows_of).
Proof.
  intros Hbody. induction l as [|x l IH]; intros response; simpl.
  - by rewrite app_nil_r.
  - rewrite IH, Hbody, rows_content_app. by rewrite <- app_assoc.
Qed.

Lemma consultant_csv_timesheet_content consultant month days
    (missions : list (MissionLine F)) :
  ∃ rows,
    content (consultant_csv_timesheet str gettext number_format
               timestring_formatter consultant month days missions)
    = BOM_UTF8 ++ rows_content (csv_writer x3b) rows
    ∧ length rows = (3 + length missions)%nat.
Proof.
  unfold consultant_csv_timesheet.
  eexists. split.
  - rewrite (content_fold_rows (csv_writer x3b) _
               (λ mission,
                  [cell_text str
                     <$> ((mission_days timestring_formatter mission days).1
                          ++ [Text (number_format
                                      (mission_days timestring_formatter
                                         mission days).2)])])).
    + rewrite !content_writerow, content_csv_response.
      rewrite <- !app_assoc, <- !rows_content_cons. reflexivity.
    + intros response mission.
      destruct (mission_days timestring_formatter mission days) as [row total].
      rewrite content_writerow. unfold rows_content. simpl.
      by rewrite app_nil_r.
  - cbn [length]. by rewrite length_bind_singleton.
Qed.

Lemma all_csv_timesheet_content (charges : list (list (cell F))) month :
  ∃ rows,
    content (all_csv_timesheet str gettext number_format charges month)
    = BOM_UTF8 ++ rows_content (csv_writer x3b) rows
    ∧ length rows = (1 + length charges)%nat.
Proof.
  unfold all_csv_timesheet.
  eexists. split.
  - erewrite (content_fold_rows (csv_writer x3b) _ (λ charge, [_])).
    + rewrite !content_writerow, content_csv_response.
      rewrite <- !app_assoc, <- !rows_content_cons. reflexivity.
    + intros response charge.
      rewrite content_writerow. unfold rows_content. simpl.
      by rewrite app_nil_r.
  - cbn [length]. by rewrite length_bind_singleton.
Qed.

Lemma detailed_csv_timesheet_content month (missions : list (DetailedMission F)) :
  ∃ rows,
    content (detailed_csv_timesheet str gettext number_format month missions)
    = BOM_UTF8 ++ rows_content (csv_writer x3b) rows
    ∧ length rows
      = (2 + length (missions ≫= consultants))%nat.
Proof.
  unfold detailed_csv_timesheet.
  eexists. split.
  - rewrite (content_fold_rows (csv_writer x3b) _
               (λ mission,
                  consultants mission ≫= λ consultant,
                    [cell_text str <$> detailed_row number_format mission consultant])).
    + rewrite !content_writerow, content_csv_response.
      rewrite <- !app_assoc, <- !rows_content_cons. reflexivity.
    + intros response mission.
      apply (content_fold_rows (csv_writer x3b) _
               (λ consultant,
                  [cell_text str <$> detailed_row number_format mission consultant])).
      intros response' consultant.
      rewrite content_writerow. unfold rows_content. simpl.
      by rewrite app_nil_r.
  - assert (length (missions ≫= λ mission,
                      consultants mission ≫= λ consultant,
                        [cell_text str
                           <$> detailed_row number_format mission consultant])
            = length (missions ≫= consultants)) as E.
    { induction missions as [|m l IH]; [done|].
      rewrite !bind_cons, !length_app, IH. by rewrite length_bind_singleton. }
    cbn [length]. by rewrite E.
Qed.

(** C7.  The body of each of the three exports is the byte order mark of
    UTF-8 followed by rows, each written by a writer whose delimiter is
    the semicolon. *)
Theorem csv_exports_semicolon_bom :
  delimiter (csv_writer x3b) = x3b ∧ ascii_bytes ";" = [x3b] ∧
  BOM_UTF8 = [xef; xbb; xbf] ∧
  (∀ consultant month days (missions : list (MissionLine F)),
     ∃ rows,
       content (consultant_csv_timesheet str gettext number_format
                  timestring_formatter consultant month days missions)
       = BOM_UTF8 ++ rows_content (csv_writer x3b) rows
       ∧ length rows = (3 + length missions)%nat) ∧
  (∀ (charges : list (list (cell F))) month,
     ∃ rows,
       content (all_csv_timesheet str gettext number_format charges month)
       = BOM_UTF8 ++ rows_content (csv_writer x3b) rows
       ∧ length rows = (1 + length charges)%nat) ∧
  (∀ month (missions : list (DetailedMission F)),
     ∃ rows,
       content (detailed_csv_timesheet str gettext number_format month missions)
       = BOM_UTF8 ++ rows_content (csv_writer x3b) rows
       ∧ length rows = (2 + length (missions ≫= consultants))%nat).
Proof.
  split; [reflexivity|]. split; [reflexivity|]. split; [reflexivity|].
  split; [|split].
  - apply consultant_csv_timesheet_content.
  - apply all_csv_timesheet_content.
  - apply detailed_csv_timesheet_content.
Qed.

End Exports.

Example sample_export_content :
  content sample_export
  = BOM_UTF8
    ++ ascii_bytes "Alice - 2021-01" ++ [x0d; x0a]
    ++ ascii_bytes ";;1;4" ++ [x0d; x0a]
    ++ ascii_bytes "Mission;Deal id;Fri;Mon;total" ++ [x0d; x0a]
    ++ ascii_bytes "M1;D1;1;;1" ++ [x0d; x0a].
Proof. vm_compute. reflexivity. Qed.

Example sample_export_header :
  content_type sample_export = "text/csv"%string ∧
  headers sample_export
  = [("Content-Disposition"%string,
      ascii_bytes "attachment; filename=timesheet.csv")].
Proof. vm_compute. done. Qed.

(** *** The lines of the exports *)

Section Lines.
Context {F : Type} `{Py.FloatOps F}.
Variable str : Py.num F → bytes.
Variable gettext : bytes → bytes.
Variable number_format : Py.num F → bytes.
Variable timestring_formatter : Py.num F → bytes.

Lemma content_fold_writerow {A} w (row_of : A → list (cell F)) l response :
  content (fold_left (λ response x, writerow str w response (row_of x)) l response)
  = content response ++ rows_content w ((λ x, cell_text str <$> row_of x) <$> l).
Proof.
  revert response. induction l as [|x l IH]; intros response; cbn [fold_left].
  - unfold rows_content. simpl. by rewrite app_nil_r.
  - rewrite IH, content_writerow, fmap_cons, rows_content_cons.
    by rewrite <- app_assoc.
Qed.

(** The loop over the days of a mission. *)
Lemma mission_days_loop (mission : MissionLine F) (days : list Day)
    (row : list (cell F)) (total : Py.num F) :
  fold_left
    (λ '(row, total) day,
       match timesheet_charge mission day with
       | Some charge =>
           (row ++ [Text (timestring_formatter charge)], Py.add total charge)
       | None => (row ++ [Text []], total)
       end)
    days (row, total)
  = (row ++ ((λ d, match timesheet_charge mission d with
                   | Some charge => Text (timestring_formatter charge)
                   | None => Text []
                   end) <$> days),
     fold_left Py.add (omap (timesheet_charge mission) days) total).
Proof.
  revert row total. induction days as [|d days IH]; intros row total.
  - simpl. by rewrite app_nil_r.
  - cbn [fold_left]. rewrite fmap_cons.
    destruct (timesheet_charge mission d) as [charge|] eqn:E.
    + rewrite IH, <- app_assoc. simpl. by rewrite E.
    + rewrite IH, <- app_assoc. simpl. by rewrite E.
Qed.

Lemma mission_days_line (mission : MissionLine F) (days : list Day) :
  cell_text str
    <$> ((mission_days timestring_formatter mission days).1
         ++ [Text (number_format (mission_days timestring_formatter mission days).2)])
  = mission_line number_format timestring_formatter mission days.
Proof.
  unfold mission_days. rewrite mission_days_loop. cbn [fst snd].
  unfold mission_line, Py.sum.
  rewrite !fmap_app, <- list_fmap_compose. simpl.
  do 3 f_equal. apply list_fmap_ext. intros _ d _. simpl.
  by destruct (timesheet_charge mission d).
Qed.

(** The loop over the missions writes the line of each mission. *)
Lemma content_fold_missions (days : list Day) (missions : list (MissionLine F))
    response :
  content
    (fold_left
       (λ response mission,
          let '(row, total) := mission_days timestring_formatter mission days in
          writerow str (csv_writer x3b) response
            (row ++ [Text (number_format total)]))
       missions response)
  = content response
    ++ rows_content (csv_writer x3b)
         ((λ mission,
             mission_line number_format timestring_formatter mission days)
            <$> missions).
Proof.
  revert response.
  induction missions as [|mission missions IH]; intros response;
    cbn [fold_left].
  - unfold rows_content. simpl. by rewrite app_nil_r.
  - rewrite IH, fmap_cons, rows_content_cons, app_assoc. f_equal.
    rewrite <- mission_days_line.
    destruct (mission_days timestring_formatter mission days) as [row total].
    by rewrite content_writerow.
Qed.

(** The three lines that come before the missions. *)
Lemma content_timesheet_head consultant month (days : list Day) rows :
  content
    (writerow str (csv_writer x3b)
       (writerow str (csv_writer x3b)
          (writerow str (csv_writer x3b) (csv_response (timesheet_filename gettext))
             [Text (consultant ++ ascii_bytes " - " ++ month)])
          ([Text []; Text []] ++ ((λ d, Number (Py.Int (day_number d))) <$> days)))
       ([Text (gettext (ascii_bytes "Mission"));
         Text (gettext (ascii_bytes "Deal id"))]
        ++ ((λ d, Text (gettext (day_name d))) <$> days)
        ++ [Text (gettext (ascii_bytes "total"))]))
    ++ rows_content (csv_writer x3b) rows
  = BOM_UTF8
    ++ rows_content (csv_writer x3b)
         ([consultant ++ ascii_bytes " - " ++ month]
          :: ([[]; []] ++ ((λ d, str (Py.Int (day_number d))) <$> days))
          :: ([gettext (ascii_bytes "Mission"); gettext (ascii_bytes "Deal id")]
              ++ ((λ d, gettext (day_name d)) <$> days)
              ++ [gettext (ascii_bytes "total")])
          :: rows).
Proof.
  rewrite !content_writerow, content_csv_response.
  rewrite !rows_content_cons, <- !app_assoc.
  do 3 f_equal.
  - by rewrite !fmap_app, <- !list_fmap_compose.
  - f_equal. by rewrite !fmap_app, <- !list_fmap_compose.
Qed.

(** X14.  The timesheet of a consultant is the byte order mark followed
    by a title line, the line of the day numbers, the line of the day
    names and one line per mission; the line of a mission holds the
    mission, its id, for each day the formatted charge of the day, or
    nothing when the day has no timesheet, and the formatted sum of the
    charges of the days that have one. *)
Theorem consultant_csv_timesheet_rows consultant month (days : list Day)
    (missions : list (MissionLine F)) :
  content (consultant_csv_timesheet str gettext number_format
             timestring_formatter consultant month days missions)
  = BOM_UTF8
    ++ rows_content (csv_writer x3b)
         (timesheet_lines str gettext number_format timestring_formatter
            consultant month days missions).
Proof.
  unfold consultant_csv_timesheet, timesheet_lines.
  rewrite content_fold_missions. apply content_timesheet_head.
Qed.

(** X15.  The columns of the timesheet of a consultant line up: the line
    of the day names and every line of a mission have three cells more
    than there are days, the line of the day numbers two more, and there
    is one line per mission. *)
Theorem consultant_csv_timesheet_columns consultant month (days : list Day)
    (missions : list (MissionLine F)) :
  ∃ title day_numbers day_names mission_lines,
    content (consultant_csv_timesheet str gettext number_format
               timestring_formatter consultant month days missions)
    = BOM_UTF8
      ++ rows_content (csv_writer x3b)
           (title :: day_numbers :: day_names :: mission_lines) ∧
    length title = 1%nat ∧
    length day_numbers = (2 + length days)%nat ∧
    length day_names = (3 + length days)%nat ∧
    length mission_lines = length missions ∧
    Forall (λ line, length line = length day_names) mission_lines.
Proof.
  eexists _, _, _, _. split.
  { unfold consultant_csv_timesheet.
    rewrite content_fold_missions. apply content_timesheet_head. }
  split; [done|]. split; [by rewrite length_app, length_fmap|].
  assert (∀ A (l : list A) (x y z : bytes) (f : A → bytes),
            length ([x; y] ++ (f <$> l) ++ [z]) = (3 + length l)%nat) as Hlen.
  { intros. rewrite !length_app, length_fmap. simpl. lia. }
  split; [apply Hlen|]. split; [by rewrite length_fmap|].
  apply Forall_fmap, Forall_forall. intros mission _. cbv beta.
  unfold compose, mission_line. by rewrite !Hlen.
Qed.

Lemma length_detailed_row (mission : DetailedMission F) consultant :
  length (detailed_row number_format mission consultant) = 13%nat.
Proof.
  unfold detailed_row.
  by destruct (financial_condition consultant) as [[daily_rate bought]|].
Qed.

(** X16.  The detailed timesheet is the byte order mark, the line of the
    month, the header and one line per consultant of each mission; the
    header and every line have thirteen cells, whether the consultant has
    a financial condition on the mission or not. *)
Theorem detailed_csv_timesheet_columns month (missions : list (DetailedMission F)) :
  ∃ header lines,
    content (detailed_csv_timesheet str gettext number_format month missions)
    = BOM_UTF8 ++ rows_content (csv_writer x3b) ([month] :: header :: lines) ∧
    length header = 13%nat ∧
    length lines = length (missions ≫= consultants) ∧
    Forall (λ line, length line = length header) lines.
Proof.
  exists (cell_text str <$> detailed_header gettext),
         (missions ≫= λ mission,
            (λ consultant,
               cell_text str <$> detailed_row number_format mission consultant)
              <$> consultants mission).
  split; [|split; [done|split]].
  - unfold detailed_csv_timesheet.
    rewrite (content_fold_rows (csv_writer x3b) _
               (λ mission,
                  (λ consultant,
                     cell_text str
                       <$> detailed_row number_format mission consultant)
                    <$> consultants mission)).
    + rewrite !content_writerow, content_csv_response.
      by rewrite !rows_content_cons, <- !app_assoc.
    + intros response mission. apply content_fold_writerow.
  - induction missions as [|mission missions IH]; [done|].
    rewrite !bind_cons, !length_app, IH. by rewrite length_fmap.
  - apply Forall_bind, Forall_forall. intros mission _.
    apply Forall_fmap, Forall_forall. intros consultant _. cbv beta.
    unfold compose. by rewrite length_fmap, length_detailed_row.
Qed.

(** X17.  The timesheet of everybody is the byte order mark, the line of
    the month and one line per line of charges, with as many cells; a
    float is written by [number_format], any other cell as it is. *)
Theorem all_csv_timesheet_rows (charges : list (list (cell F))) month :
  content (all_csv_timesheet str gettext number_format charges month)
  = BOM_UTF8
    ++ rows_content (csv_writer x3b)
         ([month]
          :: ((λ charge : list (cell F), charge_text str number_format <$> charge)
                <$> charges)).
Proof.
  unfold all_csv_timesheet.
  assert (∀ (charge : list (cell F)) row,
            fold_left
              (λ row i,
                 let i := match i with
                          | Number (Py.Float x) => Text (number_format (Py.Float x))
                          | _ => i
                          end in
                 row ++ [i])
              charge row
            = row ++ ((λ i, match i with
                            | Number (Py.Float x) =>
                                Text (number_format (Py.Float x))
                            | _ => i
                            end) <$> charge)) as Hrow.
  { induction charge as [|i charge IH]; intros row; cbn [fold_left].
    - by rewrite app_nil_r.
    - by rewrite IH, <- app_assoc. }
  rewrite content_fold_writerow, content_writerow, content_csv_response.
  rewrite rows_content_cons, <- app_assoc. do 3 f_equal.
  apply list_fmap_ext. intros _ charge _.
  rewrite Hrow, app_nil_l, <- list_fmap_compose.
  apply list_fmap_ext. intros _ [s|[z|x]|] _; done.
Qed.

(** What a response says about itself: its type and its headers. *)
Local Abbreviation envelope response := (content_type response, headers response).

Lemma envelope_csv_response filename :
  envelope (csv_response filename)
  = ("text/csv"%string, [("Content-Disposition"%string, filename)]).
Proof. reflexivity. Qed.

Lemma envelope_writerow w response (row : list (cell F)) :
  envelope (writerow str w response row) = envelope response.
Proof. reflexivity. Qed.

Lemma envelope_fold_left {A} (body : HttpResponse → A → HttpResponse) l :
  (∀ response x, envelope (body response x) = envelope response) →
  ∀ response, envelope (fold_left body l response) = envelope response.
Proof.
  intros Hb. induction l as [|x l IH]; intros response; cbn [fold_left]; [done|].
  by rewrite IH, Hb.
Qed.

(** X18.  The timesheet of a mission is a response of type text/csv, sent
    as an attachment named after the id of the mission, whose content is
    the byte order mark followed by the lines of the report, in order,
    written with the semicolon as delimiter. *)
Theorem mission_csv_timesheet_response mission_id (lines : list (list (cell F))) :
  content_type (mission_csv_timesheet str mission_id lines) = "text/csv"%string ∧
  headers (mission_csv_timesheet str mission_id lines)
  = [("Content-Disposition"%string,
      ascii_bytes "attachment; filename=" ++ mission_id ++ ascii_bytes ".csv")] ∧
  content (mission_csv_timesheet str mission_id lines)
  = BOM_UTF8
    ++ rows_content (csv_writer x3b)
         ((λ line : list (cell F), cell_text str <$> line) <$> lines).
Proof.
  unfold mission_csv_timesheet.
  pose proof (envelope_fold_left
                (λ response line, writerow str (csv_writer x3b) response line)
                lines (λ _ _, eq_refl)
                (csv_response
                   (ascii_bytes "attachment; filename=" ++ mission_id
                    ++ ascii_bytes ".csv"))) as E.
  rewrite envelope_csv_response in E. inversion E as [[E1 E2]].
  split; [done|]. split; [done|].
  by rewrite content_fold_writerow, content_csv_response.
Qed.

(** X19.  The three timesheet exports answer with the type text/csv and
    one header, [Content-Disposition], which names the attachment
    timesheet.csv (translated); writing the lines changes neither. *)
Theorem csv_exports_attachment :
  (∀ consultant month days (missions : list (MissionLine F)),
     envelope (consultant_csv_timesheet str gettext number_format
                 timestring_formatter consultant month days missions)
     = ("text/csv"%string,
        [("Content-Disposition"%string, timesheet_filename gettext)])) ∧
  (∀ (charges : list (list (cell F))) month,
     envelope (all_csv_timesheet str gettext number_format charges month)
     = ("text/csv"%string,
        [("Content-Disposition"%string, timesheet_filename gettext)])) ∧
  (∀ month (missions : list (DetailedMission F)),
     envelope (detailed_csv_timesheet str gettext number_format month missions)
     = ("text/csv"%string,
        [("Content-Disposition"%string, timesheet_filename gettext)])).
Proof.
  split; [|split].
  - intros. unfold consultant_csv_timesheet.
    rewrite envelope_fold_left; [done|].
    intros response mission.
    by destruct (mission_days timestring_formatter mission days).
  - intros. unfold all_csv_timesheet. by rewrite envelope_fold_left.
  - intros. unfold detailed_csv_timesheet.
    rewrite envelope_fold_left; [done|].
    intros response mission. by rewrite envelope_fold_left.
Qed.

End Lines.

End CsvFacts.

(** ** people/learn.py *)

Module LearnFacts.
Import Learn.

Section Experience.
Context {F : Type} `{Py.FloatOps F}.

(** *** The histogram of the tags *)






(** *** The loop over the timesheets *)

Lemma experience_step_contribution today (db : Database F) consultant features
    row c :
  contribution today db consultant row c →
  experience_step today db consultant features row
  = Py.Return (add_to_tags features c.1 c.2).
Proof.
  intros [i lead charge end_date months root quotient Hl Hm Hr Hq].
  unfold experience_step, get_lead, weighted_charge. rewrite Hl.
  cbv beta iota delta [mbind result_bind Py.bind]. rewrite Hm.
  cbv beta iota. rewrite Hr. cbv beta iota. rewrite Hq. cbv beta iota.
  by destruct (is_responsible consultant lead).
Qed.

Lemma experience_loop today (db : Database F) consultant rows cs :
  Forall2 (contribution today db consultant) rows cs →
  ∀ features,
    Py.for_each (experience_step today db consultant) rows features
    = Py.Return
        (fold_left (λ f (c : list string * Py.num F), add_to_tags f c.1 c.2)
           cs features).
Proof.
  induction 1 as [|row c rows cs Hc _ IH]; intros features; [done|].
  rewrite PyFacts.for_each_cons.
  rewrite (experience_step_contribution _ _ _ _ _ _ Hc). simpl. apply IH.
Qed.



(** *** The similar consultants *)

Lemma exclude_not_self (s : similar) k rows c :
  exclude s k = Py.Return rows → c ∈ rows → id c ≠ k.
Proof.
  destruct s as [l|qs]; simpl; intros E; inversion E; subst.
  by intros [? _]%list_elem_of_filter.
Qed.

Variable fit : list (gmap string (Py.num F)) → SimilarityModel F.
Variable HAVE_SCIKIT : bool.

(** C9.  Whatever [predict_similar_consultant] returns, no row of it is
    the consultant of the question. *)
Theorem predict_similar_consultant_excludes_self today (db : Database F)
    cache consultant rows cache' :
  predict_similar_consultant fit HAVE_SCIKIT today db cache consultant
  = Py.Return (rows, cache') →
  ∀ c, c ∈ rows → id c ≠ id consultant.
Proof.
  unfold predict_similar_consultant.
  intros (features & _ & E)%PyFacts.bind_Return.
  apply PyFacts.bind_Return in E as ([s cache1] & _ & E).
  apply PyFacts.bind_Return in E as (rows1 & Hex & E).
  inversion E; subst. intros c. by apply exclude_not_self with s.
Qed.

End Experience.

(** *** The weight in exact arithmetic *)

Section ExactArithmetic.
Local Open Scope R_scope.







End ExactArithmetic.


Example experience_of_alice :
  ∃ features,
    consultant_cumulated_experience sample_today sample_db alice
    = Py.Return features ∧
    map_to_list features
    = [("experience", Py.Int 390); ("ACME", Py.Float 1%float);
       ("BOB", Py.Float 1%float); ("django", Py.Float 20%float);
       ("python", Py.Float 30%float); ("Profil", Py.Float 3%float)]%string.
Proof. eexists. split; [reflexivity|]. vm_compute. reflexivity. Qed.

(** A timesheet on a mission without lead makes the query of the lead
    fail. *)
Example experience_without_lead :
  consultant_cumulated_experience sample_today
    (mkDatabase sample_leads sample_team
       (λ _, [(None, Py.Float (Binary64.of_Z 1), sample_today)])
       (λ _, (None, None)))
    alice
  = Py.Raise Py.DoesNotExist.
Proof. reflexivity. Qed.



Example no_model_no_exclude :
  predict_similar_consultant (λ _, sample_model) false sample_today sample_db
    sample_cache alice
  = Py.Raise Py.AttributeError.
Proof. reflexivity. Qed.

Lemma predict_similar_consultant_excludes_self_witness :
  predict_similar_consultant (λ _, sample_model) true sample_today sample_db
    sample_cache alice
  = Py.Return (tail sample_team, sample_cache) ∧
  ∀ c, c ∈ tail sample_team → id c ≠ id alice.
Proof.
  assert (predict_similar_consultant (λ _, sample_model) true sample_today
            sample_db sample_cache alice
          = Py.Return (tail sample_team, sample_cache)) as E
    by (vm_compute; reflexivity).
  split; [exact E|].
  exact (predict_similar_consultant_excludes_self (λ _, sample_model) true
           sample_today sample_db sample_cache alice _ _ E).
Defined.

(** *** The similarity model and its cache *)

Section Similarity.
Context {F : Type} `{Py.FloatOps F}.
Variable fit : list (gmap string (Py.num F)) → SimilarityModel F.
Variable HAVE_SCIKIT : bool.

(** The consultants that a model is learnt from. *)
Local Abbreviation learnt db :=
  (filter (λ c, active c = true ∧ productive c = true ∧ subcontractor c = false)
          (consultants db)).

Lemma compute_consultant_similarity_from_cache today (db : Database F) cache model :
  HAVE_SCIKIT = true → similarity_model cache = Some model →
  compute_consultant_similarity fit HAVE_SCIKIT today db cache
  = Py.Return (Some model, cache).
Proof. unfold compute_consultant_similarity. by intros -> ->. Qed.

Lemma compute_consultant_similarity_learning today (db : Database F) cache
    model cache' :
  similarity_model cache = None →
  compute_consultant_similarity fit HAVE_SCIKIT today db cache
  = Py.Return (Some model, cache') →
  HAVE_SCIKIT = true ∧ (5 ≤ length (learnt db))%nat ∧
  ∃ features,
    Forall2 (λ c f, consultant_cumulated_experience today db c = Py.Return f)
            (learnt db) features ∧
    model = fit features ∧
    cache' = mkCache (Some model) (Some (id <$> learnt db)).
Proof.
  unfold compute_consultant_similarity. intros ->.
  destruct HAVE_SCIKIT; simpl; [|discriminate].
  destruct (Z.ltb_spec (Z.of_nat (length (learnt db))) 5) as [|Hlen];
    [discriminate|].
  intros (features & Hloop & E)%PyFacts.bind_Return.
  apply PyFacts.for_each_collect in Hloop as (fs & -> & Hfs).
  simpl in E. inversion E; subst.
  split; [done|]. split; [lia|]. by exists fs.
Qed.


(** X5.  When the cache holds no model and
    [compute_consultant_similarity] returns one, there are at least five
    active, productive consultants that are not subcontractors; the model
    was fitted on their features, one per consultant and in their order,
    and the cache holds the model and the list of their ids, in the same
    order. *)
Theorem compute_consultant_similarity_learns today (db : Database F) cache
    model cache' :
  similarity_model cache = None →
  compute_consultant_similarity fit HAVE_SCIKIT today db cache
  = Py.Return (Some model, cache') →
  (5 ≤ length (learnt db))%nat ∧
  ∃ features,
    Forall2 (λ c f, consultant_cumulated_experience today db c = Py.Return f)
            (learnt db) features ∧
    model = fit features ∧
    similarity_model cache' = Some model ∧
    similarity_consultants_ids cache' = Some (id <$> learnt db).
Proof.
  intros Hn E.
  destruct (compute_consultant_similarity_learning _ _ _ _ _ Hn E)
    as (_ & Hlen & fs & Hfs & -> & ->).
  split; [done|]. by exists fs.
Qed.

Lemma compute_consultant_similarity_none today (db : Database F) cache :
  HAVE_SCIKIT = false
  ∨ similarity_model cache = None ∧ (length (learnt db) < 5)%nat →
  compute_consultant_similarity fit HAVE_SCIKIT today db cache
  = Py.Return (None, cache).
Proof.
  unfold compute_consultant_similarity. intros [->|[-> Hlen]]; [done|].
  destruct HAVE_SCIKIT; simpl; [|done].
  destruct (Z.ltb_spec (Z.of_nat (length (learnt db))) 5); [done|lia].
Qed.

(** X6.  Without a model (scikit is missing, or the cache is empty and
    fewer than five consultants can be learnt from), [predict_similar]
    returns the empty list, and [predict_similar_consultant], which calls
    [exclude] on it, raises [AttributeError]. *)
Theorem predict_similar_consultant_without_model today (db : Database F)
    cache consultant features :
  consultant_cumulated_experience today db consultant = Py.Return features →
  HAVE_SCIKIT = false
  ∨ similarity_model cache = None ∧ (length (learnt db) < 5)%nat →
  predict_similar fit HAVE_SCIKIT today db cache features true
  = Py.Return (PyList [], cache) ∧
  predict_similar_consultant fit HAVE_SCIKIT today db cache consultant
  = Py.Raise Py.AttributeError.
Proof.
  intros Hf Hno.
  assert (predict_similar fit HAVE_SCIKIT today db cache features true
          = Py.Return (PyList [], cache)) as Hp.
  { unfold predict_similar.
    by rewrite (compute_consultant_similarity_none _ _ _ Hno). }
  split; [done|].
  unfold predict_similar_consultant. rewrite Hf. simpl. by rewrite Hp.
Qed.

Lemma similar_ids_Some l indices ids :
  similar_ids (Some l) indices = Py.Return ids → ∀ i, i ∈ ids → i ∈ l.
Proof.
  unfold similar_ids.
  intros (line & _ & E)%PyFacts.bind_Return.
  apply (PyFacts.for_each_collect (Py.list_getitem l)) in E as (ys & -> & Hys).
  simpl. intros i Hi.
  apply list_elem_of_lookup_1 in Hi as [k Hk].
  destruct (Forall2_lookup_r _ _ _ _ _ Hys Hk) as (x & _ & Hx).
  by apply PyFacts.list_getitem_elem_of in Hx.
Qed.


(** X7.  The queryset that [predict_similar] returns is made of
    consultants of the database, in their order, and the id of each of
    them is in the list of ids of the cache. *)
Theorem predict_similar_among_cached_ids today (db : Database F) cache
    features scale rows cache' :
  predict_similar fit HAVE_SCIKIT today db cache features scale
  = Py.Return (QuerySet rows, cache') →
  rows `sublist_of` consultants db ∧
  ∀ c, c ∈ rows →
    ∃ ids, similarity_consultants_ids cache' = Some ids ∧ id c ∈ ids.
Proof.
  unfold predict_similar.
  intros ([model cache1] & _ & E)%PyFacts.bind_Return. simpl in E.
  destruct model as [model|]; [|discriminate].
  destruct (any _); [|discriminate].
  apply PyFacts.bind_Return in E as (found & Ht & E).
  inversion E; subst. clear E.
  unfold Py.try_except in Ht.
  destruct (similar_ids _ _) as [ids|e] eqn:Hids; simpl in Ht;
    [|by destruct (Py.exn_eqb e Py.IndexError)].
  inversion Ht; subst. split; [apply sublist_filter|].
  intros c [Hc _]%list_elem_of_filter.
  destruct (similarity_consultants_ids cache') as [l|] eqn:Hl.
  - exists l. split; [done|]. by apply (similar_ids_Some _ _ _ Hids).
  - exfalso. unfold similar_ids in Hids.
    apply PyFacts.bind_Return in Hids as (line & Hline & Hids).
    destruct line as [|i line]; simpl in Hids; [|discriminate].
    inversion Hids; subst. by apply elem_of_nil in Hc.
Qed.

(** X8.  When the model is cached and one of the neighbours it finds is
    an index outside of the cached list of ids, [predict_similar] catches
    the [IndexError] and returns the empty list. *)
Theorem predict_similar_stale_ids today (db : Database F) cache model ids
    features scale line rest i :
  HAVE_SCIKIT = true →
  similarity_model cache = Some model →
  similarity_consultants_ids cache = Some ids →
  kneighbors model features scale = line :: rest →
  any (line :: rest) = true →
  i ∈ line →
  Z.of_nat (length ids) ≤ i ∨ i < - Z.of_nat (length ids) →
  predict_similar fit HAVE_SCIKIT today db cache features scale
  = Py.Return (PyList [], cache).
Proof.
  intros Hs Hm Hids Hk Hany Hi Hout. unfold predict_similar.
  rewrite (compute_consultant_similarity_from_cache today db _ _ Hs Hm).
  simpl. rewrite Hk, Hany, Hids.
  assert (similar_ids (Some ids) (line :: rest) = Py.Raise Py.IndexError) as ->;
    [|done].
  unfold similar_ids. simpl.
  apply (PyFacts.for_each_collect_raises (Py.list_getitem ids)) with i.
  - done.
  - by apply PyFacts.list_getitem_out_of_range.
  - intros x e _. apply PyFacts.list_getitem_raises.
Qed.

(** X9.  [consultant_cumulated_experience] raises [DoesNotExist] at the
    first row of the timesheets whose lead is missing, be it a mission
    without lead or a lead that the database does not have. *)
Theorem cumulated_experience_lead_missing today (db : Database F) consultant
    before lead_id charge end_date after contributions :
  timesheets_of db (id consultant)
  = before ++ (lead_id, charge, end_date) :: after →
  Forall2 (contribution today db consultant) before contributions →
  lead_id = None ∨ (∃ i, lead_id = Some i ∧ leads db !! i = None) →
  consultant_cumulated_experience today db consultant
  = Py.Raise Py.DoesNotExist.
Proof.
  intros Hrows Hc Hlead. unfold consultant_cumulated_experience.
  rewrite Hrows, PyFacts.for_each_app, (experience_loop _ _ _ _ _ Hc).
  simpl. destruct Hlead as [->|(i & -> & Hi)]; simpl; [done|].
  by rewrite Hi.
Qed.

(** X10.  The features that [consultant_cumulated_experience] returns have
    the four keys of the profile; the entry [experience] is the number of
    days between the first and the last working date, or zero when there
    is none, and the entry of the manager is 1.0 unless the trigramme of
    the manager is the word "experience". *)
Theorem cumulated_experience_profile today (db : Database F) consultant
    features :
  consultant_cumulated_experience today db consultant = Py.Return features →
  features !! "experience"%string
  = Some (Py.Int (match working_dates_of db (id consultant) with
                  | (Some first, Some last) => last - first
                  | _ => 0
                  end)) ∧
  (manager_trigramme consultant ≠ "experience"%string →
   features !! manager_trigramme consultant = Some (Py.Float (Py.of_Z 1))) ∧
  ∀ k, k ∈ profile_keys consultant → is_Some (features !! k).
Proof.
  unfold consultant_cumulated_experience.
  intros (tags & _ & [= <-])%PyFacts.bind_Return.
  unfold profile_features, profile_keys.
  split; [|split].
  - destruct (working_dates_of db (id consultant)) as [[first|] [last|]];
      by rewrite lookup_insert_eq.
  - intros Hne.
    destruct (working_dates_of db (id consultant)) as [[first|] [last|]];
      by rewrite lookup_insert_ne, lookup_insert_eq.
  - intros k Hk.
    apply list_elem_of_In in Hk. simpl in Hk.
    destruct (working_dates_of db (id consultant)) as [[first|] [last|]];
      rewrite !lookup_insert_is_Some'; tauto.
Qed.

End Similarity.


Lemma compute_consultant_similarity_learns_witness :
  (5 ≤ length (filter (λ c, active c = true ∧ productive c = true
                            ∧ subcontractor c = false)
                      (consultants sample_db)))%nat ∧
  similarity_consultants_ids sample_cache = Some [1; 2; 3; 4; 5].
Proof.
  destruct (compute_consultant_similarity_learns (λ _, sample_model) true
              sample_today sample_db empty_cache sample_model sample_cache)
    as (Hlen & features & _ & _ & _ & Hids).
  - reflexivity.
  - vm_compute. reflexivity.
  - split; [exact Hlen|]. rewrite Hids. reflexivity.
Defined.

Lemma predict_similar_consultant_without_model_witness :
  predict_similar_consultant (λ _, sample_model) false sample_today sample_db
    sample_cache alice
  = Py.Raise Py.AttributeError.
Proof.
  apply (predict_similar_consultant_without_model (λ _, sample_model) false
           sample_today sample_db sample_cache alice alice_features).
  - vm_compute. reflexivity.
  - left. reflexivity.
Defined.

Lemma predict_similar_among_cached_ids_witness :
  sample_team `sublist_of` consultants sample_db ∧
  ∃ ids, similarity_consultants_ids sample_cache = Some ids ∧ id alice ∈ ids.
Proof.
  destruct (predict_similar_among_cached_ids (λ _, sample_model) true
              sample_today sample_db sample_cache alice_features true
              sample_team sample_cache) as [Hs Hc].
  - vm_compute. reflexivity.
  - split; [exact Hs|]. apply Hc. constructor.
Defined.

Lemma predict_similar_stale_ids_witness :
  predict_similar (λ _, sample_model) true sample_today sample_db stale_cache
    alice_features true
  = Py.Return (PyList [], stale_cache).
Proof.
  apply (predict_similar_stale_ids (λ _, sample_model) true sample_today
           sample_db stale_cache sample_model [1; 2; 3] alice_features true
           [0; 1; 2; 3; 4] [] 4); try reflexivity.
  - repeat constructor.
  - left. simpl. lia.
Defined.

Lemma cumulated_experience_lead_missing_witness :
  consultant_cumulated_experience sample_today db_without_lead alice
  = Py.Raise Py.DoesNotExist.
Proof.
  apply (cumulated_experience_lead_missing sample_today db_without_lead alice
           [] None (Py.Float (Binary64.of_Z 1)) sample_today [] []).
  - reflexivity.
  - constructor.
  - left. reflexivity.
Defined.

Lemma cumulated_experience_profile_witness :
  alice_features !! "experience"%string = Some (Py.Int 390) ∧
  alice_features !! "BOB"%string = Some (Py.Float (Binary64.of_Z 1)).
Proof.
  destruct (cumulated_experience_profile sample_today sample_db alice
              alice_features) as (H1 & H2 & _).
  - vm_compute. reflexivity.
  - split; [exact H1|]. apply H2. discriminate.
Defined.

End LearnFacts.
